(** * Fractal trading pipeline: signal processor, risk gate, ledger, intake
      queue and real-time box-counting detector

    Shallow embedding of
    - [hft-simulator/distributed_hft_engine.py]
      ([FractalSignalProcessor], [PortfolioManager], [OrderExecutionEngine],
      the pattern-consumer step of [DistributedHFTEngine]) and
    - [kafka-streams/real_time_fractal_consumer.py]
      ([RealTimeFractalDetector]).

    Numbers.  Python floats are modelled by exact rationals [Q]: literals
    such as [0.7] are the rationals they denote, [+ - * /] are exact, and
    comparisons are the rational order.  Rounding, infinities and NaN are
    outside the model.  The two transcendental library calls ([math.log] and
    the square root inside [statistics.stdev]) are section variables of type
    [Q -> Q], so every statement holds for whatever these functions return.
    Division by zero raises, as in Python. *)

From Stdlib Require Import QArith Qabs Qminmax Qround Lqa Lia ZArith.
From stdpp Require Import gmap strings list pretty.

Local Open Scope Q_scope.

(** ** Python numerics on [Q] *)

Module Py.

(** [x < y] as a test. *)
Definition ltb (x y : Q) : bool := negb (Qle_bool y x).

(** [x == y] as a test. *)
Definition eqb (x y : Q) : bool := Qeq_bool x y.

(** Built-in [max(a, b)]: keeps [a] unless [b > a]. *)
Definition max (a b : Q) : Q := if ltb a b then b else a.

(** Built-in [min(a, b)]: keeps [a] unless [b < a]. *)
Definition min (a b : Q) : Q := if ltb b a then b else a.

(** Built-in [int(x)] on a float: truncation towards zero. *)
Definition int (x : Q) : Z := Z.quot (Qnum x) (QDen x).

(** Built-in [sum] over a list of floats.  The running total is kept in
    lowest terms ([Qred] returns the same rational). *)
Definition sum (l : list Q) : Q :=
  fold_left (fun total x => Qred (total + x)) l 0.

(** Exceptions that the modelled code can raise. *)
Inductive exn : Set :=
| ZeroDivisionError
| StatisticsError
| IndexError
| TypeError
| ValueError
| Empty.

(** Outcome of a call that may raise. *)
Inductive result (A : Type) : Type :=
| Ok (a : A)
| Raise (e : exn).
Arguments Ok {A} a.
Arguments Raise {A} e.

Definition bind {A B} (r : result A) (k : A -> result B) : result B :=
  match r with
  | Ok a => k a
  | Raise e => Raise e
  end.

(** Float division [a / b]. *)
Definition div (a b : Q) : result Q :=
  if eqb b 0 then Raise ZeroDivisionError else Ok (a / b).

(** Built-in [min(xs)] on a list: the first least element;
    [ValueError] on an empty list. *)
Definition min_list (xs : list Q) : result Q :=
  match xs with
  | [] => Raise ValueError
  | x :: xs => Ok (fold_left (fun m y => if ltb y m then y else m) xs x)
  end.

(** Built-in [max(xs)] on a list: the first greatest element;
    [ValueError] on an empty list. *)
Definition max_list (xs : list Q) : result Q :=
  match xs with
  | [] => Raise ValueError
  | x :: xs => Ok (fold_left (fun m y => if ltb m y then y else m) xs x)
  end.

(** The slice [xs[-k:]] for [k > 0]: the last [k] elements. *)
Definition last_n {A} (k : nat) (xs : list A) : list A :=
  drop (length xs - k) xs.

End Py.

(** [x ← r; k] runs [r] and passes its value on, or propagates what it
    raised. *)
#[global] Instance result_bind : MBind Py.result :=
  fun A B k r => Py.bind r k.
#[global] Instance result_ret : MRet Py.result := @Py.Ok.

(** ** [distributed_hft_engine.py]: enums and dataclasses *)

Inductive OrderType : Set := MARKET | LIMIT | STOP_LOSS | TAKE_PROFIT.
Inductive OrderSide : Set := BUY | SELL.
Inductive ExecutionStatus : Set := PENDING | FILLED | PARTIAL | CANCELLED | REJECTED.

Definition OrderType_eqb (a b : OrderType) : bool :=
  match a, b with
  | MARKET, MARKET | LIMIT, LIMIT | STOP_LOSS, STOP_LOSS
  | TAKE_PROFIT, TAKE_PROFIT => true
  | _, _ => false
  end.

Definition OrderSide_eqb (a b : OrderSide) : bool :=
  match a, b with
  | BUY, BUY | SELL, SELL => true
  | _, _ => false
  end.

Definition ExecutionStatus_eqb (a b : ExecutionStatus) : bool :=
  match a, b with
  | PENDING, PENDING | FILLED, FILLED | PARTIAL, PARTIAL
  | CANCELLED, CANCELLED | REJECTED, REJECTED => true
  | _, _ => false
  end.

Module Order.
Record t : Type := mk {
  order_id : string;
  symbol : string;
  side : OrderSide;
  order_type : OrderType;
  quantity : Q;
  price : option Q;
  timestamp_us : Z;
  client_id : string;
  execution_status : ExecutionStatus;
  filled_quantity : Q;
  average_fill_price : Q;
  commission : Q;
  fractal_signal : option string;
  risk_score : Q
}.

(** [order.timestamp_us = ts]. *)
Definition set_timestamp_us (ts : Z) (o : t) : t :=
  mk (order_id o) (symbol o) (side o) (order_type o) (quantity o) (price o)
     ts (client_id o) (execution_status o) (filled_quantity o)
     (average_fill_price o) (commission o) (fractal_signal o) (risk_score o).

Definition option_eqb {A} (f : A -> A -> bool) (a b : option A) : bool :=
  match a, b with
  | Some x, Some y => f x y
  | None, None => true
  | _, _ => false
  end.

(** The [__eq__] that [@dataclass] generates: field-wise comparison.
    The decorator is used without [order=True], so no [__lt__] exists. *)
Definition eqb (a b : t) : bool :=
  String.eqb (order_id a) (order_id b)
  && String.eqb (symbol a) (symbol b)
  && OrderSide_eqb (side a) (side b)
  && OrderType_eqb (order_type a) (order_type b)
  && Py.eqb (quantity a) (quantity b)
  && option_eqb Py.eqb (price a) (price b)
  && Z.eqb (timestamp_us a) (timestamp_us b)
  && String.eqb (client_id a) (client_id b)
  && ExecutionStatus_eqb (execution_status a) (execution_status b)
  && Py.eqb (filled_quantity a) (filled_quantity b)
  && Py.eqb (average_fill_price a) (average_fill_price b)
  && Py.eqb (commission a) (commission b)
  && option_eqb String.eqb (fractal_signal a) (fractal_signal b)
  && Py.eqb (risk_score a) (risk_score b).
End Order.

Module Position.
Record t : Type := mk {
  symbol : string;
  quantity : Q;
  average_price : Q;
  market_value : Q;
  unrealized_pnl : Q;
  realized_pnl : Q;
  last_update_us : Z
}.
End Position.

Module TradeExecution.
Record t : Type := mk {
  trade_id : string;
  order_id : string;
  symbol : string;
  side : OrderSide;
  quantity : Q;
  price : Q;
  timestamp_us : Z;
  execution_latency_us : Z;
  commission : Q;
  fractal_pattern : option string
}.
End TradeExecution.

(** The keys of a [fractal-patterns] message that the engine reads. *)
Module PatternData.
Record t : Type := mk {
  symbol : string;
  pattern_type : string;
  confidence : Q;
  risk_score : Q;
  prediction_signal : string
}.
End PatternData.

(** The [trading_signal] dict built by [process_fractal_pattern]. *)
Module Signal.
Record t : Type := mk {
  symbol : string;
  action : string;
  signal_strength : Q;
  position_size : Q;
  confidence : Q;
  risk_score : Q;
  pattern_type : string;
  timestamp_us : Z;
  priority : string
}.
End Signal.

(** ** [FractalSignalProcessor] *)

Module FractalSignalProcessor.

Definition confidence_threshold : Q := 7 # 10.
Definition risk_threshold : Q := 15 # 10.

(** [pattern_multipliers.get(pattern_type, 1.0)] *)
Definition pattern_multipliers (pattern_type : string) : Q :=
  if String.eqb pattern_type "VOLATILE_BREAKOUT" then 12 # 10
  else if String.eqb pattern_type "VOLATILE_UPTREND" then 11 # 10
  else if String.eqb pattern_type "VOLATILE_DOWNTREND" then 11 # 10
  else if String.eqb pattern_type "TRENDING_FRACTAL" then 105 # 100
  else if String.eqb pattern_type "SMOOTH_TREND" then 9 # 10
  else if String.eqb pattern_type "VOLATILE_RANGE" then 8 # 10
  else if String.eqb pattern_type "CHOPPY" then 6 # 10
  else 1.

(** [signal_multipliers.get(prediction_signal, 1.0)] *)
Definition signal_multipliers (prediction_signal : string) : Q :=
  if String.eqb prediction_signal "STRONG_BUY" then 13 # 10
  else if String.eqb prediction_signal "STRONG_SELL" then 13 # 10
  else if String.eqb prediction_signal "BUY" then 11 # 10
  else if String.eqb prediction_signal "SELL" then 11 # 10
  else if String.eqb prediction_signal "HOLD" then 7 # 10
  else if String.eqb prediction_signal "NEUTRAL" then 5 # 10
  else if String.eqb prediction_signal "AVOID" then 2 # 10
  else 1.

Definition _calculate_signal_strength (pattern_type : string)
    (confidence risk_score : Q) (prediction_signal : string) : Q :=
  let strength := confidence in
  let strength := strength * pattern_multipliers pattern_type in
  let strength := strength * signal_multipliers prediction_signal in
  let risk_penalty := Py.min (3 # 10) (risk_score * (15 # 100)) in
  let strength := strength - risk_penalty in
  Py.max 0 (Py.min 1 strength).

Definition _calculate_position_size (signal_strength risk_score : Q) : Q :=
  let base_size := 1000 in
  let strength_multiplier := (5 # 10) + signal_strength * (15 # 10) in
  let risk_multiplier := Py.max (2 # 10) (1 - risk_score * (3 # 10)) in
  let position_size := base_size * strength_multiplier * risk_multiplier in
  Py.max 100 (Py.min 10000 position_size).

(** [self.signal_history]: [defaultdict(deque)], symbol to signals. *)
Record t : Type := mk {
  signal_history : gmap string (list Signal.t)
}.

Definition __init__ : t := mk ∅.

(** [history.append(s)] followed by one [popleft()] when longer than 100. *)
Definition append_bounded (history : list Signal.t) (s : Signal.t)
  : list Signal.t :=
  let history := history ++ [s] in
  if (100 <? length history)%nat then tail history else history.

(** [process_fractal_pattern]; [now] is [int(time.time() * 1_000_000)].
    Returns the signal (or [None]) and the processor after the call. *)
Definition process_fractal_pattern (self : t) (now : Z)
    (pattern_data : PatternData.t) : option Signal.t * t :=
  let symbol := PatternData.symbol pattern_data in
  let pattern_type := PatternData.pattern_type pattern_data in
  let confidence := PatternData.confidence pattern_data in
  let risk_score := PatternData.risk_score pattern_data in
  let prediction_signal := PatternData.prediction_signal pattern_data in
  if Py.ltb confidence confidence_threshold then (None, self)
  else if Py.ltb risk_threshold risk_score then (None, self)
  else
    let signal_strength :=
      _calculate_signal_strength pattern_type confidence risk_score
                                 prediction_signal in
    let position_size := _calculate_position_size signal_strength risk_score in
    let trading_signal :=
      Signal.mk symbol prediction_signal signal_strength position_size
                confidence risk_score pattern_type now
                (if Py.ltb (8 # 10) signal_strength then "HIGH" else "MEDIUM") in
    let history := default [] (signal_history self !! symbol) in
    (Some trading_signal,
     mk (<[symbol := append_bounded history trading_signal]>
           (signal_history self))).

End FractalSignalProcessor.

(** ** [PortfolioManager] *)

(** The reason string returned by [check_risk_limits], with the numbers
    that the f-strings format. *)
Inductive RiskMessage : Type :=
| Position_size_exceeds_limit (position_percentage limit : Q)
| Total_exposure_exceeds_limit (total_exposure limit : Q)
| Insufficient_capital_for_purchase
| Risk_checks_passed.

Module PortfolioManager.

(** Risk parameters: set once in [__init__], never assigned again. *)
Definition max_position_size : Q := 5 # 100.
Definition max_total_exposure : Q := 8 # 10.

Record t : Type := mk {
  initial_capital : Q;
  current_capital : Q;
  positions : gmap string Position.t;
  total_trades : Z;
  winning_trades : Z;
  total_pnl : Q;
  max_drawdown : Q;
  peak_portfolio_value : Q
}.

Definition __init__ (initial_capital : Q) : t :=
  mk initial_capital initial_capital ∅ 0 0 0 0 initial_capital.

(** One iteration of the loop of [calculate_portfolio_value]: the
    position after the refresh of [market_value] and [unrealized_pnl]. *)
Definition refresh (current_prices : gmap string Q) (symbol : string)
    (position : Position.t) : Position.t :=
  match current_prices !! symbol with
  | Some price =>
      let market_value := Position.quantity position * price in
      Position.mk (Position.symbol position) (Position.quantity position)
        (Position.average_price position) market_value
        (market_value
         - Position.quantity position * Position.average_price position)
        (Position.realized_pnl position) (Position.last_update_us position)
  | None => position
  end.

(** [calculate_portfolio_value]: the returned total and the manager with
    the refreshed positions.  Symbols absent from [current_prices] add
    nothing to the total and stay as they are. *)
Definition calculate_portfolio_value (self : t)
    (current_prices : gmap string Q) : Q * t :=
  let total_value :=
    map_fold (fun symbol position total_value =>
                match current_prices !! symbol with
                | Some price =>
                    total_value + Position.quantity position * price
                | None => total_value
                end)
             (current_capital self) (positions self) in
  (total_value,
   mk (initial_capital self) (current_capital self)
      (map_imap (fun symbol position =>
                   Some (refresh current_prices symbol position))
                (positions self))
      (total_trades self) (winning_trades self) (total_pnl self)
      (max_drawdown self) (peak_portfolio_value self)).

(** [sum(pos.market_value for pos in self.positions.values())] *)
Definition sum_market_value (positions : gmap string Position.t) : Q :=
  map_fold (fun _ pos acc => acc + Position.market_value pos) 0 positions.

(** [sum(abs(pos.market_value) for pos in self.positions.values())] *)
Definition sum_abs_market_value (positions : gmap string Position.t) : Q :=
  map_fold (fun _ pos acc => acc + Qabs (Position.market_value pos)) 0
           positions.

(** [check_risk_limits].  The divisor [max(portfolio_value, 1.0)] is at
    least 1, so the two divisions cannot raise. *)
Definition check_risk_limits (self : t) (order : Order.t)
    (current_price : Q) : bool * RiskMessage :=
  let order_value := Order.quantity order * current_price in
  let portfolio_value :=
    current_capital self + sum_market_value (positions self) in
  let position_percentage := order_value / Py.max portfolio_value 1 in
  if Py.ltb max_position_size position_percentage then
    (false, Position_size_exceeds_limit position_percentage max_position_size)
  else
    let current_exposure := sum_abs_market_value (positions self) in
    let total_exposure :=
      (current_exposure + order_value) / Py.max portfolio_value 1 in
    if Py.ltb max_total_exposure total_exposure then
      (false, Total_exposure_exceeds_limit total_exposure max_total_exposure)
    else if OrderSide_eqb (Order.side order) BUY
            && Py.ltb (current_capital self * (95 # 100)) order_value then
      (false, Insufficient_capital_for_purchase)
    else (true, Risk_checks_passed).

(** Lines 289-329 of [update_position]: the position of the traded
    symbol (created empty when absent), the trade booked on it, cash and
    counters. *)
Definition book_trade (self : t) (trade : TradeExecution.t) : t :=
  let symbol := TradeExecution.symbol trade in
  let position :=
    match positions self !! symbol with
    | Some position => position
    | None => Position.mk symbol 0 0 0 0 0 (TradeExecution.timestamp_us trade)
    end in
  let q := TradeExecution.quantity trade in
  let p := TradeExecution.price trade in
  match TradeExecution.side trade with
  | BUY =>
      let new_quantity := Position.quantity position + q in
      let average_price :=
        if negb (Py.eqb new_quantity 0) then
          (Position.quantity position * Position.average_price position
           + q * p) / new_quantity
        else Position.average_price position in
      let position :=
        Position.mk (Position.symbol position) new_quantity average_price
          (Position.market_value position) (Position.unrealized_pnl position)
          (Position.realized_pnl position) (TradeExecution.timestamp_us trade) in
      mk (initial_capital self)
         (current_capital self - (q * p + TradeExecution.commission trade))
         (<[symbol := position]> (positions self))
         (total_trades self + 1) (winning_trades self) (total_pnl self)
         (max_drawdown self) (peak_portfolio_value self)
  | SELL =>
      let realized_pnl := (p - Position.average_price position) * q in
      let position :=
        Position.mk (Position.symbol position) (Position.quantity position - q)
          (Position.average_price position)
          (Position.market_value position) (Position.unrealized_pnl position)
          (Position.realized_pnl position + realized_pnl)
          (TradeExecution.timestamp_us trade) in
      mk (initial_capital self)
         (current_capital self + (q * p - TradeExecution.commission trade))
         (<[symbol := position]> (positions self))
         (total_trades self + 1)
         (if Py.ltb 0 realized_pnl then winning_trades self + 1
          else winning_trades self)
         (total_pnl self + realized_pnl)
         (max_drawdown self) (peak_portfolio_value self)
  end.

(** [update_position].  Returns the manager as the call leaves it, the
    value passed to [PORTFOLIO_VALUE.set] (the recomputed
    [current_portfolio_value]) and whether the call returned or raised:
    the drawdown division raises when the peak is zero, after cash and
    positions have been written. *)
Definition update_position (self : t) (trade : TradeExecution.t)
  : t * Q * Py.result unit :=
  let self := book_trade self trade in
  let '(current_portfolio_value, self) :=
    calculate_portfolio_value self
      {[ TradeExecution.symbol trade := TradeExecution.price trade ]} in
  if Py.ltb (peak_portfolio_value self) current_portfolio_value then
    (mk (initial_capital self) (current_capital self) (positions self)
        (total_trades self) (winning_trades self) (total_pnl self)
        (max_drawdown self) current_portfolio_value,
     current_portfolio_value, Py.Ok tt)
  else
    match Py.div (peak_portfolio_value self - current_portfolio_value)
                 (peak_portfolio_value self) with
    | Py.Ok drawdown =>
        (mk (initial_capital self) (current_capital self) (positions self)
            (total_trades self) (winning_trades self) (total_pnl self)
            (Py.max (max_drawdown self) drawdown) (peak_portfolio_value self),
         current_portfolio_value, Py.Ok tt)
    | Py.Raise e => (self, current_portfolio_value, Py.Raise e)
    end.

(** The manager after a sequence of trade updates, each applied to what
    the previous call left behind. *)
Definition apply_trades (self : t) (trades : list TradeExecution.t) : t :=
  fold_left (fun self trade => (update_position self trade).1.1) trades self.

End PortfolioManager.

(** ** The intake queue: [queue.PriorityQueue] holding [(priority, order)]

    [PriorityQueue._put] is [heapq.heappush] and [PriorityQueue._get] is
    [heapq.heappop] on a Python list; the functions below follow CPython's
    [_heapq] accelerator, which swaps entries in place, so the list keeps
    whatever was written before a comparison raises. *)

Module heapq.

Definition item : Type := Z * Order.t.

(** [a < b] on the tuples [(priority, order)]: the first differing
    component decides.  Equal priorities defer to the orders, which
    compare equal field by field or else have no [<]: [TypeError]. *)
Definition lt (a b : item) : Py.result bool :=
  if negb (a.1 =? b.1)%Z then Py.Ok (a.1 <? b.1)%Z
  else if Order.eqb a.2 b.2 then Py.Ok false
  else Py.Raise Py.TypeError.

(** [siftdown(heap, startpos, pos)]: move the entry at [pos] towards the
    root while it is smaller than its parent.  [fuel] bounds the loop;
    [pos] is enough since it at least halves per round. *)
Fixpoint siftdown (fuel : nat) (heap : list item) (startpos pos : nat)
  : list item * Py.result unit :=
  match fuel with
  | O => (heap, Py.Ok tt)
  | S fuel =>
      if (startpos <? pos)%nat then
        let parentpos := ((pos - 1) / 2)%nat in
        match heap !! pos, heap !! parentpos with
        | Some newitem, Some parent =>
            match lt newitem parent with
            | Py.Raise e => (heap, Py.Raise e)
            | Py.Ok false => (heap, Py.Ok tt)
            | Py.Ok true =>
                siftdown fuel
                  (<[pos := parent]> (<[parentpos := newitem]> heap))
                  startpos parentpos
            end
        | _, _ => (heap, Py.Raise Py.IndexError)
        end
      else (heap, Py.Ok tt)
  end.

(** The loop of [siftup(heap, pos)]: swap the entry at [pos] with its
    smaller child until a leaf is reached; returns the leaf position. *)
Fixpoint bubble_to_leaf (fuel : nat) (heap : list item) (pos : nat)
  : list item * Py.result nat :=
  match fuel with
  | O => (heap, Py.Ok pos)
  | S fuel =>
      let endpos := length heap in
      if (pos <? endpos / 2)%nat then
        let childpos := (2 * pos + 1)%nat in
        let pick :=
          if (childpos + 1 <? endpos)%nat then
            match heap !! childpos, heap !! (childpos + 1)%nat with
            | Some a, Some b =>
                cmp ← lt a b;
                Py.Ok (if cmp : bool then childpos else (childpos + 1)%nat)
            | _, _ => Py.Raise Py.IndexError
            end
          else Py.Ok childpos in
        match pick with
        | Py.Raise e => (heap, Py.Raise e)
        | Py.Ok childpos =>
            match heap !! childpos, heap !! pos with
            | Some tmp1, Some tmp2 =>
                bubble_to_leaf fuel
                  (<[pos := tmp1]> (<[childpos := tmp2]> heap)) childpos
            | _, _ => (heap, Py.Raise Py.IndexError)
            end
        end
      else (heap, Py.Ok pos)
  end.

(** [siftup(heap, pos)] *)
Definition siftup (heap : list item) (pos : nat)
  : list item * Py.result unit :=
  match bubble_to_leaf (length heap) heap pos with
  | (heap, Py.Ok leaf) => siftdown (length heap) heap pos leaf
  | (heap, Py.Raise e) => (heap, Py.Raise e)
  end.

(** [heappush(heap, item)]: append, then sift.  The entry stays appended
    when the sift raises. *)
Definition heappush (heap : list item) (x : item)
  : list item * Py.result unit :=
  let heap := heap ++ [x] in
  siftdown (length heap) heap 0 (length heap - 1).

(** [heappop(heap)]: remove the last entry; if the list is then
    non-empty, put it at the root, sift, and return the old root.  When
    the sift raises, the old root is already off the list and is not
    returned. *)
Definition heappop (heap : list item) : list item * Py.result item :=
  match last heap with
  | None => (heap, Py.Raise Py.IndexError)
  | Some lastelt =>
      let heap := removelast heap in
      match heap with
      | [] => (heap, Py.Ok lastelt)
      | returnitem :: rest =>
          match siftup (lastelt :: rest) 0 with
          | (heap, Py.Ok _) => (heap, Py.Ok returnitem)
          | (heap, Py.Raise e) => (heap, Py.Raise e)
          end
      end
  end.

End heapq.

(** ** [OrderExecutionEngine]: intake *)

Module OrderExecutionEngine.

Record t : Type := mk {
  execution_queue : list heapq.item;
  market_data : gmap string Q;
  (** the [EXECUTION_ERRORS] counter *)
  execution_errors : Z
}.

Definition __init__ : t := mk [] ∅ 0.

(** [submit_order]: stamps the order, puts [(priority, order)] on the
    queue; whatever the put raises is logged and counted. *)
Definition submit_order (self : t) (now : Z) (order : Order.t)
    (priority : Z) : t :=
  let order := Order.set_timestamp_us now order in
  match heapq.heappush (execution_queue self) (priority, order) with
  | (queue, Py.Ok _) => mk queue (market_data self) (execution_errors self)
  | (queue, Py.Raise _) =>
      mk queue (market_data self) (execution_errors self + 1)
  end.

Definition update_market_data (self : t) (symbol : string) (price : Q) : t :=
  mk (execution_queue self) (<[symbol := price]> (market_data self))
     (execution_errors self).

(** [self.execution_queue.get(timeout=1)]: [queue.Empty] when nothing is
    queued. *)
Definition get (queue : list heapq.item)
  : list heapq.item * Py.result heapq.item :=
  match queue with
  | [] => (queue, Py.Raise Py.Empty)
  | _ => heapq.heappop queue
  end.

(** One round of the loop of [_process_execution_queue]: the order handed
    to the worker pool, if the [get] returned one.  [queue.Empty] is
    skipped; any other exception is logged and counted. *)
Definition process_one (self : t) : option Order.t * t :=
  match get (execution_queue self) with
  | (queue, Py.Ok (_, order)) =>
      (Some order, mk queue (market_data self) (execution_errors self))
  | (queue, Py.Raise Py.Empty) =>
      (None, mk queue (market_data self) (execution_errors self))
  | (queue, Py.Raise _) =>
      (None, mk queue (market_data self) (execution_errors self + 1))
  end.

(** [n] rounds of the loop, with the orders handed over in that order. *)
Fixpoint process_rounds (n : nat) (self : t) : list Order.t * t :=
  match n with
  | O => ([], self)
  | S n =>
      let '(handed, self) := process_one self in
      let '(rest, self) := process_rounds n self in
      (match handed with Some o => o :: rest | None => rest end, self)
  end.

End OrderExecutionEngine.

(** ** [DistributedHFTEngine]: from pattern message to submitted order *)

Module DistributedHFTEngine.

Record t : Type := mk {
  portfolio_manager : PortfolioManager.t;
  execution_engine : OrderExecutionEngine.t;
  signal_processor : FractalSignalProcessor.t;
  signals_processed : Z;
  orders_generated : Z;
  (** records sent to the [hft-orders] topic, oldest first *)
  order_output : list Order.t
}.

Definition __init__ : t :=
  mk (PortfolioManager.__init__ 1000000) OrderExecutionEngine.__init__
     FractalSignalProcessor.__init__ 0 0 [].

(** [_create_order_from_signal]; [now] is the clock read for the id. *)
Definition _create_order_from_signal (now : Z) (signal : Signal.t)
  : option Order.t :=
  let symbol := Signal.symbol signal in
  let action := Signal.action signal in
  let position_size := Signal.position_size signal in
  let side :=
    if String.eqb action "BUY" || String.eqb action "STRONG_BUY"
    then Some BUY
    else if String.eqb action "SELL" || String.eqb action "STRONG_SELL"
    then Some SELL
    else None in
  match side with
  | None => None
  | Some side =>
      let order_id := ("HFT_" +:+ pretty now +:+ "_" +:+ symbol)%string in
      Some (Order.mk order_id symbol side MARKET position_size None
              (Signal.timestamp_us signal) "HFT_ENGINE" PENDING 0 0 0
              (Some (Signal.pattern_type signal)) (Signal.risk_score signal))
  end.

(** The body of the loop of [_consume_fractal_patterns] for one message.
    [t_signal], [t_order] and [t_submit] are the three clock reads. *)
Definition on_pattern (self : t) (t_signal t_order t_submit : Z)
    (pattern_data : PatternData.t) : t :=
  let '(signal, signal_processor) :=
    FractalSignalProcessor.process_fractal_pattern
      (signal_processor self) t_signal pattern_data in
  match signal with
  | None =>
      mk (portfolio_manager self) (execution_engine self) signal_processor
         (signals_processed self) (orders_generated self) (order_output self)
  | Some signal =>
      match _create_order_from_signal t_order signal with
      | None =>
          mk (portfolio_manager self) (execution_engine self)
             signal_processor (signals_processed self + 1)
             (orders_generated self) (order_output self)
      | Some order =>
          let priority :=
            if String.eqb (Signal.priority signal) "HIGH" then 0%Z else 1%Z in
          mk (portfolio_manager self)
             (OrderExecutionEngine.submit_order (execution_engine self)
                t_submit order priority)
             signal_processor (signals_processed self + 1)
             (orders_generated self + 1)
             (order_output self
                ++ [Order.set_timestamp_us t_submit order])
      end
  end.

End DistributedHFTEngine.

(** ** [real_time_fractal_consumer.py] *)

(** [statistics.mean] and [statistics.stdev].  Both work on exact
    fractions; [stdev] takes the square root of the exact sample variance. *)
Module statistics.

Definition mean (data : list Q) : Py.result Q :=
  match data with
  | [] => Py.Raise Py.StatisticsError
  | _ => Py.Ok (Py.sum data / inject_Z (Z.of_nat (length data)))
  end.

Definition variance (data : list Q) : Py.result Q :=
  if (length data <? 2)%nat then Py.Raise Py.StatisticsError
  else
    let n := inject_Z (Z.of_nat (length data)) in
    let xbar := Py.sum data / n in
    Py.Ok (Py.sum (map (fun x => (x - xbar) * (x - xbar)) data) / (n - 1)).

Definition stdev (sqrt : Q -> Q) (data : list Q) : Py.result Q :=
  var ← variance data; Py.Ok (sqrt var).

End statistics.

Module FractalPattern.
Record t : Type := mk {
  symbol : string;
  pattern_type : string;
  start_time_us : Z;
  end_time_us : Z;
  duration_ms : Z;
  fractal_dimension : Q;
  confidence : Q;
  price_range : Q * Q;
  volatility_avg : Q;
  pattern_strength : Q;
  prediction_signal : string;
  risk_score : Q
}.
End FractalPattern.

Module RealTimeFractalDetector.

(** Detection parameters, set once in [__init__]. *)
Definition min_pattern_strength : Q := 6 # 10.
Definition anomaly_threshold : Q := 2.
Definition volatility_threshold : Q := 5 # 100.

(** [[(prices[i] - prices[i-1]) / prices[i-1] for i in range(1, len(prices))]] *)
Fixpoint simple_returns (prices : list Q) : Py.result (list Q) :=
  match prices with
  | prev :: rest =>
      match rest with
      | cur :: _ =>
          r ← Py.div (cur - prev) prev;
          rs ← simple_returns rest;
          Py.Ok (r :: rs)
      | [] => Py.Ok []
      end
  | [] => Py.Ok []
  end.

(** The set built by the inner loop of [_fast_box_counting]: the cells
    [(i // box_size, int(price * box_size))] of all samples but the last. *)
Definition boxes (normalized : list Q) (box_size : Z) : gset (Z * Z) :=
  list_to_set
    (imap (fun i price =>
             ((Z.of_nat i / box_size)%Z, Py.int (price * inject_Z box_size)))
          (removelast normalized)).

Section Kernel.

(** [math.log] on floats. *)
Variable ln : Q -> Q.
(** The square root taken by [statistics.stdev]. *)
Variable sqrt : Q -> Q.

(** The loop over [box_sizes], with its [break], accumulating
    [log_sizes] and [log_counts]. *)
Fixpoint box_loop (len_prices : Z) (normalized : list Q)
    (box_sizes : list Z) (log_sizes log_counts : list Q)
  : list Q * list Q :=
  match box_sizes with
  | [] => (log_sizes, log_counts)
  | box_size :: box_sizes =>
      if (len_prices / 3 <=? box_size)%Z then (log_sizes, log_counts)
      else
        let boxes := boxes normalized box_size in
        if (1 <? size boxes)%nat then
          box_loop len_prices normalized box_sizes
            (log_sizes ++ [ln (1 / inject_Z box_size)])
            (log_counts ++ [ln (inject_Z (Z.of_nat (size boxes)))])
        else box_loop len_prices normalized box_sizes log_sizes log_counts
  end.

(** [[(p - min_price) / price_range for p in prices]] *)
Definition normalized (prices : list Q) (min_price price_range : Q)
  : list Q :=
  map (fun p => (p - min_price) / price_range) prices.

(** [log_sizes] and [log_counts] as the loop leaves them. *)
Definition log_points (prices : list Q) (min_price price_range : Q)
  : list Q * list Q :=
  box_loop (Z.of_nat (length prices))
           (normalized prices min_price price_range)
           [1; 2; 4; 8; 16]%Z [] [].

(** [denom = n * sum_xx - sum_x * sum_x] *)
Definition denom (log_sizes : list Q) : Q :=
  let n := inject_Z (Z.of_nat (length log_sizes)) in
  let sum_x := Py.sum log_sizes in
  let sum_xx := Py.sum (map (fun x => x * x) log_sizes) in
  n * sum_xx - sum_x * sum_x.

(** Lines 216-231: the least-squares slope, clamped. *)
Definition fit (log_sizes log_counts : list Q) : Py.result Q :=
  if (length log_sizes <? 2)%nat then Py.Ok 1
  else
    let n := inject_Z (Z.of_nat (length log_sizes)) in
    let sum_x := Py.sum log_sizes in
    let sum_y := Py.sum log_counts in
    let sum_xy :=
      Py.sum (map (fun xy => xy.1 * xy.2) (zip log_sizes log_counts)) in
    if Py.ltb (Qabs (denom log_sizes)) (1 # 10000000000) then Py.Ok 1
    else
      slope ← Py.div (n * sum_xy - sum_x * sum_y) (denom log_sizes);
      Py.Ok (Py.max 1 (Py.min 2 slope)).

Definition _fast_box_counting (prices : list Q) : Py.result Q :=
  if (length prices <? 10)%nat then Py.Ok 1
  else
    min_price ← Py.min_list prices;
    max_price ← Py.max_list prices;
    let price_range := max_price - min_price in
    if Py.eqb price_range 0 then Py.Ok 1
    else
      let '(log_sizes, log_counts) :=
        log_points prices min_price price_range in
      fit log_sizes log_counts.

Definition _classify_pattern (prices volatilities : list Q)
    (fractal_dim : Q) : Py.result string :=
  avg_vol ← statistics.mean volatilities;
  returns ← simple_returns prices;
  let trend :=
    if (10 <=? length returns)%nat then Py.sum (Py.last_n 10 returns)
    else 0 in
  Py.Ok
    (if Py.ltb fractal_dim (12 # 10) then
       if Py.ltb (1 # 100) (Qabs trend) then "SMOOTH_TREND" else "SIDEWAYS"
     else if Py.ltb (18 # 10) fractal_dim then
       if Py.ltb volatility_threshold avg_vol then "VOLATILE_BREAKOUT"
       else "CHOPPY"
     else if Py.ltb (16 # 10) fractal_dim then
       if Py.ltb (2 # 100) trend then "VOLATILE_UPTREND"
       else if Py.ltb trend (- (2 # 100)) then "VOLATILE_DOWNTREND"
       else "VOLATILE_RANGE"
     else if Py.ltb (14 # 10) fractal_dim then
       if Py.ltb (15 # 1000) (Qabs trend) then "TRENDING_FRACTAL"
       else "RANGE_FRACTAL"
     else "NORMAL_MOVEMENT")%string.

Definition _calculate_confidence (prices : list Q) (fractal_dim : Q)
    (volatilities : list Q) : Py.result Q :=
  let dim_score := 1 - Qabs (fractal_dim - (15 # 10)) / (5 # 10) in
  let dim_score := Py.max 0 (Py.min 1 dim_score) in
  max_price ← Py.max_list prices;
  min_price ← Py.min_list prices;
  mean_price ← statistics.mean prices;
  price_range ← Py.div (max_price - min_price) mean_price;
  let range_score := Py.min 1 (price_range * 20) in
  sd ← statistics.stdev sqrt volatilities;
  mean_vol ← statistics.mean volatilities;
  let vol_consistency := 1 - sd / Py.max mean_vol (1 # 1000) in
  let vol_consistency := Py.max 0 (Py.min 1 vol_consistency) in
  let length_score :=
    Py.min 1 (inject_Z (Z.of_nat (length prices)) / 50) in
  let confidence :=
    dim_score * (3 # 10) + range_score * (3 # 10)
    + vol_consistency * (2 # 10) + length_score * (2 # 10) in
  Py.Ok (Py.max 0 (Py.min 1 confidence)).

Definition _calculate_pattern_strength (prices volatilities : list Q)
  : Py.result Q :=
  returns ← simple_returns prices;
  let momentum :=
    if (5 <=? length returns)%nat then Qabs (Py.sum (Py.last_n 5 returns))
    else 0 in
  mean_vol ← statistics.mean volatilities;
  let vol_strength := mean_vol / (2 # 100) in
  let strength := (momentum * 10 + vol_strength) / 2 in
  Py.Ok (Py.max 0 (Py.min 1 strength)).

Definition _generate_prediction_signal (pattern_type : string)
    (fractal_dim strength : Q) : string :=
  if Py.ltb strength (3 # 10) then "NEUTRAL"%string
  else
    let base_signal :=
      (if String.eqb pattern_type "VOLATILE_UPTREND" then "BUY"
       else if String.eqb pattern_type "VOLATILE_BREAKOUT" then
         if Py.ltb (17 # 10) fractal_dim then "BUY" else "NEUTRAL"
       else if String.eqb pattern_type "SMOOTH_TREND" then "HOLD"
       else if String.eqb pattern_type "VOLATILE_DOWNTREND" then "SELL"
       else if String.eqb pattern_type "TRENDING_FRACTAL" then "HOLD"
       else if String.eqb pattern_type "VOLATILE_RANGE" then "NEUTRAL"
       else if String.eqb pattern_type "CHOPPY" then "AVOID"
       else "NEUTRAL")%string in
    if Py.ltb (8 # 10) strength then
      if String.eqb base_signal "BUY" then "STRONG_BUY"%string
      else if String.eqb base_signal "SELL" then "STRONG_SELL"%string
      else base_signal
    else if Py.ltb strength (4 # 10) then
      if negb (String.eqb base_signal "NEUTRAL")
      then ("WEAK_" +:+ base_signal)%string
      else "NEUTRAL"%string
    else base_signal.

Definition _calculate_risk_score (volatilities : list Q)
    (fractal_dim : Q) : Py.result Q :=
  avg_vol ← statistics.mean volatilities;
  max_vol ← Py.max_list volatilities;
  let vol_spike := max_vol / Py.max avg_vol (1 # 1000) in
  let volatility_risk := Py.min 2 (avg_vol / (3 # 100)) in
  let fractal_risk := Py.max 0 ((fractal_dim - (15 # 10)) * 2) in
  let spike_risk := Py.max 0 ((vol_spike - 2) / 2) in
  Py.Ok (volatility_risk + fractal_risk + spike_risk).

(** [_detect_pattern_in_window]; [buffer] holds
    [(timestamp_us, price, volatility)], oldest first.  The anomaly
    branch only logs and counts, and is left out. *)
Definition _detect_pattern_in_window (symbol : string)
    (buffer : list (Z * Q * Q)) (window_size : Z)
  : Py.result (option FractalPattern.t) :=
  if (Z.of_nat (length buffer) <? window_size)%Z then Py.Ok None
  else
    let timestamps := map (fun item => item.1.1) buffer in
    let prices := map (fun item => item.1.2) buffer in
    let volatilities := map (fun item => item.2) buffer in
    fractal_dim ← _fast_box_counting prices;
    pattern_type ← _classify_pattern prices volatilities fractal_dim;
    if String.eqb pattern_type "NO_PATTERN" then Py.Ok None
    else
      confidence ← _calculate_confidence prices fractal_dim volatilities;
      if Py.ltb confidence min_pattern_strength then Py.Ok None
      else
        strength ← _calculate_pattern_strength prices volatilities;
        let signal :=
          _generate_prediction_signal pattern_type fractal_dim strength in
        risk_score ← _calculate_risk_score volatilities fractal_dim;
        match head timestamps, last timestamps with
        | Some first_ts, Some last_ts =>
            min_price ← Py.min_list prices;
            max_price ← Py.max_list prices;
            volatility_avg ← statistics.mean volatilities;
            Py.Ok (Some (FractalPattern.mk symbol pattern_type
                           first_ts last_ts ((last_ts - first_ts) / 1000)%Z
                           fractal_dim confidence (min_price, max_price)
                           volatility_avg strength signal risk_score))
        | _, _ => Py.Raise Py.IndexError
        end.

End Kernel.

End RealTimeFractalDetector.

(** ** [OrderExecutionEngine]: execution of one order *)

Module Execution.

(** Execution parameters, set once in [__init__]. *)
Definition slippage_model : Q := 1 # 10000.
Definition commission_rate : Q := 5 # 10000.

(** Rounding to the nearest integer, ties to the even one. *)
Definition round_half_even (x : Q) : Z :=
  let f := Qfloor x in
  let r := x - inject_Z f in
  if Py.ltb r (1 # 2) then f
  else if Py.ltb (1 # 2) r then (f + 1)%Z
  else if Z.even f then f else (f + 1)%Z.

(** Built-in [round(x, 4)]. *)
Definition round4 (x : Q) : Q := round_half_even (x * 10000) # 10000.

(** [_calculate_execution_price]; [gauss] is what
    [random.gauss(0, self.slippage_model)] returns, drawn for MARKET
    orders only. *)
Definition _calculate_execution_price (order : Order.t) (current_price : Q)
    (gauss : Q) : Q :=
  let base_price := current_price in
  let execution_price :=
    match Order.order_type order with
    | MARKET =>
        let slippage_factor :=
          match Order.side order with
          | BUY => Qabs gauss
          | SELL => - Qabs gauss
          end in
        base_price * (1 + slippage_factor)
    | LIMIT =>
        match Order.price order with
        | None => base_price
        | Some price =>
            match Order.side order with
            | BUY => Py.min price base_price
            | SELL => Py.max price base_price
            end
        end
    | _ => base_price
    end in
  round4 execution_price.

(** The parts of the engine that [_execute_order] reads and writes: the
    intake side with its market data and error counter, the shared
    portfolio manager, the latency ring and the [TRADES_EXECUTED]
    counter. *)
Record t : Type := mk {
  engine : OrderExecutionEngine.t;
  portfolio_manager : PortfolioManager.t;
  execution_latencies : list Z;
  trades_executed : Z
}.

Definition __init__ (portfolio_manager : PortfolioManager.t) : t :=
  mk OrderExecutionEngine.__init__ portfolio_manager [] 0.

(** [order.execution_status = status] *)
Definition set_status (status : ExecutionStatus) (o : Order.t) : Order.t :=
  Order.mk (Order.order_id o) (Order.symbol o) (Order.side o)
    (Order.order_type o) (Order.quantity o) (Order.price o)
    (Order.timestamp_us o) (Order.client_id o) status
    (Order.filled_quantity o) (Order.average_fill_price o)
    (Order.commission o) (Order.fractal_signal o) (Order.risk_score o).

(** The four assignments that mark an order filled. *)
Definition set_filled (execution_price commission : Q) (o : Order.t)
  : Order.t :=
  Order.mk (Order.order_id o) (Order.symbol o) (Order.side o)
    (Order.order_type o) (Order.quantity o) (Order.price o)
    (Order.timestamp_us o) (Order.client_id o) FILLED
    (Order.quantity o) execution_price commission
    (Order.fractal_signal o) (Order.risk_score o).

(** [deque(maxlen=10000).append(x)] *)
Definition append_latency (latencies : list Z) (x : Z) : list Z :=
  let latencies := latencies ++ [x] in
  if (10000 <? Z.of_nat (length latencies))%Z then tail latencies
  else latencies.

(** The error counter bumped by one. *)
Definition count_error (e : OrderExecutionEngine.t) : OrderExecutionEngine.t :=
  OrderExecutionEngine.mk (OrderExecutionEngine.execution_queue e)
    (OrderExecutionEngine.market_data e)
    (OrderExecutionEngine.execution_errors e + 1).

(** [_execute_order]; [start_time_us] and [execution_time_us] are the two
    clock reads, [gauss] the slippage draw.  Returns the order as the call
    leaves it and the engine state.  An exception out of [update_position]
    is caught: the order is marked REJECTED and the error counted, with the
    portfolio as the failed update left it. *)
Definition _execute_order (self : t) (start_time_us execution_time_us : Z)
    (gauss : Q) (order : Order.t) : Order.t * t :=
  match OrderExecutionEngine.market_data (engine self) !! Order.symbol order with
  | None =>
      (set_status REJECTED order,
       mk (count_error (engine self)) (portfolio_manager self)
          (execution_latencies self) (trades_executed self))
  | Some current_price =>
      let '(risk_passed, risk_message) :=
        PortfolioManager.check_risk_limits (portfolio_manager self) order
          current_price in
      if negb risk_passed then (set_status REJECTED order, self)
      else
        let execution_price :=
          _calculate_execution_price order current_price gauss in
        let commission :=
          Order.quantity order * execution_price * commission_rate in
        let execution_latency_us := (execution_time_us - start_time_us)%Z in
        let trade :=
          TradeExecution.mk
            ("T" +:+ pretty execution_time_us +:+ "_" +:+ Order.order_id order)
            (Order.order_id order) (Order.symbol order) (Order.side order)
            (Order.quantity order) execution_price execution_time_us
            execution_latency_us commission (Order.fractal_signal order) in
        match PortfolioManager.update_position (portfolio_manager self) trade with
        | (portfolio_manager, _, Py.Ok _) =>
            (set_filled execution_price commission order,
             mk (engine self) portfolio_manager
                (append_latency (execution_latencies self) execution_latency_us)
                (trades_executed self + 1))
        | (portfolio_manager, _, Py.Raise _) =>
            (set_status REJECTED order,
             mk (count_error (engine self)) portfolio_manager
                (execution_latencies self) (trades_executed self))
        end
  end.

End Execution.

(** ** [RealTimeFractalDetector]: window buffers and [add_tick] *)

Module MarketTick.
Record t : Type := mk {
  timestamp_us : Z;
  symbol : string;
  price : Q;
  volume : Z;
  bid : Q;
  ask : Q;
  spread : Q;
  volatility : Q;
  fractal_dimension : Q;
  sequence_id : Z;
  exchange : string
}.
End MarketTick.

Module WindowStore.

(** One buffer entry: [(timestamp_us, price, volatility)]. *)
Definition entry : Type := Z * Q * Q.

(** The detector's mutable state: [window_sizes], [price_buffers]
    (symbol, then window size, to the deque) and [patterns_detected]. *)
Record t : Type := mk {
  window_sizes : list Z;
  price_buffers : gmap string (gmap Z (list entry));
  patterns_detected : Z
}.

(** [__init__]: [window_sizes or [20, 50, 100]]; an empty list is falsy. *)
Definition __init__ (window_sizes : option (list Z)) : t :=
  mk (match window_sizes with
      | Some (w :: ws) => w :: ws
      | _ => [20; 50; 100]%Z
      end) ∅ 0.

(** [while len(buffer) > window_size: buffer.popleft()].  With a negative
    window size the loop empties the deque and then pops once more:
    [IndexError], the deque left empty. *)
Fixpoint trim (buffer : list entry) (window_size : Z)
  : list entry * Py.result unit :=
  match buffer with
  | [] =>
      if (window_size <? 0)%Z then ([], Py.Raise Py.IndexError)
      else ([], Py.Ok tt)
  | _ :: rest =>
      if (window_size <? Z.of_nat (length buffer))%Z then trim rest window_size
      else (buffer, Py.Ok tt)
  end.

Section AddTick.

Variable ln : Q -> Q.
Variable sqrt : Q -> Q.

(** The [for window_size in self.window_sizes] loop of [add_tick] on the
    buffers of the tick's symbol ([window_sizes] is never empty after
    [__init__]).  Returns the buffers, the patterns found
    so far and the counter as the loop leaves them, and whether it ran to
    the end or raised. *)
Fixpoint window_loop (symbol : string) (item : entry) (sizes : list Z)
    (buffers : gmap Z (list entry)) (patterns : list FractalPattern.t)
    (detected : Z)
  : gmap Z (list entry) * list FractalPattern.t * Z * Py.result unit :=
  match sizes with
  | [] => (buffers, patterns, detected, Py.Ok tt)
  | window_size :: sizes =>
      let buffer := default [] (buffers !! window_size) ++ [item] in
      match trim buffer window_size with
      | (buffer, Py.Raise e) =>
          (<[window_size := buffer]> buffers, patterns, detected, Py.Raise e)
      | (buffer, Py.Ok _) =>
          let buffers := <[window_size := buffer]> buffers in
          if (Z.of_nat (length buffer) =? window_size)%Z then
            match RealTimeFractalDetector._detect_pattern_in_window ln sqrt
                    symbol buffer window_size with
            | Py.Raise e => (buffers, patterns, detected, Py.Raise e)
            | Py.Ok (Some pattern) =>
                window_loop symbol item sizes buffers (patterns ++ [pattern])
                            (detected + 1)
            | Py.Ok None =>
                window_loop symbol item sizes buffers patterns detected
            end
          else window_loop symbol item sizes buffers patterns detected
      end
  end.

(** [add_tick]: the returned patterns and the detector after the call.
    When anything raises, the [except] returns the empty list; buffers and
    counter stay as the loop left them. *)
Definition add_tick (self : t) (tick : MarketTick.t)
  : list FractalPattern.t * t :=
  let symbol := MarketTick.symbol tick in
  let item :=
    (MarketTick.timestamp_us tick, MarketTick.price tick,
     MarketTick.volatility tick) in
  let '(buffers, patterns, detected, outcome) :=
    window_loop symbol item (window_sizes self)
                (default ∅ (price_buffers self !! symbol)) []
                (patterns_detected self) in
  let self :=
    mk (window_sizes self) (<[symbol := buffers]> (price_buffers self))
       detected in
  match outcome with
  | Py.Ok _ => (patterns, self)
  | Py.Raise _ => ([], self)
  end.

(** The detector after a sequence of ticks, and the patterns each tick
    returned. *)
Fixpoint add_ticks (self : t) (ticks : list MarketTick.t)
  : list (list FractalPattern.t) * t :=
  match ticks with
  | [] => ([], self)
  | tick :: ticks =>
      let '(patterns, self) := add_tick self tick in
      let '(rest, self) := add_ticks self ticks in
      (patterns :: rest, self)
  end.

End AddTick.

End WindowStore.

(** * Specification-side definitions *)

(** The spec's "clamped to [[lo, hi]]". *)
Definition clamped (lo hi x : Q) : Q :=
  if Qlt_le_dec x lo then lo else if Qlt_le_dec hi x then hi else x.

(** The portfolio values recomputed by the successive updates of a
    sequence of trades. *)
Fixpoint value_history (self : PortfolioManager.t)
    (trades : list TradeExecution.t) : list Q :=
  match trades with
  | [] => []
  | trade :: trades =>
      let r := PortfolioManager.update_position self trade in
      r.1.2 :: value_history r.1.1 trades
  end.

(** "(peak - current) / peak" at each update of a sequence of trades, with
    the peak as it stands after the update. *)
Fixpoint drawdown_history (self : PortfolioManager.t)
    (trades : list TradeExecution.t) : list Q :=
  match trades with
  | [] => []
  | trade :: trades =>
      let r := PortfolioManager.update_position self trade in
      ((PortfolioManager.peak_portfolio_value r.1.1 - r.1.2)
       / PortfolioManager.peak_portfolio_value r.1.1)
      :: drawdown_history r.1.1 trades
  end.

(** "cash plus the sum over all held symbols of quantity times mark": every
    held position at the mark stored with it. *)
Definition cash_plus_marked_positions (self : PortfolioManager.t) : Q :=
  PortfolioManager.current_capital self
  + PortfolioManager.sum_market_value (PortfolioManager.positions self).

(** "portfolio_value = cash + sum of position.market_value using the last known
    mark for each held symbol", after each update of a sequence of
    trades. *)
Fixpoint portfolio_value_history (self : PortfolioManager.t)
    (trades : list TradeExecution.t) : list Q :=
  match trades with
  | [] => []
  | trade :: trades =>
      let s := (PortfolioManager.update_position self trade).1.1 in
      cash_plus_marked_positions s :: portfolio_value_history s trades
  end.

(** "(peak - current)/peak" along a series of portfolio values, the peak
    being the largest value so far (starting from [peak]). *)
Fixpoint spec_drawdown_history (peak : Q) (values : list Q) : list Q :=
  match values with
  | [] => []
  | value :: values =>
      let peak := Qmax peak value in
      ((peak - value) / peak) :: spec_drawdown_history peak values
  end.

(** "max_drawdown = max over time of (peak - current)/peak" for a sequence
    of trades applied to [self]. *)
Definition spec_max_drawdown (self : PortfolioManager.t)
    (trades : list TradeExecution.t) : Q :=
  fold_left Qmax
    (spec_drawdown_history (PortfolioManager.peak_portfolio_value self)
       (portfolio_value_history self trades))
    (PortfolioManager.max_drawdown self).

(** "The prediction maps to a directional action": one of the four labels
    that [_create_order_from_signal] turns into a side. *)
Definition directional (prediction_signal : string) : bool :=
  String.eqb prediction_signal "BUY"
  || String.eqb prediction_signal "STRONG_BUY"
  || String.eqb prediction_signal "SELL"
  || String.eqb prediction_signal "STRONG_SELL".

(** * Concrete inputs used by the examples *)

(** BUY 1000 EURUSD at 1.1000 with commission 0.55, then SELL 1000 at
    1.1050 with commission 0.5525. *)
Definition example_buy : TradeExecution.t :=
  TradeExecution.mk "T1" "O1" "EURUSD" BUY 1000 (11 # 10) 1 0 (55 # 100) None.

Definition example_sell : TradeExecution.t :=
  TradeExecution.mk "T2" "O2" "EURUSD" SELL 1000 (1105 # 1000) 2 0
    (5525 # 10000) None.

(** A short sale: SELL 10000 AAA at 1.00 (commission 10000 * 1.00 * 0.0005)
    with nothing held, and the order it executes. *)
Definition example_short : TradeExecution.t :=
  TradeExecution.mk "T3" "O3" "AAA" SELL 10000 1 3 0 5 None.

Definition example_short_order : Order.t :=
  Order.mk "O3" "AAA" SELL MARKET 10000 None 3 "HFT_ENGINE" PENDING 0 0 0
    None 0.

(** A larger short sale order: SELL 60000 AAA at 1.00, 6% of a 1,000,000
    portfolio. *)
Definition example_large_short_order : Order.t :=
  Order.mk "O7" "AAA" SELL MARKET 60000 None 7 "HFT_ENGINE" PENDING 0 0 0
    None 0.

(** Two purchases of different symbols: BUY 40000 AAA at 1.00, then BUY
    40000 BBB at 1.00, each with commission 40000 * 1.00 * 0.0005. *)
Definition example_buy_AAA : TradeExecution.t :=
  TradeExecution.mk "T4" "O4" "AAA" BUY 40000 1 4 0 20 None.

Definition example_buy_BBB : TradeExecution.t :=
  TradeExecution.mk "T5" "O5" "BBB" BUY 40000 1 5 0 20 None.

(** Covering a sliver of the short after the price went from 1.00 to
    1000.00: BUY 10 AAA at 1000.00, commission 10 * 1000 * 0.0005, and the
    order it executes. *)
Definition example_cover : TradeExecution.t :=
  TradeExecution.mk "T6" "O6" "AAA" BUY 10 1000 6 0 5 None.

Definition example_cover_order : Order.t :=
  Order.mk "O6" "AAA" BUY MARKET 10 None 6 "HFT_ENGINE" PENDING 0 0 0 None 0.

(** A confident, low-risk pattern whose prediction is HOLD. *)
Definition example_hold_pattern : PatternData.t :=
  PatternData.mk "EURUSD" "SMOOTH_TREND" (9 # 10) (5 # 10) "HOLD".

(** Three market orders on different symbols. *)
Definition example_order (order_id symbol : string) : Order.t :=
  Order.mk order_id symbol BUY MARKET 1000 None 0 "HFT_ENGINE" PENDING 0 0 0
    (Some "VOLATILE_UPTREND"%string) (5 # 10).

Definition order_A : Order.t := example_order "HFT_1_EURUSD" "EURUSD".
Definition order_B : Order.t := example_order "HFT_2_GBPUSD" "GBPUSD".
Definition order_C : Order.t := example_order "HFT_3_USDJPY" "USDJPY".

(** [submit_order] called for each [(order, priority)] in turn, at clock
    readings 1, 2, 3, ..., with no [get] in between. *)
Definition submit_all (orders : list (Order.t * Z)) : OrderExecutionEngine.t :=
  (fold_left
     (fun acc op =>
        (OrderExecutionEngine.submit_order acc.1 acc.2 op.1 op.2,
         (acc.2 + 1)%Z))
     orders (OrderExecutionEngine.__init__, 1%Z)).1.

(** Rational stand-ins for [math.log] and for the square root, to run the
    kernel on concrete windows: the logarithm by the series of
    [2 * atanh ((x - 1) / (x + 1))] after scaling [x] by a power of two,
    the square root by the integer square root; both to 12 decimals. *)
Definition round12 (x : Q) : Q :=
  Qfloor (x * 1000000000000) # 1000000000000.

Fixpoint atanh_series (n : nat) (k : Z) (ypow y2 : Q) : Q :=
  match n with
  | O => 0
  | S n =>
      Qred (ypow / inject_Z k
            + atanh_series n (k + 2) (Qred (ypow * y2)) y2)
  end.

Definition ln_near_one (x : Q) : Q :=
  let y := Qred ((x - 1) / (x + 1)) in
  2 * atanh_series 14 1 y (Qred (y * y)).

Definition ln_approx (x : Q) : Q :=
  let k := (Z.log2 (Qnum x) - Z.log2 (QDen x))%Z in
  round12 (inject_Z k * ln_near_one 2 + ln_near_one (x / Qpower 2 k)).

Definition sqrt_approx (x : Q) : Q :=
  Z.sqrt (Qnum x * QDen x * 1000000000000000000000000)
  # (Qden x * 1000000000000).

(** A full 50-tick window: one tick per second, the price rising from
    1.0000 to 1.0392 in steps of 0.0008, volatility 0.01 throughout. *)
Definition example_window : list (Z * Q * Q) :=
  map (fun i =>
         ((1000000 * Z.of_nat i)%Z,
          Qmake (10000 + 8 * Z.of_nat i) 10000,
          1 # 100))
      (seq 0 50).

(** * Further definitions for stating properties *)

(** [process_fractal_pattern] called on each [(clock, pattern)] in turn. *)
Definition process_patterns (self : FractalSignalProcessor.t)
    (inputs : list (Z * PatternData.t)) : FractalSignalProcessor.t :=
  fold_left
    (fun self input =>
       (FractalSignalProcessor.process_fractal_pattern self input.1 input.2).2)
    inputs self.

(** The cash a trade moves: out for a BUY, in for a SELL. *)
Definition cash_flow (trade : TradeExecution.t) : Q :=
  match TradeExecution.side trade with
  | BUY =>
      - (TradeExecution.quantity trade * TradeExecution.price trade
         + TradeExecution.commission trade)
  | SELL =>
      TradeExecution.quantity trade * TradeExecution.price trade
      - TradeExecution.commission trade
  end.

(** The ten labels that [_classify_pattern] can return. *)
Definition pattern_labels : list string :=
  ["SMOOTH_TREND"; "SIDEWAYS"; "VOLATILE_BREAKOUT"; "CHOPPY";
   "VOLATILE_UPTREND"; "VOLATILE_DOWNTREND"; "VOLATILE_RANGE";
   "TRENDING_FRACTAL"; "RANGE_FRACTAL"; "NORMAL_MOVEMENT"]%string.

(** Every window buffer is at most as long as its window size (empty for
    a negative size). *)
Definition buffers_bounded (self : WindowStore.t) : Prop :=
  map_Forall
    (fun (_ : string) (buffers : gmap Z (list WindowStore.entry)) =>
       map_Forall
         (fun (window_size : Z) (buffer : list WindowStore.entry) =>
            (Z.of_nat (length buffer) <= Z.max window_size 0)%Z)
         buffers)
    (WindowStore.price_buffers self).

(** What holds of a pattern returned for a tick: it names the tick's
    symbol, ends at the tick's timestamp, and its fractal dimension,
    confidence and strength lie in their ranges. *)
Definition pattern_of_tick (tick : MarketTick.t)
    (pattern : FractalPattern.t) : Prop :=
  FractalPattern.symbol pattern = MarketTick.symbol tick
  /\ FractalPattern.end_time_us pattern = MarketTick.timestamp_us tick
  /\ 1 <= FractalPattern.fractal_dimension pattern <= 2
  /\ 6 # 10 <= FractalPattern.confidence pattern <= 1
  /\ 0 <= FractalPattern.pattern_strength pattern <= 1.

(** Whether the loop of [add_tick] ran to its end or raised (what the
    [try] saw). *)
Definition add_tick_outcome (ln sqrt : Q -> Q) (self : WindowStore.t)
    (tick : MarketTick.t) : Py.result unit :=
  (WindowStore.window_loop ln sqrt (MarketTick.symbol tick)
     (MarketTick.timestamp_us tick, MarketTick.price tick,
      MarketTick.volatility tick)
     (WindowStore.window_sizes self)
     (default ∅ (WindowStore.price_buffers self !! MarketTick.symbol tick))
     [] (WindowStore.patterns_detected self)).2.

(** The buffer of [symbol] for [window_size], empty when absent. *)
Definition buffer_of (self : WindowStore.t) (symbol : string)
    (window_size : Z) : list WindowStore.entry :=
  default [] (default ∅ (WindowStore.price_buffers self !! symbol)
              !! window_size).

(** A tick with the given time, symbol, price and volatility. *)
Definition example_tick (timestamp_us : Z) (symbol : string)
    (price volatility : Q) : MarketTick.t :=
  MarketTick.mk timestamp_us symbol price 100 price price 0 volatility
    (15 # 10) timestamp_us "SIM".

(** [n] ticks of EURUSD, one per second from second 1, all at the same
    price and volatility. *)
Definition flat_ticks (n : nat) (price volatility : Q) : list MarketTick.t :=
  map (fun i => example_tick (1000000 * Z.of_nat i) "EURUSD" price volatility)
      (seq 1 n).

(** A new detector after 19 EURUSD ticks priced 0, and the 20th such
    tick. *)
Definition detector_after_19_zero_ticks : WindowStore.t :=
  (WindowStore.add_ticks ln_approx sqrt_approx (WindowStore.__init__ None)
     (flat_ticks 19 0 (1 # 100))).2.

Definition twentieth_zero_tick : MarketTick.t :=
  example_tick 20000000 "EURUSD" 0 (1 # 100).

(** A new detector after 20 EURUSD ticks at 1.1000 (its 20-tick window is
    full), and the 21st tick at 1.1008. *)
Definition detector_after_20_ticks : WindowStore.t :=
  (WindowStore.add_ticks ln_approx sqrt_approx (WindowStore.__init__ None)
     (flat_ticks 20 (11 # 10) (1 # 100))).2.

Definition twenty_first_tick : MarketTick.t :=
  example_tick 21000000 "EURUSD" (11008 # 10000) (1 # 100).

(** A market BUY of 1000 EURUSD, and an engine that has seen EURUSD at
    1.1000 and holds 1,000,000 in cash. *)
Definition example_market_buy : Order.t :=
  Order.mk "HFT_1_EURUSD" "EURUSD" BUY MARKET 1000 None 1 "HFT_ENGINE"
    PENDING 0 0 0 (Some "VOLATILE_UPTREND"%string) (5 # 10).

Definition example_execution : Execution.t :=
  Execution.mk
    (OrderExecutionEngine.update_market_data OrderExecutionEngine.__init__
       "EURUSD" (11 # 10))
    (PortfolioManager.__init__ 1000000) [] 0.

(** * Properties *)

(** ** Facts on the Python numerics *)

Section PyFacts.

Lemma ltb_lt (x y : Q) : Py.ltb x y = true <-> x < y.
Proof.
  unfold Py.ltb. rewrite negb_true_iff. split; intros H.
  - apply Qnot_le_lt. intros Hle. apply Qle_bool_iff in Hle. congruence.
  - destruct (Qle_bool y x) eqn:E; [|reflexivity].
    apply Qle_bool_iff in E. lra.
Qed.

Lemma ltb_ge (x y : Q) : Py.ltb x y = false <-> y <= x.
Proof.
  unfold Py.ltb. rewrite negb_false_iff. apply Qle_bool_iff.
Qed.

Lemma eqb_eq (x y : Q) : Py.eqb x y = true <-> x == y.
Proof. apply Qeq_bool_iff. Qed.

Lemma eqb_neq (x y : Q) : Py.eqb x y = false <-> ~ x == y.
Proof.
  split.
  - apply Qeq_bool_neq.
  - intros H. destruct (Py.eqb x y) eqn:E; [|reflexivity].
    apply eqb_eq in E. contradiction.
Qed.

Lemma max_cases (a b : Q) :
  (a < b /\ Py.max a b = b) \/ (b <= a /\ Py.max a b = a).
Proof.
  unfold Py.max. destruct (Py.ltb a b) eqn:E.
  - left. apply ltb_lt in E. auto.
  - right. apply ltb_ge in E. auto.
Qed.

Lemma min_cases (a b : Q) :
  (b < a /\ Py.min a b = b) \/ (a <= b /\ Py.min a b = a).
Proof.
  unfold Py.min. destruct (Py.ltb b a) eqn:E.
  - left. apply ltb_lt in E. auto.
  - right. apply ltb_ge in E. auto.
Qed.

Lemma max_Qmax (a b : Q) : Py.max a b == Qmax a b.
Proof.
  destruct (max_cases a b) as [[H ->]|[H ->]];
    destruct (Q.max_spec a b) as [[H' ->]|[H' ->]]; lra.
Qed.

Lemma min_Qmin (a b : Q) : Py.min a b == Qmin a b.
Proof.
  destruct (min_cases a b) as [[H ->]|[H ->]];
    destruct (Q.min_spec a b) as [[H' ->]|[H' ->]]; lra.
Qed.

(** [max(lo, min(hi, x))] lands in [[lo, hi]] whenever [lo <= hi]. *)
Lemma clamp_range (lo hi x : Q) :
  lo <= hi ->
  lo <= Py.max lo (Py.min hi x) /\ Py.max lo (Py.min hi x) <= hi.
Proof.
  intros Hle.
  destruct (min_cases hi x) as [[H1 E1]|[H1 E1]]; rewrite E1;
    destruct (max_cases lo x) as [[H2 E2]|[H2 E2]];
    destruct (max_cases lo hi) as [[H3 E3]|[H3 E3]];
    rewrite ?E2, ?E3; lra.
Qed.

End PyFacts.

Lemma clamp_clamped (lo hi x : Q) :
  lo <= hi -> Py.max lo (Py.min hi x) == clamped lo hi x.
Proof.
  intros Hle. unfold clamped.
  destruct (min_cases hi x) as [[H1 E1]|[H1 E1]]; rewrite E1;
    [destruct (max_cases lo x) as [[H2 E2]|[H2 E2]]
    |destruct (max_cases lo hi) as [[H2 E2]|[H2 E2]]]; rewrite E2;
    destruct (Qlt_le_dec x lo); destruct (Qlt_le_dec hi x); lra.
Qed.

(** ** Position sizing *)

Section PositionSize.

Import FractalSignalProcessor.

Lemma position_size_range (signal_strength risk_score : Q) :
  100 <= _calculate_position_size signal_strength risk_score
  /\ _calculate_position_size signal_strength risk_score <= 10000.
Proof. unfold _calculate_position_size. apply clamp_range. lra. Qed.

(** C6.  The position size equals
    [1000 * (0.5 + signal_strength * 1.5) * max(0.2, 1 - risk_score * 0.3)]
    clamped to [[100, 10000]], it lies in [[100, 10000]], and so does the
    position size of every signal that [process_fractal_pattern] emits. *)
Theorem position_size_formula_and_bounds
    (signal_strength risk_score : Q) (self : FractalSignalProcessor.t)
    (now : Z) (pattern_data : PatternData.t) :
  _calculate_position_size signal_strength risk_score
    == clamped 100 10000
         (1000 * ((5 # 10) + signal_strength * (15 # 10))
          * Qmax (2 # 10) (1 - risk_score * (3 # 10)))
  /\ 100 <= _calculate_position_size signal_strength risk_score <= 10000
  /\ match (process_fractal_pattern self now pattern_data).1 with
     | Some signal =>
         100 <= Signal.position_size signal <= 10000
     | None => True
     end.
Proof.
  split; [|split].
  - unfold _calculate_position_size.
    rewrite clamp_clamped by lra.
    unfold clamped.
    pose proof (max_Qmax (2 # 10) (1 - risk_score * (3 # 10))) as Hm.
    set (m := Py.max (2 # 10) (1 - risk_score * (3 # 10))) in *.
    set (m' := Qmax (2 # 10) (1 - risk_score * (3 # 10))) in *.
    set (k := (5 # 10) + signal_strength * (15 # 10)).
    assert (E : 1000 * k * m == 1000 * k * m') by (rewrite Hm; reflexivity).
    destruct (Qlt_le_dec (1000 * k * m) 100),
             (Qlt_le_dec (1000 * k * m') 100); try lra;
      destruct (Qlt_le_dec 10000 (1000 * k * m)),
               (Qlt_le_dec 10000 (1000 * k * m')); lra.
  - apply position_size_range.
  - unfold process_fractal_pattern.
    destruct (Py.ltb _ confidence_threshold); [exact I|].
    destruct (Py.ltb risk_threshold _); [exact I|].
    cbn [fst Signal.position_size]. apply position_size_range.
Qed.

End PositionSize.

(** ** Risk gate *)

Section RiskGate.

Import PortfolioManager.

Lemma OrderSide_eqb_eq (a b : OrderSide) : OrderSide_eqb a b = true <-> a = b.
Proof. destruct a, b; simpl; split; congruence. Qed.

(** C5.  [check_risk_limits] rejects exactly when the order value exceeds 5%
    of the portfolio value (cash plus the positions' market values, floored
    at 1), or the exposure after the order exceeds 80% of it, or the order
    is a BUY worth more than 95% of cash; otherwise it accepts.  With cash
    1,000,000 and no positions, a BUY of 1,000,000 units at 1.10 is rejected
    with the position-size reason. *)
Theorem check_risk_limits_rejects_iff
    (self : PortfolioManager.t) (order : Order.t) (P : Q)
    (order_id symbol client_id : string) (order_type : OrderType)
    (price : option Q) (timestamp_us : Z) (status : ExecutionStatus)
    (filled average_fill commission risk : Q) (tag : option string) :
  let order_value := Order.quantity order * P in
  let portfolio_value :=
    Qmax (current_capital self + sum_market_value (positions self)) 1 in
  let rejected :=
    (5 # 100) < order_value / portfolio_value
    \/ (8 # 10)
       < (sum_abs_market_value (positions self) + order_value) / portfolio_value
    \/ (Order.side order = BUY
        /\ (95 # 100) * current_capital self < order_value) in
  ((check_risk_limits self order P).1 = false <-> rejected)
  /\ ((check_risk_limits self order P).1 = true <-> ~ rejected)
  /\ exists position_percentage,
       check_risk_limits (__init__ 1000000)
         (Order.mk order_id symbol BUY order_type 1000000 price timestamp_us
            client_id status filled average_fill commission tag risk)
         (11 # 10)
       = (false, Position_size_exceeds_limit position_percentage (5 # 100))
       /\ position_percentage == 11 # 10.
Proof.
  intros order_value portfolio_value rejected.
  assert (Hrej : (check_risk_limits self order P).1 = false <-> rejected).
  { unfold rejected, portfolio_value, order_value, check_risk_limits.
    pose proof (max_Qmax (current_capital self
                          + sum_market_value (positions self)) 1) as Hm.
    set (m := Py.max _ 1) in *. set (m' := Qmax _ 1) in *.
    set (ov := Order.quantity order * P).
    set (ex := sum_abs_market_value (positions self)).
    assert (E1 : ov / m == ov / m') by (rewrite Hm; reflexivity).
    assert (E2 : (ex + ov) / m == (ex + ov) / m') by (rewrite Hm; reflexivity).
    unfold max_position_size, max_total_exposure.
    destruct (Py.ltb (5 # 100) (ov / m)) eqn:C1.
    { apply ltb_lt in C1. simpl. split; [intros _; left; lra | reflexivity]. }
    apply ltb_ge in C1.
    destruct (Py.ltb (8 # 10) ((ex + ov) / m)) eqn:C2.
    { apply ltb_lt in C2. simpl.
      split; [intros _; right; left; lra | reflexivity]. }
    apply ltb_ge in C2.
    destruct (OrderSide_eqb (Order.side order) BUY) eqn:C3; simpl.
    - apply OrderSide_eqb_eq in C3.
      destruct (Py.ltb (current_capital self * (95 # 100)) ov) eqn:C4; simpl.
      + apply ltb_lt in C4.
        split; [intros _; right; right; split; [exact C3 | lra] | reflexivity].
      + apply ltb_ge in C4.
        split; [discriminate|]. intros [H|[H|[_ H]]]; lra.
    - split; [discriminate|]. intros [H|[H|[H _]]]; try lra.
      rewrite H in C3. discriminate. }
  split; [exact Hrej|]. split.
  - rewrite <- Hrej.
    destruct ((check_risk_limits self order P).1); split; congruence.
  - eexists. split; reflexivity.
Qed.

End RiskGate.

(** ** Ledger: what one [update_position] writes *)

Section Ledger.

Import PortfolioManager.

Implicit Types (self : PortfolioManager.t) (trade : TradeExecution.t).

(** Cash, counters and cumulative PnL are those of [book_trade]; the
    positions are the booked ones after the refresh. *)
Lemma update_position_fields self trade :
  let s' := (update_position self trade).1.1 in
  let b := book_trade self trade in
  current_capital s' = current_capital b
  /\ total_trades s' = total_trades b
  /\ winning_trades s' = winning_trades b
  /\ total_pnl s' = total_pnl b
  /\ initial_capital s' = initial_capital b
  /\ positions s'
     = map_imap (fun symbol position =>
                   Some (refresh {[ TradeExecution.symbol trade := TradeExecution.price trade ]} symbol position))
                (positions b).
Proof.
  unfold update_position. cbn zeta.
  unfold calculate_portfolio_value.
  cbn [peak_portfolio_value max_drawdown current_capital positions
       total_trades winning_trades total_pnl initial_capital].
  destruct (Py.ltb _ _); [cbn; tauto|].
  destruct (Py.div _ _); cbn; tauto.
Qed.

Lemma refresh_traded (symbol : string) (price : Q) (position : Position.t) :
  refresh {[ symbol := price ]} symbol position
  = Position.mk (Position.symbol position) (Position.quantity position)
      (Position.average_price position) (Position.quantity position * price)
      (Position.quantity position * price
       - Position.quantity position * Position.average_price position)
      (Position.realized_pnl position) (Position.last_update_us position).
Proof. unfold refresh. rewrite lookup_singleton_eq. reflexivity. Qed.

Lemma refresh_other (symbol other : string) (price : Q)
    (position : Position.t) :
  symbol <> other -> refresh {[ symbol := price ]} other position = position.
Proof.
  intros Hne. unfold refresh. rewrite lookup_singleton_ne by exact Hne.
  reflexivity.
Qed.

(** Positions of symbols other than the traded one are left as they were. *)
Lemma update_position_other self trade (other : string) :
  TradeExecution.symbol trade <> other ->
  positions (update_position self trade).1.1 !! other = positions self !! other.
Proof.
  intros Hne.
  destruct (update_position_fields self trade) as (_ & _ & _ & _ & _ & ->).
  rewrite map_lookup_imap.
  assert (Hb : positions (book_trade self trade) !! other
               = positions self !! other).
  { unfold book_trade. destruct (TradeExecution.side trade);
      cbn [positions]; apply lookup_insert_ne; exact Hne. }
  rewrite Hb. destruct (positions self !! other) as [pos|]; [|reflexivity].
  cbn. rewrite refresh_other by exact Hne. reflexivity.
Qed.

(** The loop of [calculate_portfolio_value] on a single-entry price dict
    adds the marked value of that one symbol and nothing else. *)
Lemma calculate_portfolio_value_single self (symbol : string) (price : Q) :
  (calculate_portfolio_value self {[ symbol := price ]}).1
  == current_capital self
     + match positions self !! symbol with
       | Some position => Position.quantity position * price
       | None => 0
       end.
Proof.
  unfold calculate_portfolio_value. cbn [fst].
  apply (map_fold_weak_ind
           (fun (r : Q) (m : gmap string Position.t) =>
              r == current_capital self
                   + match m !! symbol with
                     | Some position => Position.quantity position * price
                     | None => 0
                     end)).
  - rewrite lookup_empty. lra.
  - intros i x m r Hi IH.
    destruct (decide (symbol = i)) as [->|Hne].
    + rewrite lookup_singleton_eq, lookup_insert_eq.
      rewrite Hi in IH. lra.
    + rewrite lookup_singleton_ne by exact Hne.
      rewrite lookup_insert_ne by congruence. exact IH.
Qed.

(** The value that [update_position] recomputes (and hands to the
    [PORTFOLIO_VALUE] gauge) is the one of [calculate_portfolio_value] on
    the booked state with the single mark [{symbol: trade.price}]. *)
Lemma update_position_value self trade :
  (update_position self trade).1.2
  = (calculate_portfolio_value (book_trade self trade) {[ TradeExecution.symbol trade := TradeExecution.price trade ]}).1.
Proof.
  unfold update_position. cbn zeta.
  destruct (calculate_portfolio_value (book_trade self trade) _) as [v s] eqn:E.
  cbn [fst]. destruct (Py.ltb _ _); [reflexivity|].
  destruct (Py.div _ _); reflexivity.
Qed.

End Ledger.

(** ** Round trips and short sales *)

Section RoundTrip.

Import PortfolioManager.

(** The traded symbol's position after an update: the booked position,
    marked at the trade price. *)
Lemma update_position_traded (self : PortfolioManager.t)
    (trade : TradeExecution.t) (booked : Position.t) :
  positions (book_trade self trade) !! TradeExecution.symbol trade
    = Some booked ->
  positions (update_position self trade).1.1 !! TradeExecution.symbol trade
    = Some (refresh {[ TradeExecution.symbol trade
                       := TradeExecution.price trade ]}
                    (TradeExecution.symbol trade) booked).
Proof.
  intros Hb.
  destruct (update_position_fields self trade) as (_ & _ & _ & _ & _ & ->).
  rewrite map_lookup_imap, Hb. reflexivity.
Qed.

(** C4.  On a symbol with no prior position, BUY [q] at [p1] followed by
    SELL [q] at [p2]: the BUY moves cash by [-(q*p1 + commission)], the SELL
    by [+(q*p2 - commission)]; the SELL realizes [q * (p2 - p1)], on the
    position and on the cumulative PnL; and [winning_trades] grows by one
    on the SELL exactly when that realized PnL is positive. *)
Theorem round_trip_realized_pnl
    (self : PortfolioManager.t) (buy sell : TradeExecution.t) :
  positions self !! TradeExecution.symbol buy = None ->
  TradeExecution.side buy = BUY ->
  TradeExecution.side sell = SELL ->
  TradeExecution.symbol sell = TradeExecution.symbol buy ->
  TradeExecution.quantity sell == TradeExecution.quantity buy ->
  let q := TradeExecution.quantity buy in
  let p1 := TradeExecution.price buy in
  let p2 := TradeExecution.price sell in
  let s1 := (update_position self buy).1.1 in
  let s2 := (update_position s1 sell).1.1 in
  current_capital s1
    == current_capital self - (q * p1 + TradeExecution.commission buy)
  /\ current_capital s2
     == current_capital s1 + (q * p2 - TradeExecution.commission sell)
  /\ total_pnl s1 = total_pnl self
  /\ total_pnl s2 == total_pnl s1 + q * (p2 - p1)
  /\ (exists position,
        positions s2 !! TradeExecution.symbol buy = Some position
        /\ Position.realized_pnl position == q * (p2 - p1)
        /\ Position.quantity position == 0)
  /\ winning_trades s1 = winning_trades self
  /\ (0 < q * (p2 - p1) -> winning_trades s2 = (winning_trades s1 + 1)%Z)
  /\ (q * (p2 - p1) <= 0 -> winning_trades s2 = winning_trades s1).
Proof.
  intros Hnone Hbuy Hsell Hsym Hq q p1 p2 s1 s2.
  destruct (update_position_fields self buy) as (Hc1 & _ & Hw1 & Hp1 & _ & _).
  destruct (update_position_fields s1 sell) as (Hc2 & _ & Hw2 & Hp2 & _ & _).
  fold s1 in Hc1, Hw1, Hp1. fold s2 in Hc2, Hw2, Hp2.
  (* the position left by the BUY *)
  set (avg := if negb (Py.eqb (0 + q) 0)
              then (0 * 0 + q * p1) / (0 + q) else 0).
  set (booked1 := Position.mk (TradeExecution.symbol buy) (0 + q) avg 0 0 0
                    (TradeExecution.timestamp_us buy)).
  assert (Hb1 : positions (book_trade self buy) !! TradeExecution.symbol buy
                = Some booked1).
  { unfold book_trade. rewrite Hbuy, Hnone. cbn [positions].
    rewrite lookup_insert_eq. reflexivity. }
  pose proof (update_position_traded self buy booked1 Hb1) as Hl1.
  fold s1 in Hl1. rewrite refresh_traded in Hl1.
  cbn [Position.symbol Position.quantity Position.average_price
       Position.realized_pnl Position.last_update_us booked1] in Hl1.
  (* the realized PnL of the SELL *)
  assert (Hr : (p2 - avg) * TradeExecution.quantity sell == q * (p2 - p1)).
  { rewrite Hq. fold q. unfold avg.
    destruct (Py.eqb (0 + q) 0) eqn:E; cbn [negb].
    - apply eqb_eq in E. assert (Hq0 : q == 0) by lra.
      rewrite Hq0. ring.
    - apply eqb_neq in E. field. intros Hq0. apply E. lra. }
  (* book the BUY *)
  assert (Hcash1 : current_capital (book_trade self buy)
                   = current_capital self
                     - (q * p1 + TradeExecution.commission buy)).
  { unfold book_trade. rewrite Hbuy. reflexivity. }
  assert (Hbk1 : total_pnl (book_trade self buy) = total_pnl self
                 /\ winning_trades (book_trade self buy)
                    = winning_trades self).
  { unfold book_trade. rewrite Hbuy. split; reflexivity. }
  (* book the SELL *)
  rewrite <- Hsym in Hl1.
  unfold book_trade in Hc2, Hw2, Hp2.
  rewrite Hsell, Hl1 in Hc2, Hw2, Hp2.
  cbn [current_capital winning_trades total_pnl Position.average_price]
    in Hc2, Hw2, Hp2.
  fold p2 in Hc2, Hw2, Hp2.
  assert (Hb2 : exists booked2,
             positions (book_trade s1 sell) !! TradeExecution.symbol sell
             = Some booked2
             /\ Position.realized_pnl booked2
                = 0 + (p2 - avg) * TradeExecution.quantity sell
             /\ Position.quantity booked2
                = 0 + q - TradeExecution.quantity sell).
  { unfold book_trade. rewrite Hsell, Hl1. cbn [positions].
    rewrite lookup_insert_eq. eexists. split; [reflexivity|].
    split; reflexivity. }
  destruct Hb2 as (booked2 & Hb2 & Hrp2 & Hq2).
  pose proof (update_position_traded s1 sell _ Hb2) as Hl2.
  fold s2 in Hl2. rewrite refresh_traded in Hl2. rewrite Hsym in Hl2.
  destruct Hbk1 as [Hpnl1 Hwin1].
  repeat split.
  - rewrite Hc1, Hcash1. reflexivity.
  - rewrite Hc2, Hq. reflexivity.
  - congruence.
  - rewrite Hp2, Hr. reflexivity.
  - eexists. split; [exact Hl2|].
    cbn [Position.realized_pnl Position.quantity]. split.
    + rewrite Hrp2, Hr. ring.
    + rewrite Hq2, Hq. fold q. ring.
  - congruence.
  - intros Hpos. rewrite Hw2.
    destruct (Py.ltb 0 _) eqn:E; [reflexivity|].
    apply ltb_ge in E. rewrite Hr in E. lra.
  - intros Hneg. rewrite Hw2.
    destruct (Py.ltb 0 _) eqn:E; [|reflexivity].
    apply ltb_lt in E. rewrite Hr in E. lra.
Qed.

(** C4 at the spec's round trip: BUY 1000 at 1.1000, SELL 1000 at 1.1050
    on a fresh portfolio. *)
Lemma round_trip_realized_pnl_witness :
  let s1 := (update_position (__init__ 1000000) example_buy).1.1 in
  let s2 := (update_position s1 example_sell).1.1 in
  positions (__init__ 1000000) !! TradeExecution.symbol example_buy = None
  /\ TradeExecution.side example_buy = BUY
  /\ TradeExecution.side example_sell = SELL
  /\ TradeExecution.symbol example_sell = TradeExecution.symbol example_buy
  /\ TradeExecution.quantity example_sell
     == TradeExecution.quantity example_buy
  /\ total_pnl s2 == total_pnl s1 + 1000 * ((1105 # 1000) - (11 # 10))
  /\ winning_trades s2 = (winning_trades s1 + 1)%Z.
Proof.
  intros s1 s2.
  assert (H0 : positions (__init__ 1000000)
               !! TradeExecution.symbol example_buy = None) by reflexivity.
  assert (Hq : TradeExecution.quantity example_sell
               == TradeExecution.quantity example_buy) by reflexivity.
  destruct (round_trip_realized_pnl (__init__ 1000000) example_buy
              example_sell H0 eq_refl eq_refl eq_refl Hq)
    as (_ & _ & _ & Hpnl & _ & _ & Hwin & _).
  split; [exact H0|]. do 3 (split; [reflexivity|]). split; [exact Hq|].
  split; [exact Hpnl | apply Hwin; reflexivity].
Defined.

(** The risk gate on a SELL order: the quantity held plays no part, and
    the 95%-of-cash test is skipped; the order is accepted exactly when the
    order-value and the exposure ratio tests both pass. *)
Lemma check_risk_limits_sell (self : PortfolioManager.t) (order : Order.t)
    (current_price : Q) :
  Order.side order = SELL ->
  let order_value := Order.quantity order * current_price in
  let portfolio_value :=
    Qmax (current_capital self + sum_market_value (positions self)) 1 in
  (check_risk_limits self order current_price).1 = true
  <-> order_value / portfolio_value <= 5 # 100
      /\ (sum_abs_market_value (positions self) + order_value)
           / portfolio_value <= 8 # 10.
Proof.
  intros Hside order_value portfolio_value.
  unfold check_risk_limits.
  pose proof (max_Qmax (current_capital self
                        + sum_market_value (positions self)) 1) as Hm.
  fold portfolio_value in Hm. fold order_value.
  set (m := Py.max _ 1) in *.
  set (ex := sum_abs_market_value (positions self)).
  assert (E1 : order_value / m == order_value / portfolio_value)
    by (rewrite Hm; reflexivity).
  assert (E2 : (ex + order_value) / m == (ex + order_value) / portfolio_value)
    by (rewrite Hm; reflexivity).
  unfold max_position_size, max_total_exposure.
  destruct (Py.ltb (5 # 100) (order_value / m)) eqn:C1.
  { apply ltb_lt in C1. cbn. split; [discriminate|]. intros [H _]. lra. }
  apply ltb_ge in C1.
  destruct (Py.ltb (8 # 10) ((ex + order_value) / m)) eqn:C2.
  { apply ltb_lt in C2. cbn. split; [discriminate|]. intros [_ H]. lra. }
  apply ltb_ge in C2. rewrite Hside. cbn.
  split; [intros _; split; lra | reflexivity].
Qed.

(** C10, as the code has it.  A SELL on a symbol with no position is
    booked, not rejected: the new position has average price 0 and quantity
    [-q], cash grows by [q*p - commission], the realized PnL is [p*q] (on
    the position and on the cumulative PnL), and the trade counts as
    winning exactly when [p*q > 0].  The risk gate does cap short sales: it
    has no test on the quantity held, and accepts a SELL order if and only
    if its value is at most 5% of the portfolio value and the exposure
    after it at most 80%. *)
Theorem short_sale_on_empty_position
    (self : PortfolioManager.t) (trade : TradeExecution.t) :
  positions self !! TradeExecution.symbol trade = None ->
  TradeExecution.side trade = SELL ->
  let q := TradeExecution.quantity trade in
  let p := TradeExecution.price trade in
  let s' := (update_position self trade).1.1 in
  (exists position,
     positions s' !! TradeExecution.symbol trade = Some position
     /\ Position.average_price position = 0
     /\ Position.quantity position == - q
     /\ Position.realized_pnl position == p * q)
  /\ current_capital s'
     == current_capital self + (q * p - TradeExecution.commission trade)
  /\ total_pnl s' == total_pnl self + p * q
  /\ total_trades s' = (total_trades self + 1)%Z
  /\ (0 < p * q -> winning_trades s' = (winning_trades self + 1)%Z)
  /\ (p * q <= 0 -> winning_trades s' = winning_trades self)
  /\ (forall (order : Order.t) (current_price : Q),
        Order.side order = SELL ->
        let order_value := Order.quantity order * current_price in
        let portfolio_value :=
          Qmax (current_capital self + sum_market_value (positions self)) 1 in
        (check_risk_limits self order current_price).1 = true
        <-> order_value / portfolio_value <= 5 # 100
            /\ (sum_abs_market_value (positions self) + order_value)
                 / portfolio_value <= 8 # 10).
Proof.
  intros Hnone Hsell q p s'.
  destruct (update_position_fields self trade) as (Hc & Ht & Hw & Hp & _ & _).
  fold s' in Hc, Ht, Hw, Hp.
  assert (Hb : positions (book_trade self trade) !! TradeExecution.symbol trade
               = Some (Position.mk (TradeExecution.symbol trade) (0 - q) 0 0 0
                         (0 + (p - 0) * q)
                         (TradeExecution.timestamp_us trade))).
  { unfold book_trade. rewrite Hsell, Hnone. cbn [positions].
    rewrite lookup_insert_eq. reflexivity. }
  pose proof (update_position_traded self trade _ Hb) as Hl.
  fold s' in Hl. rewrite refresh_traded in Hl.
  unfold book_trade in Hc, Ht, Hw, Hp. rewrite Hsell, Hnone in Hc, Ht, Hw, Hp.
  cbn [current_capital total_trades winning_trades total_pnl
       Position.average_price] in Hc, Ht, Hw, Hp.
  fold q p in Hc, Ht, Hw, Hp.
  assert (Hr : (p - 0) * q == p * q) by ring.
  split; [|split; [|split; [|split; [|split; [|split]]]]].
  - eexists. split; [exact Hl|].
    cbn [Position.average_price Position.quantity Position.realized_pnl].
    split; [reflexivity|]. split; ring.
  - rewrite Hc. reflexivity.
  - rewrite Hp. ring.
  - exact Ht.
  - intros Hpos. rewrite Hw.
    destruct (Py.ltb 0 _) eqn:E; [reflexivity|].
    apply ltb_ge in E. rewrite Hr in E. lra.
  - intros Hneg. rewrite Hw.
    destruct (Py.ltb 0 _) eqn:E; [|reflexivity].
    apply ltb_lt in E. rewrite Hr in E. lra.
  - intros order current_price Hside.
    apply check_risk_limits_sell. exact Hside.
Qed.

(** C10 at a short sale of 10000 units at 1.00 on a fresh portfolio. *)
Lemma short_sale_on_empty_position_witness :
  let s' := (update_position (__init__ 1000000) example_short).1.1 in
  positions (__init__ 1000000) !! TradeExecution.symbol example_short = None
  /\ TradeExecution.side example_short = SELL
  /\ current_capital s' == 1000000 + (10000 * 1 - 5)
  /\ winning_trades s' = 1%Z
  /\ (check_risk_limits (__init__ 1000000) example_short_order 1).1 = true.
Proof.
  intros s'.
  assert (H0 : positions (__init__ 1000000)
               !! TradeExecution.symbol example_short = None) by reflexivity.
  destruct (short_sale_on_empty_position (__init__ 1000000) example_short
              H0 eq_refl)
    as (_ & Hcash & _ & _ & Hwin & _ & Hgate).
  split; [exact H0|]. split; [reflexivity|]. split; [exact Hcash|].
  split; [apply Hwin; reflexivity|].
  apply (proj2 (Hgate example_short_order 1 eq_refl)).
  split; apply Qle_bool_iff; reflexivity.
Defined.

(** The closing clause of the claim fails: a SELL of 60000 AAA at 1.00 on a
    fresh 1,000,000 portfolio, which holds no AAA, is refused by the
    position-size check (6% of the portfolio value, above the 5% limit). *)
Lemma short_sale_capped_by_position_check :
  positions (__init__ 1000000) !! Order.symbol example_large_short_order
  = None
  /\ Order.side example_large_short_order = SELL
  /\ exists position_percentage,
       check_risk_limits (__init__ 1000000) example_large_short_order 1
       = (false, Position_size_exceeds_limit position_percentage (5 # 100))
       /\ position_percentage == 6 # 100.
Proof.
  split; [reflexivity|]. split; [reflexivity|].
  eexists. split; reflexivity.
Qed.

(** The spec's round-trip scenario in numbers: cash 998,899.45 after the
    BUY; realized PnL 5, cash 1,000,003.8975, two trades, one winning after
    the SELL. *)
Example round_trip_scenario :
  let s1 := (update_position (__init__ 1000000) example_buy).1.1 in
  let s2 := (update_position s1 example_sell).1.1 in
  current_capital s1 == 99889945 # 100
  /\ total_pnl s2 == 5
  /\ current_capital s2 == 10000038975 # 10000
  /\ total_trades s2 = 2%Z
  /\ winning_trades s2 = 1%Z.
Proof. repeat split; reflexivity. Qed.

End RoundTrip.

(** ** The recomputed portfolio value *)

Section PortfolioValue.

Import PortfolioManager.

(** For every trade, the value recomputed by [update_position] is cash plus
    the traded symbol's quantity at the trade price: the loop of
    [calculate_portfolio_value] sees the one-entry dict
    [{symbol: trade.price}] and skips every other held symbol. *)
Lemma update_position_value_traded_only (self : PortfolioManager.t)
    (trade : TradeExecution.t) :
  let r := update_position self trade in
  exists position,
    positions r.1.1 !! TradeExecution.symbol trade = Some position
    /\ r.1.2 == current_capital r.1.1
               + Position.quantity position * TradeExecution.price trade.
Proof.
  intros r. unfold r.
  assert (Hb : exists booked,
             positions (book_trade self trade) !! TradeExecution.symbol trade
             = Some booked).
  { unfold book_trade. destruct (TradeExecution.side trade);
      cbn [positions]; rewrite lookup_insert_eq; eexists; reflexivity. }
  destruct Hb as [booked Hb].
  exists (refresh {[ TradeExecution.symbol trade
                     := TradeExecution.price trade ]}
            (TradeExecution.symbol trade) booked).
  split; [apply update_position_traded; exact Hb|].
  rewrite update_position_value, calculate_portfolio_value_single, Hb.
  destruct (update_position_fields self trade) as (-> & _).
  rewrite refresh_traded. reflexivity.
Qed.

(** C1 (the code departs from it).  After BUY 40000 AAA at 1.00 and BUY
    40000 BBB at 1.00 on a fresh 1,000,000 portfolio, AAA is still held
    with market value 40000, and cash plus all marked positions is 999960;
    the value recomputed at the end of the second update is 959960: the AAA
    position is left out.  In general the recomputed value is cash plus the
    traded symbol alone. *)
Theorem recomputed_value_omits_other_symbols :
  let s1 := (update_position (__init__ 1000000) example_buy_AAA).1.1 in
  let r := update_position s1 example_buy_BBB in
  (exists held,
     positions r.1.1 !! "AAA"%string = Some held
     /\ Position.quantity held == 40000
     /\ Position.market_value held == 40000)
  /\ cash_plus_marked_positions r.1.1 == 999960
  /\ r.1.2 == 959960
  /\ ~ r.1.2 == cash_plus_marked_positions r.1.1
  /\ (forall self trade,
        exists position,
          positions (update_position self trade).1.1
            !! TradeExecution.symbol trade = Some position
          /\ (update_position self trade).1.2
             == current_capital (update_position self trade).1.1
                + Position.quantity position * TradeExecution.price trade).
Proof.
  intros s1 r. split.
  { eexists. split; [vm_compute; reflexivity|]. split; reflexivity. }
  split; [reflexivity|]. split; [reflexivity|]. split.
  - vm_compute. discriminate.
  - intros self trade. apply update_position_value_traded_only.
Qed.

End PortfolioValue.

(** ** Peak and drawdown *)

Section Drawdown.

Import PortfolioManager.

Lemma fold_left_Qmax_eq (l : list Q) (a b : Q) :
  a == b -> fold_left Qmax l a == fold_left Qmax l b.
Proof.
  revert a b. induction l as [|x l IH]; intros a b Hab; cbn.
  - exact Hab.
  - apply IH. rewrite Hab. reflexivity.
Qed.

Lemma fold_left_Qmax_ge (l : list Q) (a : Q) : a <= fold_left Qmax l a.
Proof.
  revert a. induction l as [|x l IH]; intros a; cbn.
  - lra.
  - specialize (IH (Qmax a x)). pose proof (Q.le_max_l a x). lra.
Qed.

(** One update from a state with a positive peak and a non-negative
    maximum drawdown: the call returns, and peak and maximum drawdown move
    as stated. *)
Lemma update_position_drawdown_step (self : PortfolioManager.t)
    (trade : TradeExecution.t) :
  0 < peak_portfolio_value self ->
  0 <= max_drawdown self ->
  let r := update_position self trade in
  r.2 = Py.Ok tt
  /\ peak_portfolio_value self <= peak_portfolio_value r.1.1
  /\ max_drawdown self <= max_drawdown r.1.1
  /\ max_drawdown r.1.1
     == Qmax (max_drawdown self)
          ((peak_portfolio_value r.1.1 - r.1.2) / peak_portfolio_value r.1.1)
  /\ (0 <= r.1.2 -> max_drawdown self <= 1 -> max_drawdown r.1.1 <= 1).
Proof.
  intros Hpeak Hmd r. unfold r, update_position. cbn zeta.
  unfold calculate_portfolio_value.
  cbn [peak_portfolio_value max_drawdown].
  set (v := map_fold _ _ _).
  assert (Hpk : peak_portfolio_value (book_trade self trade)
                = peak_portfolio_value self)
    by (unfold book_trade; destruct (TradeExecution.side trade); reflexivity).
  assert (Hmx : max_drawdown (book_trade self trade) = max_drawdown self)
    by (unfold book_trade; destruct (TradeExecution.side trade); reflexivity).
  rewrite Hpk, Hmx.
  set (pk := peak_portfolio_value self) in *.
  set (md := max_drawdown self) in *.
  destruct (Py.ltb pk v) eqn:E.
  - apply ltb_lt in E. cbn [fst snd peak_portfolio_value max_drawdown].
    assert (Hz : (v - v) / v == 0) by (field; lra).
    repeat split; try lra.
    rewrite Hz. destruct (Q.max_spec md 0) as [[H ->]|[H ->]]; lra.
  - apply ltb_ge in E. unfold Py.div.
    assert (Hnz : Py.eqb pk 0 = false) by (apply eqb_neq; lra).
    rewrite Hnz. cbn [fst snd peak_portfolio_value max_drawdown].
    assert (Hdd : 0 <= (pk - v) / pk).
    { apply Qle_shift_div_l; lra. }
    pose proof (max_Qmax md ((pk - v) / pk)) as Hm.
    destruct (Q.max_spec md ((pk - v) / pk)) as [[H Hq]|[H Hq]];
      repeat split; try lra.
    intros Hv Hle. rewrite Hm, Hq. apply Qle_shift_div_r; lra.
Qed.

(** The drawdown the code tracks.  From a positive peak and a
    non-negative maximum drawdown, across every sequence of trade updates:
    the peak never decreases, the maximum drawdown never decreases, stays
    non-negative and equals the maximum over the updates of
    (peak - recomputed figure) / peak, the figure being the one
    [update_position] recomputes (cash plus the traded symbol alone); it
    stays at most 1 as long as every recomputed figure is non-negative. *)
Lemma peak_and_drawdown_over_trades (self : PortfolioManager.t)
    (trades : list TradeExecution.t) :
  0 < peak_portfolio_value self ->
  0 <= max_drawdown self ->
  let s := apply_trades self trades in
  peak_portfolio_value self <= peak_portfolio_value s
  /\ max_drawdown self <= max_drawdown s
  /\ 0 <= max_drawdown s
  /\ max_drawdown s
     == fold_left Qmax (drawdown_history self trades) (max_drawdown self)
  /\ (max_drawdown self <= 1 ->
      Forall (fun v => 0 <= v) (value_history self trades) ->
      max_drawdown s <= 1).
Proof.
  revert self. induction trades as [|trade trades IH]; intros self Hpeak Hmd.
  - cbn; repeat split; try lra; auto.
  - cbn zeta.
    destruct (update_position_drawdown_step self trade Hpeak Hmd)
      as (_ & Hp1 & Hm1 & Heq1 & Hle1).
    set (r := update_position self trade) in *.
    assert (Hpeak1 : 0 < peak_portfolio_value r.1.1) by lra.
    assert (Hmd1 : 0 <= max_drawdown r.1.1) by lra.
    specialize (IH r.1.1 Hpeak1 Hmd1). cbn zeta in IH.
    destruct IH as (Hp & Hm & H0 & Heq & Hle).
    change (apply_trades self (trade :: trades))
      with (apply_trades r.1.1 trades).
    repeat split; try lra.
    + rewrite Heq. cbn [drawdown_history fold_left]. fold r.
      apply fold_left_Qmax_eq. exact Heq1.
    + intros Hone Hall. cbn [value_history] in Hall. fold r in Hall.
      inversion Hall as [|? ? Hv Hrest]; subst.
      apply Hle; [apply Hle1; assumption | exact Hrest].
Qed.

(** The round trip BUY 1000 at 1.1000, SELL 1000 at 1.1050. *)
Lemma peak_and_drawdown_over_trades_witness :
  let s := apply_trades (__init__ 1000000) [example_buy; example_sell] in
  0 < peak_portfolio_value (__init__ 1000000)
  /\ 0 <= max_drawdown (__init__ 1000000)
  /\ peak_portfolio_value (__init__ 1000000) <= peak_portfolio_value s
  /\ 0 <= max_drawdown s
  /\ max_drawdown s <= 1.
Proof.
  intros s.
  assert (H1 : 0 < peak_portfolio_value (__init__ 1000000)) by reflexivity.
  assert (H2 : 0 <= max_drawdown (__init__ 1000000)) by discriminate.
  destruct (peak_and_drawdown_over_trades (__init__ 1000000)
              [example_buy; example_sell] H1 H2)
    as (Hp & _ & H0 & _ & Hle).
  split; [exact H1|]. split; [exact H2|]. split; [exact Hp|].
  split; [exact H0|].
  apply Hle; [discriminate|].
  constructor; [apply Qle_bool_iff; reflexivity|].
  constructor; [apply Qle_bool_iff; reflexivity|]. constructor.
Defined.

(** The bound 1 on the maximum drawdown fails: SELL 10000 AAA short at 1.00,
    then BUY 10 AAA at 1000.00.  Both orders pass [check_risk_limits]; the
    second update recomputes a negative portfolio value and the maximum
    drawdown exceeds 1. *)
Lemma max_drawdown_can_exceed_one :
  let s1 := (update_position (__init__ 1000000) example_short).1.1 in
  let r := update_position s1 example_cover in
  (check_risk_limits (__init__ 1000000) example_short_order 1).1 = true
  /\ (check_risk_limits s1 example_cover_order 1000).1 = true
  /\ r.1.2 < 0
  /\ max_drawdown (apply_trades (__init__ 1000000)
                     [example_short; example_cover]) == 9990010 # 1000000
  /\ ~ max_drawdown (apply_trades (__init__ 1000000)
                       [example_short; example_cover]) <= 1.
Proof.
  intros s1 r.
  split; [reflexivity|]. split; [reflexivity|]. split; [reflexivity|].
  split; [reflexivity|].
  vm_compute. intros H. apply H. reflexivity.
Qed.

(** C8 (the code departs from it).  After BUY 40000 AAA at 1.00 and BUY
    40000 BBB at 1.00 on a fresh 1,000,000 portfolio, the portfolio value
    (cash plus every position's market value) is 999980 and then 999960,
    the peak stays 1,000,000, and the maximum over time of
    (peak - portfolio value) / peak is 0.00004; [max_drawdown] is 0.04004,
    taken from the recomputed figure 959960 that leaves the AAA position
    out.  In general, from a positive peak, the peak and [max_drawdown]
    never decrease and [max_drawdown] is the maximum over the updates of
    (peak - recomputed figure) / peak. *)
Theorem max_drawdown_departs_from_portfolio_value :
  let s0 := __init__ 1000000 in
  let trades := [example_buy_AAA; example_buy_BBB] in
  let s := apply_trades s0 trades in
  Forall2 Qeq (portfolio_value_history s0 trades) [999980; 999960]
  /\ Forall2 Qeq (value_history s0 trades) [999980; 959960]
  /\ peak_portfolio_value s == 1000000
  /\ spec_max_drawdown s0 trades == 4 # 100000
  /\ max_drawdown s == 4004 # 100000
  /\ ~ max_drawdown s == spec_max_drawdown s0 trades
  /\ (forall (self : PortfolioManager.t) (trades : list TradeExecution.t),
        0 < peak_portfolio_value self ->
        0 <= max_drawdown self ->
        peak_portfolio_value self
        <= peak_portfolio_value (apply_trades self trades)
        /\ max_drawdown self <= max_drawdown (apply_trades self trades)
        /\ max_drawdown (apply_trades self trades)
           == fold_left Qmax (drawdown_history self trades)
                (max_drawdown self)).
Proof.
  intros s0 trades s.
  split; [constructor; [reflexivity|constructor; [reflexivity|constructor]]|].
  split; [constructor; [reflexivity|constructor; [reflexivity|constructor]]|].
  split; [reflexivity|]. split; [reflexivity|]. split; [reflexivity|].
  split; [vm_compute; discriminate|].
  intros self trades' Hpeak Hmd.
  destruct (peak_and_drawdown_over_trades self trades' Hpeak Hmd)
    as (Hp & Hm & _ & Heq & _).
  split; [exact Hp|]. split; [exact Hm | exact Heq].
Qed.

End Drawdown.

(** ** Signal and order gates *)

Section Gates.

Import FractalSignalProcessor DistributedHFTEngine.

(** [process_fractal_pattern] returns a signal exactly when the pattern
    passes the confidence and risk thresholds. *)
Lemma process_fractal_pattern_some (self : FractalSignalProcessor.t)
    (now : Z) (pattern_data : PatternData.t) :
  is_Some (process_fractal_pattern self now pattern_data).1
  <-> 7 # 10 <= PatternData.confidence pattern_data
      /\ PatternData.risk_score pattern_data <= 15 # 10.
Proof.
  unfold process_fractal_pattern, confidence_threshold, risk_threshold.
  destruct (Py.ltb (PatternData.confidence pattern_data) (7 # 10)) eqn:E1.
  { apply ltb_lt in E1. cbn. split.
    - intros [x Hx]. discriminate.
    - intros [H _]. lra. }
  apply ltb_ge in E1.
  destruct (Py.ltb (15 # 10) (PatternData.risk_score pattern_data)) eqn:E2.
  { apply ltb_lt in E2. cbn. split.
    - intros [x Hx]. discriminate.
    - intros [_ H]. lra. }
  apply ltb_ge in E2. cbn. split; [intros _; split; assumption|].
  intros _. eexists. reflexivity.
Qed.

(** The signal carries the pattern's prediction as its action. *)
Lemma process_fractal_pattern_action (self : FractalSignalProcessor.t)
    (now : Z) (pattern_data : PatternData.t) (signal : Signal.t) :
  (process_fractal_pattern self now pattern_data).1 = Some signal ->
  Signal.action signal = PatternData.prediction_signal pattern_data.
Proof.
  unfold process_fractal_pattern.
  destruct (Py.ltb _ confidence_threshold); [discriminate|].
  destruct (Py.ltb risk_threshold _); [discriminate|].
  cbn. intros [= <-]. reflexivity.
Qed.

(** [_create_order_from_signal] builds an order exactly for the four
    directional actions. *)
Lemma create_order_some (now : Z) (signal : Signal.t) :
  is_Some (_create_order_from_signal now signal)
  <-> directional (Signal.action signal) = true.
Proof.
  unfold _create_order_from_signal, directional.
  destruct (String.eqb (Signal.action signal) "BUY"),
           (String.eqb (Signal.action signal) "STRONG_BUY"),
           (String.eqb (Signal.action signal) "SELL"),
           (String.eqb (Signal.action signal) "STRONG_SELL"); cbn;
    split; intros H; try reflexivity; try discriminate;
    try (eexists; reflexivity); destruct H; discriminate.
Qed.

(** What [on_pattern] sends to the order topic: one new record or none. *)
Lemma on_pattern_output (self : DistributedHFTEngine.t)
    (t_signal t_order t_submit : Z) (pattern_data : PatternData.t) :
  let self' := on_pattern self t_signal t_order t_submit pattern_data in
  match (process_fractal_pattern (signal_processor self) t_signal
           pattern_data).1 with
  | Some signal =>
      match _create_order_from_signal t_order signal with
      | Some order =>
          order_output self'
          = order_output self ++ [Order.set_timestamp_us t_submit order]
      | None =>
          order_output self' = order_output self
          /\ execution_engine self' = execution_engine self
      end
  | None =>
      order_output self' = order_output self
      /\ execution_engine self' = execution_engine self
  end.
Proof.
  unfold on_pattern.
  destruct (process_fractal_pattern _ _ _) as [[signal|] sp]; cbn [fst].
  - destruct (_create_order_from_signal t_order signal); cbn; auto.
  - cbn. auto.
Qed.

(** The claim as worded fails: a HOLD pattern with confidence 0.9 and risk
    0.5 yields a trading signal although HOLD is not a directional
    action. *)
Lemma signal_created_without_directional_action :
  is_Some (process_fractal_pattern FractalSignalProcessor.__init__ 0
             example_hold_pattern).1
  /\ directional (PatternData.prediction_signal example_hold_pattern) = false
  /\ ~ (forall (self : FractalSignalProcessor.t) (now : Z)
          (pattern_data : PatternData.t),
          is_Some (process_fractal_pattern self now pattern_data).1
          <-> 7 # 10 <= PatternData.confidence pattern_data
              /\ PatternData.risk_score pattern_data <= 15 # 10
              /\ directional (PatternData.prediction_signal pattern_data)
                 = true).
Proof.
  assert (Hs : is_Some (process_fractal_pattern FractalSignalProcessor.__init__
                          0 example_hold_pattern).1)
    by (eexists; reflexivity).
  split; [exact Hs|]. split; [reflexivity|].
  intros H. apply H in Hs. destruct Hs as (_ & _ & Hd). discriminate.
Qed.

(** C3, as the code has it.  A trading signal is created if and only if
    confidence >= 0.7 and risk_score <= 1.5, whatever the prediction; an
    Order record is produced if and only if, in addition, the prediction is
    one of BUY, STRONG_BUY, SELL, STRONG_SELL; so a pattern with confidence
    below 0.7 or risk_score above 1.5 produces no Order record and leaves
    the execution engine untouched. *)
Theorem signal_and_order_gates (self : DistributedHFTEngine.t)
    (t_signal t_order t_submit : Z) (pattern_data : PatternData.t) :
  let confidence := PatternData.confidence pattern_data in
  let risk_score := PatternData.risk_score pattern_data in
  let self' := on_pattern self t_signal t_order t_submit pattern_data in
  (is_Some (process_fractal_pattern (signal_processor self) t_signal
              pattern_data).1
   <-> 7 # 10 <= confidence /\ risk_score <= 15 # 10)
  /\ ((exists order, order_output self' = order_output self ++ [order])
      <-> 7 # 10 <= confidence /\ risk_score <= 15 # 10
          /\ directional (PatternData.prediction_signal pattern_data) = true)
  /\ (confidence < 7 # 10 \/ 15 # 10 < risk_score ->
      order_output self' = order_output self
      /\ execution_engine self' = execution_engine self).
Proof.
  intros confidence risk_score self'.
  pose proof (process_fractal_pattern_some (signal_processor self) t_signal
                pattern_data) as Hsig.
  pose proof (on_pattern_output self t_signal t_order t_submit pattern_data)
    as Hout.
  cbn zeta in Hout. fold self' in Hout.
  fold confidence risk_score in Hsig.
  assert (Hfresh : forall (l : list Order.t) o, l <> l ++ [o]).
  { intros l o Heq. apply (f_equal length) in Heq.
    rewrite length_app in Heq. cbn in Heq. lia. }
  split; [exact Hsig|].
  destruct (process_fractal_pattern (signal_processor self) t_signal
              pattern_data).1 as [signal|] eqn:E.
  - pose proof (process_fractal_pattern_action _ _ _ _ E) as Hact.
    pose proof (create_order_some t_order signal) as Hord.
    rewrite Hact in Hord.
    assert (Hthr : 7 # 10 <= confidence /\ risk_score <= 15 # 10)
      by (apply Hsig; eexists; reflexivity).
    destruct (_create_order_from_signal t_order signal) as [order|].
    + assert (Hd : directional (PatternData.prediction_signal pattern_data)
                   = true) by (apply Hord; eexists; reflexivity).
      split.
      * split; [intros _; tauto | intros _; eexists; exact Hout].
      * intros [H|H]; lra.
    + destruct Hout as [Hout Heng]. split.
      * split.
        -- intros [order Ho]. rewrite Hout in Ho.
           exfalso. exact (Hfresh _ _ Ho).
        -- intros (_ & _ & Hd). apply Hord in Hd. destruct Hd. discriminate.
      * intros _. split; assumption.
  - destruct Hout as [Hout Heng]. split.
    + split.
      * intros [order Ho]. rewrite Hout in Ho.
        exfalso. exact (Hfresh _ _ Ho).
      * intros (H1 & H2 & _).
        assert (Hs : is_Some (@None Signal.t)) by (apply Hsig; tauto).
        destruct Hs. discriminate.
    + intros _. split; assumption.
Qed.

(** The spec's confidence-gate scenario: confidence 0.65 with risk 1.0 is
    rejected; confidence 0.70 with risk 1.0 and prediction BUY yields a
    signal and an order. *)
Example confidence_gate_scenario :
  (process_fractal_pattern FractalSignalProcessor.__init__ 0
     (PatternData.mk "EURUSD" "VOLATILE_UPTREND" (65 # 100) 1 "BUY")).1 = None
  /\ order_output
       (on_pattern DistributedHFTEngine.__init__ 1 2 3
          (PatternData.mk "EURUSD" "VOLATILE_UPTREND" (70 # 100) 1 "BUY"))
     = [Order.mk "HFT_2_EURUSD" "EURUSD" BUY MARKET
          (Py.max 100
             (Py.min 10000
                (1000 * ((5 # 10)
                         + FractalSignalProcessor._calculate_signal_strength
                             "VOLATILE_UPTREND" (70 # 100) 1 "BUY"
                           * (15 # 10))
                 * Py.max (2 # 10) (1 - 1 * (3 # 10)))))
          None 3 "HFT_ENGINE" PENDING 0 0 0
          (Some "VOLATILE_UPTREND"%string) 1].
Proof. split; reflexivity. Qed.

End Gates.

(** ** Intake order *)

Section Intake.

Import OrderExecutionEngine.

(** Two queued entries with the same priority and different orders cannot
    be compared. *)
Lemma equal_priority_comparison_raises :
  heapq.lt (1%Z, order_B) (1%Z, order_A) = Py.Raise Py.TypeError.
Proof. reflexivity. Qed.

(** A MEDIUM order followed by a HIGH order, both queued before any [get]:
    the HIGH one is handed over first. *)
Lemma high_overtakes_medium :
  (process_rounds 2 (submit_all [(order_A, 1%Z); (order_B, 0%Z)])).1
  = [Order.set_timestamp_us 2 order_B; Order.set_timestamp_us 1 order_A].
Proof. reflexivity. Qed.

(** C7 (the code departs from it).  Three MEDIUM orders A, B, C queued
    before any [get]: the second and third [submit_order] raise inside the
    put, the first [get] raises and drops A, and only B and C are handed
    over.  MEDIUM A, MEDIUM B, HIGH C queued before any [get]: the first
    [get] raises and drops the HIGH order C, then B is handed over before
    A. *)
Theorem equal_priorities_break_intake_order :
  let mediums := submit_all [(order_A, 1%Z); (order_B, 1%Z); (order_C, 1%Z)] in
  let mixed := submit_all [(order_A, 1%Z); (order_B, 1%Z); (order_C, 0%Z)] in
  execution_errors mediums = 2%Z
  /\ (process_one mediums).1 = None
  /\ map Order.order_id (process_rounds 4 mediums).1
     = ["HFT_2_GBPUSD"; "HFT_3_USDJPY"]%string
  /\ execution_queue (process_rounds 4 mediums).2 = []
  /\ (process_one mixed).1 = None
  /\ map Order.order_id (process_rounds 4 mixed).1
     = ["HFT_2_GBPUSD"; "HFT_1_EURUSD"]%string
  /\ execution_queue (process_rounds 4 mixed).2 = [].
Proof. repeat split; reflexivity. Qed.

End Intake.

(** ** Box-counting fractal dimension *)

Section BoxCounting.

Import RealTimeFractalDetector.

Variable ln : Q -> Q.

(** The fit returns, and its value is either 1 or the clamped slope. *)
Lemma fit_range (log_sizes log_counts : list Q) :
  exists fd, fit log_sizes log_counts = Py.Ok fd /\ 1 <= fd <= 2.
Proof.
  unfold fit.
  destruct (length log_sizes <? 2)%nat; [exists 1; split; [reflexivity|lra]|].
  destruct (Py.ltb (Qabs (denom log_sizes)) (1 # 10000000000)) eqn:E;
    [exists 1; split; [reflexivity|lra]|].
  apply ltb_ge in E. unfold Py.div.
  assert (Hnz : Py.eqb (denom log_sizes) 0 = false).
  { apply eqb_neq. intros H0. rewrite H0 in E. cbn in E.
    revert E. apply Qlt_not_le. reflexivity. }
  rewrite Hnz. eexists. split; [reflexivity|].
  apply clamp_range. lra.
Qed.

Lemma fit_degenerate (log_sizes log_counts : list Q) :
  (length log_sizes < 2)%nat
  \/ Qabs (denom log_sizes) < 1 # 10000000000 ->
  fit log_sizes log_counts = Py.Ok 1.
Proof.
  unfold fit. intros [H|H].
  - apply Nat.ltb_lt in H. rewrite H. reflexivity.
  - destruct (length log_sizes <? 2)%nat; [reflexivity|].
    apply ltb_lt in H. rewrite H. reflexivity.
Qed.

Lemma min_fold_constant (p : Q) (xs : list Q) (x : Q) :
  x == p -> Forall (fun y => y == p) xs ->
  fold_left (fun m y => if Py.ltb y m then y else m) xs x = x.
Proof.
  intros Hx Hall. revert x Hx.
  induction Hall as [|y ys Hy _ IH]; intros x Hx; cbn; [reflexivity|].
  assert (E : Py.ltb y x = false) by (apply ltb_ge; lra).
  rewrite E. apply IH. exact Hx.
Qed.

Lemma max_fold_constant (p : Q) (xs : list Q) (x : Q) :
  x == p -> Forall (fun y => y == p) xs ->
  fold_left (fun m y => if Py.ltb m y then y else m) xs x = x.
Proof.
  intros Hx Hall. revert x Hx.
  induction Hall as [|y ys Hy _ IH]; intros x Hx; cbn; [reflexivity|].
  assert (E : Py.ltb x y = false) by (apply ltb_ge; lra).
  rewrite E. apply IH. exact Hx.
Qed.

(** C2.  For every list of prices [_fast_box_counting] returns a value in
    [[1, 2]]; the value is exactly 1 when the list has fewer than 10
    elements, when max - min = 0 (in particular when all prices are equal),
    when fewer than 2 box sizes were recorded, and when the least-squares
    denominator is below 1e-10 in absolute value. *)
Theorem fast_box_counting_range (prices : list Q) :
  exists fd,
    _fast_box_counting ln prices = Py.Ok fd
    /\ 1 <= fd <= 2
    /\ ((length prices < 10)%nat -> fd = 1)
    /\ (forall min_price max_price,
          Py.min_list prices = Py.Ok min_price ->
          Py.max_list prices = Py.Ok max_price ->
          let log_sizes :=
            (log_points ln prices min_price (max_price - min_price)).1 in
          max_price - min_price == 0
          \/ (length log_sizes < 2)%nat
          \/ Qabs (denom log_sizes) < 1 # 10000000000 ->
          fd = 1)
    /\ (forall p, Forall (fun x => x == p) prices -> fd = 1).
Proof.
  unfold _fast_box_counting.
  destruct (length prices <? 10)%nat eqn:Hlen.
  { exists 1. split; [reflexivity|]. split; [lra|]. auto. }
  apply Nat.ltb_ge in Hlen.
  destruct prices as [|x xs]; [cbn in Hlen; lia|].
  cbn [Py.min_list Py.max_list mbind result_bind Py.bind].
  set (mn := fold_left (fun m y => if Py.ltb y m then y else m) xs x).
  set (mx := fold_left (fun m y => if Py.ltb m y then y else m) xs x).
  destruct (Py.eqb (mx - mn) 0) eqn:Hrange.
  { exists 1. split; [reflexivity|]. split; [lra|]. auto. }
  apply eqb_neq in Hrange.
  destruct (log_points ln (x :: xs) mn (mx - mn)) as [log_sizes log_counts]
    eqn:Hpts.
  destruct (fit_range log_sizes log_counts) as (fd & Hfit & Hfd).
  exists fd. split; [exact Hfit|]. split; [exact Hfd|].
  split; [intros H; lia|]. split.
  - intros min_price max_price [= <-] [= <-]. cbn zeta.
    rewrite Hpts. cbn [fst]. intros [H|H]; [contradiction|].
    rewrite (fit_degenerate _ log_counts H) in Hfit. congruence.
  - intros p Hall. exfalso. apply Hrange.
    inversion Hall as [|? ? Hx Hxs]; subst.
    unfold mx, mn.
    rewrite (max_fold_constant p xs x Hx Hxs).
    rewrite (min_fold_constant p xs x Hx Hxs). ring.
Qed.

End BoxCounting.

(** ** The detector's confidence gate *)

Section ConfidenceGate.

Import RealTimeFractalDetector.

Variable ln : Q -> Q.
Variable sqrt : Q -> Q.

(** The classifier never answers "NO_PATTERN". *)
Lemma classify_pattern_label (prices volatilities : list Q)
    (fractal_dim : Q) (pattern_type : string) :
  _classify_pattern prices volatilities fractal_dim = Py.Ok pattern_type ->
  String.eqb pattern_type "NO_PATTERN" = false.
Proof.
  unfold _classify_pattern.
  destruct (statistics.mean volatilities); [|discriminate].
  destruct (simple_returns prices); [|discriminate].
  cbn [mbind result_bind Py.bind].
  repeat match goal with
         | |- context [if ?b then _ else _] => destruct b
         end;
    intros [= <-]; reflexivity.
Qed.

(** When the classifier returns, the volatility mean and the simple
    returns were computed. *)
Lemma classify_pattern_inputs (prices volatilities : list Q)
    (fractal_dim : Q) (pattern_type : string) :
  _classify_pattern prices volatilities fractal_dim = Py.Ok pattern_type ->
  (exists avg_vol, statistics.mean volatilities = Py.Ok avg_vol)
  /\ (exists returns, simple_returns prices = Py.Ok returns).
Proof.
  unfold _classify_pattern.
  destruct (statistics.mean volatilities) as [avg_vol|]; [|discriminate].
  destruct (simple_returns prices) as [returns|]; [|discriminate].
  intros _. split; eexists; reflexivity.
Qed.

(** C9.  On a full window whose confidence was computed: below 0.6
    ([min_pattern_strength]) the detector returns no pattern; from 0.6 on
    it returns a pattern carrying that confidence, so a confidence in
    [[0.6, 0.7)] does reach the pattern output. *)
Theorem confidence_gate_at_min_pattern_strength
    (symbol : string) (buffer : list (Z * Q * Q)) (window_size : Z)
    (fractal_dim confidence : Q) (pattern_type : string) :
  let prices := map (fun item => item.1.2) buffer in
  let volatilities := map (fun item => item.2) buffer in
  Z.of_nat (length buffer) = window_size ->
  _fast_box_counting ln prices = Py.Ok fractal_dim ->
  _classify_pattern prices volatilities fractal_dim = Py.Ok pattern_type ->
  _calculate_confidence sqrt prices fractal_dim volatilities
    = Py.Ok confidence ->
  (confidence < 6 # 10 ->
   _detect_pattern_in_window ln sqrt symbol buffer window_size = Py.Ok None)
  /\ (6 # 10 <= confidence ->
      exists pattern,
        _detect_pattern_in_window ln sqrt symbol buffer window_size
        = Py.Ok (Some pattern)
        /\ FractalPattern.confidence pattern = confidence
        /\ FractalPattern.fractal_dimension pattern = fractal_dim
        /\ FractalPattern.pattern_type pattern = pattern_type).
Proof.
  intros prices volatilities Hfull Hfd Hpt Hc.
  pose proof (classify_pattern_label _ _ _ _ Hpt) as Hlabel.
  destruct (classify_pattern_inputs _ _ _ _ Hpt)
    as [[avg_vol Hmean] [returns Hret]].
  unfold _detect_pattern_in_window.
  rewrite Hfull, Z.ltb_irrefl. cbn zeta.
  fold prices volatilities.
  rewrite Hfd. cbn [mbind result_bind Py.bind].
  rewrite Hpt. cbn [mbind result_bind Py.bind].
  rewrite Hlabel, Hc. cbn [mbind result_bind Py.bind].
  unfold min_pattern_strength. split.
  - intros Hlt. apply ltb_lt in Hlt. rewrite Hlt. reflexivity.
  - intros Hge. apply ltb_ge in Hge. rewrite Hge.
    unfold _calculate_pattern_strength, _calculate_risk_score.
    rewrite Hret, Hmean. cbn [mbind result_bind Py.bind].
    destruct buffer as [|item rest]; [discriminate Hmean|].
    cbn [map head Py.max_list Py.min_list mbind result_bind Py.bind].
    destruct (last (item.1.1 :: map (fun item0 => item0.1.1) rest))
      as [last_ts|] eqn:Hlast.
    + subst prices volatilities. cbn [map] in Hmean.
      cbn [map Py.max_list Py.min_list mbind result_bind Py.bind].
      eexists. split; [reflexivity|]. cbn. auto.
    + apply last_None in Hlast. discriminate.
Qed.

End ConfidenceGate.

(** C9 on the 50-tick ramp: the fractal dimension is 1, the label is
    SIDEWAYS, the confidence lies in [[0.6, 0.7)] and the pattern is
    emitted with it. *)
Lemma confidence_gate_at_min_pattern_strength_witness :
  let prices := map (fun item : Z * Q * Q => item.1.2) example_window in
  let volatilities := map (fun item : Z * Q * Q => item.2) example_window in
  Z.of_nat (length example_window) = 50%Z
  /\ RealTimeFractalDetector._fast_box_counting ln_approx prices = Py.Ok 1
  /\ RealTimeFractalDetector._classify_pattern prices volatilities 1
     = Py.Ok "SIDEWAYS"%string
  /\ exists confidence,
       RealTimeFractalDetector._calculate_confidence sqrt_approx prices 1
         volatilities = Py.Ok confidence
       /\ 6 # 10 <= confidence
       /\ confidence < 7 # 10
       /\ exists pattern,
            RealTimeFractalDetector._detect_pattern_in_window ln_approx
              sqrt_approx "EURUSD" example_window 50
            = Py.Ok (Some pattern)
            /\ FractalPattern.confidence pattern = confidence.
Proof.
  intros prices volatilities.
  assert (H1 : Z.of_nat (length example_window) = 50%Z) by reflexivity.
  assert (H2 : RealTimeFractalDetector._fast_box_counting ln_approx prices
               = Py.Ok 1) by reflexivity.
  assert (H3 : RealTimeFractalDetector._classify_pattern prices volatilities 1
               = Py.Ok "SIDEWAYS"%string) by reflexivity.
  assert (H4 : exists confidence,
             RealTimeFractalDetector._calculate_confidence sqrt_approx prices
               1 volatilities = Py.Ok confidence
             /\ 6 # 10 <= confidence /\ confidence < 7 # 10).
  { eexists. split; [lazy; reflexivity|].
    split; [apply Qle_bool_iff; reflexivity | reflexivity]. }
  destruct H4 as (confidence & H4 & Hge & Hlt).
  split; [exact H1|]. split; [exact H2|]. split; [exact H3|].
  exists confidence. split; [exact H4|]. split; [exact Hge|].
  split; [exact Hlt|].
  destruct (confidence_gate_at_min_pattern_strength ln_approx sqrt_approx
              "EURUSD" example_window 50 1 confidence "SIDEWAYS"
              H1 H2 H3 H4) as [_ Hemit].
  destruct (Hemit Hge) as (pattern & Hp & Hconf & _).
  exists pattern. split; [exact Hp | exact Hconf].
Defined.

(** * Further properties of the modelled code *)

(** ** Signal processor *)

Section SignalProcessor.

Import FractalSignalProcessor DistributedHFTEngine.

(** The signal strength is clamped to [[0, 1]]; an emitted signal carries
    it, repeats the pattern's symbol, confidence and risk, and is HIGH
    priority exactly when the strength exceeds 0.8, MEDIUM otherwise. *)
Theorem emitted_signal_strength_and_priority
    (self : FractalSignalProcessor.t) (now : Z) (pattern_data : PatternData.t) :
  match (process_fractal_pattern self now pattern_data).1 with
  | Some signal =>
      0 <= Signal.signal_strength signal <= 1
      /\ Signal.symbol signal = PatternData.symbol pattern_data
      /\ Signal.confidence signal = PatternData.confidence pattern_data
      /\ Signal.risk_score signal = PatternData.risk_score pattern_data
      /\ Signal.timestamp_us signal = now
      /\ (8 # 10 < Signal.signal_strength signal
          /\ Signal.priority signal = "HIGH"%string
          \/ Signal.signal_strength signal <= 8 # 10
             /\ Signal.priority signal = "MEDIUM"%string)
  | None => True
  end.
Proof.
  unfold process_fractal_pattern.
  destruct (Py.ltb _ confidence_threshold); [exact I|].
  destruct (Py.ltb risk_threshold _); [exact I|].
  cbn [fst Signal.signal_strength Signal.symbol Signal.confidence
       Signal.risk_score Signal.timestamp_us Signal.priority].
  split.
  { unfold _calculate_signal_strength. apply clamp_range. lra. }
  do 4 (split; [reflexivity|]).
  destruct (Py.ltb (8 # 10) _) eqn:E.
  - left. apply ltb_lt in E. auto.
  - right. apply ltb_ge in E. auto.
Qed.

Lemma append_bounded_length (history : list Signal.t) (s : Signal.t) :
  (length history <= 100)%nat ->
  (length (append_bounded history s) <= 100)%nat.
Proof.
  intros H. unfold append_bounded.
  destruct (100 <? length (history ++ [s]))%nat eqn:E.
  - rewrite length_tl, length_app. cbn. lia.
  - apply Nat.ltb_ge in E. exact E.
Qed.

Lemma process_fractal_pattern_history_bounded
    (self : FractalSignalProcessor.t) (now : Z) (pattern_data : PatternData.t) :
  map_Forall (fun _ history => (length history <= 100)%nat)
             (signal_history self) ->
  map_Forall (fun _ history => (length history <= 100)%nat)
             (signal_history (process_fractal_pattern self now pattern_data).2).
Proof.
  intros Hinv. unfold process_fractal_pattern.
  destruct (Py.ltb _ confidence_threshold); [exact Hinv|].
  destruct (Py.ltb risk_threshold _); [exact Hinv|].
  cbn [snd signal_history].
  apply map_Forall_insert_2; [|exact Hinv].
  apply append_bounded_length.
  destruct (signal_history self !! PatternData.symbol pattern_data)
    as [h|] eqn:E; cbn; [exact (Hinv _ _ E) | lia].
Qed.

(** Starting from a fresh processor, whatever patterns arrive, no symbol's
    signal history ever holds more than 100 signals. *)
Theorem signal_history_never_exceeds_100 (inputs : list (Z * PatternData.t)) :
  map_Forall (fun _ history => (length history <= 100)%nat)
             (signal_history
                (process_patterns FractalSignalProcessor.__init__ inputs)).
Proof.
  unfold process_patterns.
  assert (H0 : map_Forall (fun (_ : string) (history : list Signal.t) =>
                             (length history <= 100)%nat)
                          (signal_history FractalSignalProcessor.__init__))
    by apply map_Forall_empty.
  revert H0. generalize FractalSignalProcessor.__init__.
  induction inputs as [|input inputs IH]; intros self H0; cbn; [exact H0|].
  apply IH. apply process_fractal_pattern_history_bounded. exact H0.
Qed.

(** A pattern that is turned down leaves the signal history as it was; an
    accepted one appends its signal to the history of its own symbol (the
    newest entry is last) and touches no other symbol. *)
Theorem signal_history_update
    (self : FractalSignalProcessor.t) (now : Z) (pattern_data : PatternData.t) :
  let r := process_fractal_pattern self now pattern_data in
  match r.1 with
  | None => r.2 = self
  | Some signal =>
      (exists history,
         signal_history r.2 !! PatternData.symbol pattern_data = Some history
         /\ last history = Some signal)
      /\ forall other,
           other <> PatternData.symbol pattern_data ->
           signal_history r.2 !! other = signal_history self !! other
  end.
Proof.
  unfold process_fractal_pattern.
  destruct (Py.ltb _ confidence_threshold); [reflexivity|].
  destruct (Py.ltb risk_threshold _); [reflexivity|].
  cbn [fst snd signal_history]. split.
  - eexists. split; [apply lookup_insert_eq|].
    unfold append_bounded.
    set (h := default [] _).
    destruct (100 <? length (h ++ [_]))%nat eqn:E.
    + destruct h as [|x h'].
      * cbn in E. discriminate.
      * cbn [app tail]. apply last_snoc.
    + apply last_snoc.
  - intros other Hne. apply lookup_insert_ne. congruence.
Qed.

Lemma siftdown_length (fuel : nat) (heap : list heapq.item)
    (startpos pos : nat) :
  length (heapq.siftdown fuel heap startpos pos).1 = length heap.
Proof.
  revert heap pos. induction fuel as [|fuel IH]; intros heap pos;
    cbn [heapq.siftdown]; [reflexivity|].
  destruct (startpos <? pos)%nat; [|reflexivity].
  destruct (heap !! pos) as [newitem|]; [|reflexivity].
  destruct (heap !! ((pos - 1) / 2)%nat) as [parent|]; [|reflexivity].
  destruct (heapq.lt newitem parent) as [[|]|]; try reflexivity.
  rewrite IH, !length_insert. reflexivity.
Qed.

Lemma siftdown_keeps_item (fuel : nat) (heap : list heapq.item)
    (pos : nat) (newitem : heapq.item) :
  heap !! pos = Some newitem ->
  exists i, (heapq.siftdown fuel heap 0 pos).1 !! i = Some newitem.
Proof.
  revert heap pos.
  induction fuel as [|fuel IH]; intros heap pos Hpos;
    cbn [heapq.siftdown]; [exists pos; exact Hpos|].
  destruct (0 <? pos)%nat eqn:E; [|exists pos; exact Hpos].
  apply Nat.ltb_lt in E. rewrite Hpos.
  assert (Hlt : ((pos - 1) / 2 < pos)%nat).
  { apply Nat.Div0.div_lt_upper_bound. lia. }
  assert (Hlen : (pos < length heap)%nat)
    by (apply lookup_lt_is_Some; eexists; exact Hpos).
  destruct (heap !! ((pos - 1) / 2)%nat) as [parent|] eqn:Hparent;
    [|exists pos; exact Hpos].
  destruct (heapq.lt newitem parent) as [[|]|e];
    [|exists pos; exact Hpos|exists pos; exact Hpos].
  apply IH.
  rewrite list_lookup_insert_ne by lia.
  apply list_lookup_insert_eq. lia.
Qed.

(** The stamped order is on the queue after [submit_order], under the
    priority it was submitted with, also when the put raised. *)
Lemma submit_order_queues_item (engine : OrderExecutionEngine.t) (now : Z)
    (order : Order.t) (priority : Z) :
  (priority, Order.set_timestamp_us now order)
    ∈ OrderExecutionEngine.execution_queue
        (OrderExecutionEngine.submit_order engine now order priority).
Proof.
  unfold OrderExecutionEngine.submit_order, heapq.heappush.
  set (x := (priority, Order.set_timestamp_us now order)).
  set (queue := OrderExecutionEngine.execution_queue engine).
  assert (Hlast : (queue ++ [x]) !! (length (queue ++ [x]) - 1)%nat = Some x).
  { rewrite length_app. cbn [length].
    replace (length queue + 1 - 1)%nat with (length queue) by lia.
    apply list_lookup_middle. reflexivity. }
  destruct (siftdown_keeps_item (length (queue ++ [x])) (queue ++ [x])
              (length (queue ++ [x]) - 1) x Hlast) as [i Hi].
  destruct (heapq.siftdown _ _ _ _) as [queue' [u|e]]; cbn [fst] in Hi;
    cbn [OrderExecutionEngine.execution_queue];
    apply list_elem_of_lookup; exists i; exact Hi.
Qed.

(** [submit_order] always leaves the order on the queue, also when the put
    raised and was counted as an error. *)
Lemma submit_order_enqueues (engine : OrderExecutionEngine.t) (now : Z)
    (order : Order.t) (priority : Z) :
  length (OrderExecutionEngine.execution_queue
            (OrderExecutionEngine.submit_order engine now order priority))
  = S (length (OrderExecutionEngine.execution_queue engine)).
Proof.
  unfold OrderExecutionEngine.submit_order, heapq.heappush.
  pose proof (siftdown_length
                (length (OrderExecutionEngine.execution_queue engine
                         ++ [(priority, Order.set_timestamp_us now order)]))
                (OrderExecutionEngine.execution_queue engine
                 ++ [(priority, Order.set_timestamp_us now order)])
                0
                (length (OrderExecutionEngine.execution_queue engine
                         ++ [(priority, Order.set_timestamp_us now order)])
                 - 1)) as Hlen.
  destruct (heapq.siftdown _ _ _ _) as [queue [u|e]];
    cbn [fst] in Hlen; cbn [OrderExecutionEngine.execution_queue];
    rewrite Hlen, length_app; cbn; lia.
Qed.

(** Handling one pattern record either generates no order, leaving
    [orders_generated] and the execution engine as they were, or builds
    exactly one order and submits it: a PENDING MARKET order without limit
    price for the pattern's symbol, stamped at submission, with a quantity
    in [[100, 10000]], BUY for BUY and STRONG_BUY and SELL otherwise; it is
    on the execution queue under priority 0 or 1, the queue has grown by
    one entry and both counters by one. *)
Theorem generated_order_shape (self : DistributedHFTEngine.t)
    (t_signal t_order t_submit : Z) (pattern_data : PatternData.t) :
  let self' := on_pattern self t_signal t_order t_submit pattern_data in
  (orders_generated self' = orders_generated self
   /\ execution_engine self' = execution_engine self)
  \/ (exists (order : Order.t) (priority : Z),
        (priority, order)
          ∈ OrderExecutionEngine.execution_queue (execution_engine self')
        /\ (priority = 0 \/ priority = 1)%Z
        /\ length (OrderExecutionEngine.execution_queue
                     (execution_engine self'))
           = S (length (OrderExecutionEngine.execution_queue
                          (execution_engine self)))
        /\ orders_generated self' = (orders_generated self + 1)%Z
        /\ signals_processed self' = (signals_processed self + 1)%Z
        /\ Order.symbol order = PatternData.symbol pattern_data
        /\ Order.order_type order = MARKET
        /\ Order.price order = None
        /\ Order.execution_status order = PENDING
        /\ Order.timestamp_us order = t_submit
        /\ 100 <= Order.quantity order <= 10000
        /\ Order.risk_score order = PatternData.risk_score pattern_data
        /\ Order.fractal_signal order
           = Some (PatternData.pattern_type pattern_data)
        /\ Order.side order
           = (if String.eqb (PatternData.prediction_signal pattern_data) "BUY"
                 || String.eqb (PatternData.prediction_signal pattern_data)
                      "STRONG_BUY"
              then BUY else SELL)).
Proof.
  unfold on_pattern, process_fractal_pattern.
  destruct (Py.ltb _ confidence_threshold); [left; cbn; auto|].
  destruct (Py.ltb risk_threshold _); [left; cbn; auto|].
  unfold _create_order_from_signal. cbn [Signal.action].
  destruct (String.eqb (PatternData.prediction_signal pattern_data) "BUY"
            || String.eqb (PatternData.prediction_signal pattern_data)
                 "STRONG_BUY") eqn:Ebuy.
  - right. eexists. eexists. cbn zeta.
    cbn [orders_generated signals_processed execution_engine].
    split; [apply submit_order_queues_item|].
    split; [destruct (String.eqb _ "HIGH"); auto|].
    split; [apply submit_order_enqueues|].
    do 2 (split; [reflexivity|]).
    cbn [Order.set_timestamp_us Order.symbol Order.order_type Order.price
         Order.execution_status Order.timestamp_us Order.quantity
         Order.risk_score Order.fractal_signal Order.side
         Signal.symbol Signal.position_size Signal.risk_score
         Signal.pattern_type].
    do 5 (split; [reflexivity|]).
    split; [apply position_size_range|].
    do 2 (split; [reflexivity|]). reflexivity.
  - destruct (String.eqb (PatternData.prediction_signal pattern_data) "SELL"
              || String.eqb (PatternData.prediction_signal pattern_data)
                   "STRONG_SELL") eqn:Esell.
    + right. eexists. eexists. cbn zeta.
      cbn [orders_generated signals_processed execution_engine].
      split; [apply submit_order_queues_item|].
      split; [destruct (String.eqb _ "HIGH"); auto|].
      split; [apply submit_order_enqueues|].
      do 2 (split; [reflexivity|]).
      cbn [Order.set_timestamp_us Order.symbol Order.order_type Order.price
           Order.execution_status Order.timestamp_us Order.quantity
           Order.risk_score Order.fractal_signal Order.side
           Signal.symbol Signal.position_size Signal.risk_score
           Signal.pattern_type].
      do 5 (split; [reflexivity|]).
      split; [apply position_size_range|].
      do 2 (split; [reflexivity|]). reflexivity.
    + left. cbn. auto.
Qed.

End SignalProcessor.

(** ** Prediction labels *)

Section Prediction.

Import RealTimeFractalDetector.

(** The prediction is one of the four labels that the engine turns into an
    order exactly when the strength is at least 0.4 and the pattern is
    VOLATILE_UPTREND, VOLATILE_DOWNTREND, or VOLATILE_BREAKOUT with a
    fractal dimension above 1.7.  In particular WEAK_BUY and WEAK_SELL
    (strength in [[0.3, 0.4)]) never become orders. *)
Theorem prediction_directional_iff (pattern_type : string)
    (fractal_dim strength : Q) :
  directional (_generate_prediction_signal pattern_type fractal_dim strength)
  = true
  <-> 4 # 10 <= strength
      /\ (pattern_type = "VOLATILE_UPTREND"%string
          \/ pattern_type = "VOLATILE_DOWNTREND"%string
          \/ pattern_type = "VOLATILE_BREAKOUT"%string
             /\ 17 # 10 < fractal_dim).
Proof.
  unfold _generate_prediction_signal.
  destruct (Py.ltb strength (3 # 10)) eqn:E3.
  { apply ltb_lt in E3. cbn. split; [discriminate|]. intros [H _]. lra. }
  apply ltb_ge in E3.
  destruct (Py.ltb (8 # 10) strength) eqn:E8;
    [apply ltb_lt in E8 | apply ltb_ge in E8];
    destruct (Py.ltb strength (4 # 10)) eqn:E4;
    try (apply ltb_lt in E4); try (apply ltb_ge in E4);
    destruct (Py.ltb (17 # 10) fractal_dim) eqn:E17;
    try (apply ltb_lt in E17); try (apply ltb_ge in E17);
    repeat match goal with
           | |- context [String.eqb pattern_type ?s] =>
               destruct (String.eqb_spec pattern_type s);
               [subst pattern_type|]
           end;
    cbn; (split; [intros H; try discriminate H | intros H]);
    try (split; [lra|]); try tauto;
    try (destruct H as [Hs H]; try lra;
         destruct H as [H|[H|[H Hfd]]];
         try discriminate H; try contradiction; try lra).
Qed.

(** The strength thresholds of the prediction: below 0.3 it is NEUTRAL;
    STRONG_BUY and STRONG_SELL need a strength above 0.8. *)
Theorem prediction_strength_thresholds (pattern_type : string)
    (fractal_dim strength : Q) :
  let signal :=
    _generate_prediction_signal pattern_type fractal_dim strength in
  (strength < 3 # 10 -> signal = "NEUTRAL"%string)
  /\ (signal = "STRONG_BUY"%string \/ signal = "STRONG_SELL"%string ->
      8 # 10 < strength).
Proof.
  unfold _generate_prediction_signal. cbn zeta. split.
  - intros H. apply ltb_lt in H. rewrite H. reflexivity.
  - destruct (Py.ltb strength (3 # 10));
      [intros [H|H]; discriminate H|].
    destruct (Py.ltb (8 # 10) strength) eqn:E8;
      [intros _; apply ltb_lt; exact E8|].
    destruct (Py.ltb strength (4 # 10));
      destruct (Py.ltb (17 # 10) fractal_dim);
      repeat match goal with
             | |- context [String.eqb pattern_type ?s] =>
                 destruct (String.eqb pattern_type s)
             end;
      cbn; intros [H|H]; discriminate H.
Qed.

End Prediction.

(** ** What the detector emits *)

Section DetectorOutput.

Import RealTimeFractalDetector.

Variable ln : Q -> Q.
Variable sqrt : Q -> Q.

Lemma fast_box_counting_value (prices : list Q) (fd : Q) :
  _fast_box_counting ln prices = Py.Ok fd -> 1 <= fd <= 2.
Proof.
  unfold _fast_box_counting.
  destruct (length prices <? 10)%nat; [intros [= <-]; lra|].
  destruct (Py.min_list prices) as [mn|]; [|discriminate].
  destruct (Py.max_list prices) as [mx|]; [|discriminate].
  cbn [mbind result_bind Py.bind].
  destruct (Py.eqb (mx - mn) 0); [intros [= <-]; lra|].
  destruct (log_points ln prices mn (mx - mn)) as [log_sizes log_counts].
  destruct (fit_range log_sizes log_counts) as (v & Hv & Hr).
  rewrite Hv. intros [= <-]. exact Hr.
Qed.

Lemma min_fold_le (xs : list Q) (x : Q) :
  fold_left (fun m y => if Py.ltb y m then y else m) xs x <= x.
Proof.
  revert x. induction xs as [|y ys IH]; intros x; cbn; [lra|].
  destruct (Py.ltb y x) eqn:E.
  - apply ltb_lt in E. specialize (IH y). lra.
  - apply IH.
Qed.

Lemma max_fold_ge (xs : list Q) (x : Q) :
  x <= fold_left (fun m y => if Py.ltb m y then y else m) xs x.
Proof.
  revert x. induction xs as [|y ys IH]; intros x; cbn; [lra|].
  destruct (Py.ltb x y) eqn:E.
  - apply ltb_lt in E. specialize (IH y). lra.
  - apply IH.
Qed.

Lemma min_list_le_max_list (xs : list Q) (mn mx : Q) :
  Py.min_list xs = Py.Ok mn -> Py.max_list xs = Py.Ok mx -> mn <= mx.
Proof.
  destruct xs as [|x xs]; [discriminate|]. cbn.
  intros [= <-] [= <-].
  pose proof (min_fold_le xs x). pose proof (max_fold_ge xs x). lra.
Qed.

(** [_classify_pattern] answers with one of its ten labels. *)
Lemma classify_pattern_vocabulary (prices volatilities : list Q)
    (fractal_dim : Q) (pattern_type : string) :
  _classify_pattern prices volatilities fractal_dim = Py.Ok pattern_type ->
  In pattern_type pattern_labels.
Proof.
  unfold _classify_pattern.
  destruct (statistics.mean volatilities); [|discriminate].
  destruct (simple_returns prices); [|discriminate].
  cbn [mbind result_bind Py.bind].
  repeat match goal with
         | |- context [if ?b then _ else _] => destruct b
         end;
    intros [= <-]; cbn; tauto.
Qed.

Lemma calculate_confidence_value (prices : list Q) (fractal_dim : Q)
    (volatilities : list Q) (confidence : Q) :
  _calculate_confidence sqrt prices fractal_dim volatilities
    = Py.Ok confidence ->
  0 <= confidence <= 1.
Proof.
  unfold _calculate_confidence.
  destruct (Py.max_list prices); [|discriminate].
  destruct (Py.min_list prices); [|discriminate].
  destruct (statistics.mean prices); [|discriminate].
  cbn [mbind result_bind Py.bind].
  destruct (Py.div _ _); [|discriminate].
  cbn [mbind result_bind Py.bind].
  destruct (statistics.stdev sqrt volatilities); [|discriminate].
  destruct (statistics.mean volatilities); [|discriminate].
  cbn [mbind result_bind Py.bind].
  intros [= <-]. apply clamp_range. lra.
Qed.

Lemma calculate_pattern_strength_value (prices volatilities : list Q)
    (strength : Q) :
  _calculate_pattern_strength prices volatilities = Py.Ok strength ->
  0 <= strength <= 1.
Proof.
  unfold _calculate_pattern_strength.
  destruct (simple_returns prices); [|discriminate].
  destruct (statistics.mean volatilities); [|discriminate].
  cbn [mbind result_bind Py.bind].
  intros [= <-]. apply clamp_range. lra.
Qed.

Lemma detect_pattern_in_window_facts (symbol : string)
    (buffer : list (Z * Q * Q)) (window_size : Z) :
  match _detect_pattern_in_window ln sqrt symbol buffer window_size with
  | Py.Ok (Some pattern) =>
      (window_size <= Z.of_nat (length buffer))%Z
      /\ FractalPattern.symbol pattern = symbol
      /\ 1 <= FractalPattern.fractal_dimension pattern <= 2
      /\ 6 # 10 <= FractalPattern.confidence pattern <= 1
      /\ 0 <= FractalPattern.pattern_strength pattern <= 1
      /\ In (FractalPattern.pattern_type pattern) pattern_labels
      /\ FractalPattern.prediction_signal pattern
         = _generate_prediction_signal (FractalPattern.pattern_type pattern)
             (FractalPattern.fractal_dimension pattern)
             (FractalPattern.pattern_strength pattern)
      /\ head (map (fun item => item.1.1) buffer)
         = Some (FractalPattern.start_time_us pattern)
      /\ last (map (fun item => item.1.1) buffer)
         = Some (FractalPattern.end_time_us pattern)
      /\ FractalPattern.duration_ms pattern
         = ((FractalPattern.end_time_us pattern
             - FractalPattern.start_time_us pattern) / 1000)%Z
      /\ (FractalPattern.price_range pattern).1
         <= (FractalPattern.price_range pattern).2
  | _ => True
  end.
Proof.
  unfold _detect_pattern_in_window.
  destruct (Z.of_nat (length buffer) <? window_size)%Z eqn:Hlen; [exact I|].
  apply Z.ltb_ge in Hlen. cbn zeta.
  set (timestamps := map (fun item => item.1.1) buffer).
  set (prices := map (fun item => item.1.2) buffer).
  set (volatilities := map (fun item => item.2) buffer).
  destruct (_fast_box_counting ln prices) as [fd|] eqn:Hfd; [|exact I].
  cbn [mbind result_bind Py.bind].
  destruct (_classify_pattern prices volatilities fd) as [pt|] eqn:Hpt;
    [|exact I].
  cbn [mbind result_bind Py.bind].
  destruct (String.eqb pt "NO_PATTERN"); [exact I|].
  destruct (_calculate_confidence sqrt prices fd volatilities) as [c|] eqn:Hc;
    [|exact I].
  cbn [mbind result_bind Py.bind].
  destruct (Py.ltb c min_pattern_strength) eqn:Hmin; [exact I|].
  apply ltb_ge in Hmin. unfold min_pattern_strength in Hmin.
  destruct (_calculate_pattern_strength prices volatilities) as [st|] eqn:Hst;
    [|exact I].
  cbn [mbind result_bind Py.bind].
  destruct (_calculate_risk_score volatilities fd) as [rk|]; [|exact I].
  cbn [mbind result_bind Py.bind].
  destruct (head timestamps) as [first_ts|] eqn:Hhead; [|exact I].
  destruct (last timestamps) as [last_ts|] eqn:Hlast; [|exact I].
  destruct (Py.min_list prices) as [mn|] eqn:Hmn; [|exact I].
  destruct (Py.max_list prices) as [mx|] eqn:Hmx; [|exact I].
  cbn [mbind result_bind Py.bind].
  destruct (statistics.mean volatilities); [|exact I].
  cbn [mbind result_bind Py.bind].
  cbn [FractalPattern.symbol FractalPattern.fractal_dimension
       FractalPattern.confidence FractalPattern.pattern_strength
       FractalPattern.pattern_type FractalPattern.prediction_signal
       FractalPattern.start_time_us FractalPattern.end_time_us
       FractalPattern.duration_ms FractalPattern.price_range fst snd].
  pose proof (fast_box_counting_value _ _ Hfd).
  pose proof (calculate_confidence_value _ _ _ _ Hc).
  pose proof (calculate_pattern_strength_value _ _ _ Hst).
  pose proof (classify_pattern_vocabulary _ _ _ _ Hpt).
  pose proof (min_list_le_max_list _ _ _ Hmn Hmx).
  repeat split; try assumption; try reflexivity; try lra.
Qed.

(** Every pattern that [_detect_pattern_in_window] returns comes from a
    buffer at least as long as the window and satisfies: fractal dimension
    in [[1, 2]], confidence in [[0.6, 1]], strength in [[0, 1]], a label
    from the classifier's ten, the prediction computed from that label,
    start and end equal to the first and last timestamp of the buffer with
    the duration their difference in whole milliseconds, and a price range
    whose minimum is at most its maximum. *)
Theorem detected_pattern_invariants (symbol : string)
    (buffer : list (Z * Q * Q)) (window_size : Z) :
  match _detect_pattern_in_window ln sqrt symbol buffer window_size with
  | Py.Ok (Some pattern) =>
      (window_size <= Z.of_nat (length buffer))%Z
      /\ FractalPattern.symbol pattern = symbol
      /\ 1 <= FractalPattern.fractal_dimension pattern <= 2
      /\ 6 # 10 <= FractalPattern.confidence pattern <= 1
      /\ 0 <= FractalPattern.pattern_strength pattern <= 1
      /\ In (FractalPattern.pattern_type pattern) pattern_labels
      /\ FractalPattern.prediction_signal pattern
         = _generate_prediction_signal (FractalPattern.pattern_type pattern)
             (FractalPattern.fractal_dimension pattern)
             (FractalPattern.pattern_strength pattern)
      /\ head (map (fun item => item.1.1) buffer)
         = Some (FractalPattern.start_time_us pattern)
      /\ last (map (fun item => item.1.1) buffer)
         = Some (FractalPattern.end_time_us pattern)
      /\ FractalPattern.duration_ms pattern
         = ((FractalPattern.end_time_us pattern
             - FractalPattern.start_time_us pattern) / 1000)%Z
      /\ (FractalPattern.price_range pattern).1
         <= (FractalPattern.price_range pattern).2
  | _ => True
  end.
Proof. apply detect_pattern_in_window_facts. Qed.

End DetectorOutput.

(** ** Window buffers and [add_tick] *)

Section WindowBuffers.

Import WindowStore.

Variable ln : Q -> Q.
Variable sqrt : Q -> Q.

(** The trimmed buffer is a suffix of the buffer, no longer than the
    window; when the loop returns it has dropped just the excess. *)
Lemma trim_spec (buffer : list entry) (window_size : Z) :
  let r := trim buffer window_size in
  (exists k, r.1 = drop k buffer)
  /\ (Z.of_nat (length r.1) <= Z.max window_size 0)%Z
  /\ (r.2 = Py.Ok tt ->
      r.1 = drop (length buffer - Z.to_nat window_size) buffer)
  /\ (r.2 = Py.Ok tt <-> (0 <= window_size)%Z).
Proof.
  induction buffer as [|x rest IH]; cbn [trim].
  - destruct (window_size <? 0)%Z eqn:E; cbn [fst snd length].
    + apply Z.ltb_lt in E.
      split; [exists 0%nat; reflexivity|]. split; [lia|].
      split; [discriminate|]. split; [discriminate|lia].
    + apply Z.ltb_ge in E.
      split; [exists 0%nat; reflexivity|]. split; [lia|].
      split; [reflexivity|]. split; [lia|reflexivity].
  - destruct (window_size <? Z.of_nat (length (x :: rest)))%Z eqn:E.
    + apply Z.ltb_lt in E. cbn zeta in IH.
      destruct IH as ([k Hk] & Hlen & Hok & Hiff).
      split; [exists (S k); exact Hk|]. split; [exact Hlen|].
      split; [|exact Hiff].
      intros Hr. rewrite (Hok Hr).
      apply Hiff in Hr. cbn [length] in *.
      replace (S (length rest) - Z.to_nat window_size)%nat
        with (S (length rest - Z.to_nat window_size))%nat by lia.
      reflexivity.
    + apply Z.ltb_ge in E. cbn [fst snd].
      split; [exists 0%nat; reflexivity|]. split; [lia|].
      split.
      * intros _. cbn [length] in *.
        replace (S (length rest) - Z.to_nat window_size)%nat with 0%nat
          by lia.
        reflexivity.
      * split; [cbn [length] in E; lia | reflexivity].
Qed.

Lemma window_loop_bounded (symbol : string) (item : entry) (sizes : list Z)
    (buffers : gmap Z (list entry)) (patterns : list FractalPattern.t)
    (detected : Z) :
  map_Forall (fun window_size buffer =>
                (Z.of_nat (length buffer) <= Z.max window_size 0)%Z)
             buffers ->
  map_Forall (fun window_size buffer =>
                (Z.of_nat (length buffer) <= Z.max window_size 0)%Z)
             (window_loop ln sqrt symbol item sizes buffers patterns
                          detected).1.1.1.
Proof.
  revert buffers patterns detected.
  induction sizes as [|ws sizes IH]; intros buffers patterns detected Hinv;
    cbn [window_loop]; [exact Hinv|].
  destruct (trim_spec (default [] (buffers !! ws) ++ [item]) ws)
    as (_ & Hlen & _).
  destruct (trim (default [] (buffers !! ws) ++ [item]) ws)
    as [buffer [u|e]]; cbn [fst] in Hlen.
  - assert (Hinv' : map_Forall
                      (fun window_size buffer =>
                         (Z.of_nat (length buffer) <= Z.max window_size 0)%Z)
                      (<[ws := buffer]> buffers))
      by (apply map_Forall_insert_2; assumption).
    destruct (Z.of_nat (length buffer) =? ws)%Z; [|apply IH; exact Hinv'].
    destruct (RealTimeFractalDetector._detect_pattern_in_window ln sqrt
                symbol buffer ws) as [[pattern|]|e];
      [apply IH; exact Hinv' | apply IH; exact Hinv' | exact Hinv'].
  - cbn [fst]. apply map_Forall_insert_2; assumption.
Qed.

Lemma add_tick_bounded (self : WindowStore.t) (tick : MarketTick.t) :
  buffers_bounded self -> buffers_bounded (add_tick ln sqrt self tick).2.
Proof.
  intros Hinv. unfold add_tick.
  pose proof (window_loop_bounded (MarketTick.symbol tick)
                (MarketTick.timestamp_us tick, MarketTick.price tick,
                 MarketTick.volatility tick)
                (window_sizes self)
                (default ∅ (price_buffers self !! MarketTick.symbol tick))
                [] (patterns_detected self)) as Hloop.
  destruct (window_loop _ _ _ _ _ _ _ _) as [[[buffers patterns] detected] out].
  cbn [fst] in Hloop.
  assert (Hb : buffers_bounded
                 (mk (window_sizes self)
                     (<[MarketTick.symbol tick := buffers]>
                        (price_buffers self)) detected)).
  { unfold buffers_bounded. cbn [price_buffers].
    apply map_Forall_insert_2; [|exact Hinv].
    apply Hloop.
    destruct (price_buffers self !! MarketTick.symbol tick) as [m|] eqn:E;
      cbn; [exact (Hinv _ _ E) | apply map_Forall_empty]. }
  destruct out; exact Hb.
Qed.

(** From a new detector, whatever window sizes it was given and whatever
    ticks arrive, every buffer stays within its window size, also across
    calls that raised. *)
Theorem window_buffers_stay_bounded (sizes : option (list Z))
    (ticks : list MarketTick.t) :
  buffers_bounded (add_ticks ln sqrt (__init__ sizes) ticks).2.
Proof.
  assert (H0 : buffers_bounded (__init__ sizes))
    by (unfold buffers_bounded; apply map_Forall_empty).
  revert H0. generalize (__init__ sizes).
  induction ticks as [|tick ticks IH]; intros self H0; cbn [add_ticks];
    [exact H0|].
  pose proof (add_tick_bounded self tick H0) as H1.
  destruct (add_tick ln sqrt self tick) as [patterns self1].
  cbn [snd] in H1. specialize (IH self1 H1).
  destruct (add_ticks ln sqrt self1 ticks) as [rest self2].
  exact IH.
Qed.

End WindowBuffers.

Section AddTickOutput.

Import WindowStore.

Variable ln : Q -> Q.
Variable sqrt : Q -> Q.

Lemma last_of_suffix_with_item {A B : Type} (f : A -> B) (k : nat)
    (old : list A) (item : A) (e : B) :
  last (map f (drop k (old ++ [item]))) = Some e -> e = f item.
Proof.
  destruct (decide (k <= length old)%nat) as [Hle|Hgt].
  - rewrite drop_app_le by exact Hle.
    rewrite map_app. cbn [map]. rewrite last_snoc. congruence.
  - rewrite drop_ge by (rewrite length_app; cbn; lia). discriminate.
Qed.


Lemma window_loop_patterns (tick : MarketTick.t) (sizes : list Z)
    (buffers : gmap Z (list entry)) (patterns : list FractalPattern.t)
    (detected : Z) :
  let r :=
    window_loop ln sqrt (MarketTick.symbol tick)
      (MarketTick.timestamp_us tick, MarketTick.price tick,
       MarketTick.volatility tick)
      sizes buffers patterns detected in
  Forall (pattern_of_tick tick) patterns ->
  Forall (pattern_of_tick tick) r.1.1.2
  /\ (length patterns <= length r.1.1.2 <= length patterns + length sizes)%nat
  /\ r.1.2 = (detected + Z.of_nat (length r.1.1.2 - length patterns))%Z.
Proof.
  revert buffers patterns detected.
  induction sizes as [|ws sizes IH]; intros buffers patterns detected r Hall;
    subst r; cbn [window_loop].
  { cbn [fst snd length]. split; [exact Hall|]. split; [lia|].
    replace (length patterns - length patterns)%nat with 0%nat by lia.
    cbn. lia. }
  set (item := (MarketTick.timestamp_us tick, MarketTick.price tick,
                MarketTick.volatility tick)) in *.
  assert (Hstop : forall (b : gmap Z (list entry)) (o : Py.result unit),
             Forall (pattern_of_tick tick) (b, patterns, detected, o).1.1.2
             /\ (length patterns <= length (b, patterns, detected, o).1.1.2
                 <= length patterns + length (ws :: sizes))%nat
             /\ (b, patterns, detected, o).1.2
                = (detected
                   + Z.of_nat (length (b, patterns, detected, o).1.1.2
                               - length patterns))%Z).
  { intros b o. cbn [fst snd length]. split; [exact Hall|]. split; [lia|].
    replace (length patterns - length patterns)%nat with 0%nat by lia.
    cbn. lia. }
  assert (Hskip : forall (b : gmap Z (list entry)),
             let r := window_loop ln sqrt (MarketTick.symbol tick) item sizes
                        b patterns detected in
             Forall (pattern_of_tick tick) r.1.1.2
             /\ (length patterns <= length r.1.1.2
                 <= length patterns + length (ws :: sizes))%nat
             /\ r.1.2
                = (detected + Z.of_nat (length r.1.1.2 - length patterns))%Z).
  { intros b r. destruct (IH b patterns detected Hall) as (H1 & H2 & H3).
    fold item in H1, H2, H3. fold r in H1, H2, H3.
    split; [exact H1|]. split; [cbn [length]; lia | exact H3]. }
  match goal with
  | |- context [trim ?b ws] =>
      destruct (trim_spec b ws) as ([k Hk] & _);
      destruct (trim b ws) as [buffer [u|e]]
  end; cbn [fst] in Hk; [|apply Hstop].
  destruct (Z.of_nat (length buffer) =? ws)%Z; [|apply Hskip].
  pose proof (detect_pattern_in_window_facts ln sqrt (MarketTick.symbol tick)
                buffer ws) as Hfacts.
  destruct (RealTimeFractalDetector._detect_pattern_in_window ln sqrt
              (MarketTick.symbol tick) buffer ws) as [[pattern|]|e];
    [|apply Hskip|apply Hstop].
  destruct Hfacts as (_ & Hsym & Hfd & Hconf & Hstr & _ & _ & _ & Hlast & _).
  assert (Hp : pattern_of_tick tick pattern).
  { unfold pattern_of_tick. split; [exact Hsym|]. split.
    - rewrite Hk in Hlast.
      apply (last_of_suffix_with_item (fun it : entry => it.1.1)) in Hlast.
      exact Hlast.
    - auto. }
  assert (Hall' : Forall (pattern_of_tick tick) (patterns ++ [pattern])).
  { apply Forall_app. split; [exact Hall|]. constructor; [exact Hp|constructor]. }
  destruct (IH (<[ws := buffer]> buffers) (patterns ++ [pattern])
               (detected + 1)%Z Hall') as (H1 & H2 & H3).
  fold item in H1, H2, H3.
  set (r := window_loop ln sqrt (MarketTick.symbol tick) item sizes
              (<[ws := buffer]> buffers) (patterns ++ [pattern])
              (detected + 1)%Z) in *.
  rewrite length_app in H2, H3. cbn [length] in H2, H3.
  split; [exact H1|]. split; [cbn [length]; lia|].
  rewrite H3. lia.
Qed.

(** Every pattern that [add_tick] returns names the tick's symbol, ends at
    the tick's timestamp and has its fractal dimension, confidence and
    strength in range; there is at most one pattern per configured window
    size, and [patterns_detected] never falls behind the number of
    patterns returned. *)
Theorem add_tick_patterns (self : WindowStore.t) (tick : MarketTick.t) :
  let r := add_tick ln sqrt self tick in
  Forall (pattern_of_tick tick) r.1
  /\ (length r.1 <= length (window_sizes self))%nat
  /\ (patterns_detected self + Z.of_nat (length r.1)
      <= patterns_detected r.2
      <= patterns_detected self + Z.of_nat (length (window_sizes self)))%Z
  /\ window_sizes r.2 = window_sizes self.
Proof.
  unfold add_tick.
  pose proof (window_loop_patterns tick (window_sizes self)
                (default ∅ (price_buffers self !! MarketTick.symbol tick))
                [] (patterns_detected self)) as Hloop.
  cbn zeta in Hloop. specialize (Hloop (List.Forall_nil _)).
  destruct (window_loop _ _ _ _ _ _ _ _) as [[[buffers patterns] detected] out].
  cbn [fst snd length] in Hloop. destruct Hloop as (H1 & H2 & H3).
  rewrite Nat.sub_0_r in H3.
  destruct out; cbn [fst snd patterns_detected window_sizes length].
  - split; [exact H1|]. split; [lia|]. split; [lia|reflexivity].
  - split; [constructor|]. split; [lia|]. split; [lia|reflexivity].
Qed.

End AddTickOutput.

(** ** The sliding window *)

Section SlidingWindow.

Import WindowStore.

Variable ln : Q -> Q.
Variable sqrt : Q -> Q.

(** When the loop over distinct, non-negative window sizes runs to its
    end, the buffer of every configured size holds the last [size] entries
    of the old buffer followed by the new item, and no other buffer is
    touched. *)
Lemma window_loop_buffers (symbol : string) (item : entry) (sizes : list Z)
    (buffers : gmap Z (list entry)) (patterns : list FractalPattern.t)
    (detected : Z) :
  let r := window_loop ln sqrt symbol item sizes buffers patterns detected in
  NoDup sizes ->
  r.2 = Py.Ok tt ->
  (forall w, w ∈ sizes ->
     (0 <= w)%Z
     /\ r.1.1.1 !! w
        = Some (drop (length (default [] (buffers !! w) ++ [item])
                      - Z.to_nat w)
                     (default [] (buffers !! w) ++ [item])))
  /\ (forall w, w ∉ sizes -> r.1.1.1 !! w = buffers !! w).
Proof.
  revert buffers patterns detected.
  induction sizes as [|ws sizes IH]; intros buffers patterns detected r
    Hnodup Hok; subst r.
  { cbn [window_loop fst]. split; [intros w Hw; inversion Hw | reflexivity]. }
  apply NoDup_cons in Hnodup. destruct Hnodup as [Hnotin Hnodup].
  cbn [window_loop] in Hok |- *.
  match goal with
  | |- context [trim ?b ws] =>
      destruct (trim_spec b ws) as (_ & _ & Htrim & Hiff);
      destruct (trim b ws) as [buffer [u|e]]
  end; cbn [fst snd] in Htrim, Hiff; [|discriminate Hok].
  destruct u.
  specialize (Htrim eq_refl).
  assert (Hws : (0 <= ws)%Z) by (apply Hiff; reflexivity).
  assert (Hrest : forall (p : list FractalPattern.t) (d : Z),
             (window_loop ln sqrt symbol item sizes (<[ws := buffer]> buffers)
                p d).2 = Py.Ok tt ->
             (forall w, w ∈ ws :: sizes ->
                (0 <= w)%Z
                /\ (window_loop ln sqrt symbol item sizes
                      (<[ws := buffer]> buffers) p d).1.1.1 !! w
                   = Some (drop (length (default [] (buffers !! w) ++ [item])
                                 - Z.to_nat w)
                                (default [] (buffers !! w) ++ [item])))
             /\ (forall w, w ∉ ws :: sizes ->
                   (window_loop ln sqrt symbol item sizes
                      (<[ws := buffer]> buffers) p d).1.1.1 !! w
                   = buffers !! w)).
  { intros p d Hok'.
    destruct (IH (<[ws := buffer]> buffers) p d Hnodup Hok') as [Hin Hout].
    split.
    - intros w Hw. apply elem_of_cons in Hw. destruct Hw as [->|Hw].
      + split; [exact Hws|].
        rewrite (Hout ws Hnotin), lookup_insert_eq, Htrim. reflexivity.
      + destruct (Hin w Hw) as [H0 Hl]. split; [exact H0|].
        assert (Hne : ws <> w) by (intros ->; contradiction).
        rewrite Hl, lookup_insert_ne by exact Hne. reflexivity.
    - intros w Hw. rewrite not_elem_of_cons in Hw. destruct Hw as [Hne Hw].
      rewrite (Hout w Hw), lookup_insert_ne by congruence. reflexivity. }
  destruct (Z.of_nat (length buffer) =? ws)%Z; [|apply Hrest; exact Hok].
  destruct (RealTimeFractalDetector._detect_pattern_in_window ln sqrt symbol
              buffer ws) as [[pattern|]|e];
    [apply Hrest; exact Hok | apply Hrest; exact Hok | discriminate Hok].
Qed.

Lemma add_tick_buffers (self : WindowStore.t) (tick : MarketTick.t) :
  price_buffers (add_tick ln sqrt self tick).2
  = <[MarketTick.symbol tick :=
        (window_loop ln sqrt (MarketTick.symbol tick)
           (MarketTick.timestamp_us tick, MarketTick.price tick,
            MarketTick.volatility tick)
           (window_sizes self)
           (default ∅ (price_buffers self !! MarketTick.symbol tick))
           [] (patterns_detected self)).1.1.1]> (price_buffers self).
Proof.
  unfold add_tick.
  destruct (window_loop _ _ _ _ _ _ _ _) as [[[buffers patterns] detected] out].
  destruct out; reflexivity.
Qed.

(** A tick only writes the buffers of its own symbol. *)
Theorem add_tick_leaves_other_symbols (self : WindowStore.t)
    (tick : MarketTick.t) :
  delete (MarketTick.symbol tick)
         (price_buffers (add_tick ln sqrt self tick).2)
  = delete (MarketTick.symbol tick) (price_buffers self).
Proof. rewrite add_tick_buffers. apply delete_insert_eq. Qed.

(** With distinct window sizes, a call of [add_tick] that did not raise
    leaves in the buffer of every configured size the last [size] entries
    of the old buffer followed by the tick's entry; all sizes are then
    non-negative and buffers of other sizes are untouched. *)
Theorem add_tick_slides_windows (self : WindowStore.t)
    (tick : MarketTick.t) :
  NoDup (window_sizes self) ->
  add_tick_outcome ln sqrt self tick = Py.Ok tt ->
  let item :=
    (MarketTick.timestamp_us tick, MarketTick.price tick,
     MarketTick.volatility tick) in
  let self' := (add_tick ln sqrt self tick).2 in
  (forall w, w ∈ window_sizes self ->
     (0 <= w)%Z
     /\ buffer_of self' (MarketTick.symbol tick) w
        = drop (length (buffer_of self (MarketTick.symbol tick) w ++ [item])
                - Z.to_nat w)
               (buffer_of self (MarketTick.symbol tick) w ++ [item]))
  /\ (forall w, w ∉ window_sizes self ->
        buffer_of self' (MarketTick.symbol tick) w
        = buffer_of self (MarketTick.symbol tick) w).
Proof.
  intros Hnodup Hok item self'. unfold add_tick_outcome in Hok.
  destruct (window_loop_buffers (MarketTick.symbol tick) item
              (window_sizes self)
              (default ∅ (price_buffers self !! MarketTick.symbol tick))
              [] (patterns_detected self) Hnodup Hok) as [Hin Hout].
  unfold buffer_of, self'. rewrite add_tick_buffers, lookup_insert_eq.
  cbn [from_option id]. subst item. split.
  - intros w Hw. destruct (Hin w Hw) as [H0 Hl]. split; [exact H0|].
    rewrite Hl. reflexivity.
  - intros w Hw. rewrite (Hout w Hw). reflexivity.
Qed.

End SlidingWindow.

(** ** Warm-up and failure of [add_tick] *)

Section AddTickEdges.

Import WindowStore RealTimeFractalDetector.

Variable ln : Q -> Q.
Variable sqrt : Q -> Q.

Lemma window_loop_warm_up (symbol : string) (item : entry) (sizes : list Z)
    (buffers : gmap Z (list entry)) (patterns : list FractalPattern.t)
    (detected : Z) :
  NoDup sizes ->
  (forall w, w ∈ sizes ->
     (Z.of_nat (length (default [] (buffers !! w))) + 1 < w)%Z) ->
  (window_loop ln sqrt symbol item sizes buffers patterns detected).2
    = Py.Ok tt
  /\ (window_loop ln sqrt symbol item sizes buffers patterns detected).1.1.2
     = patterns
  /\ (window_loop ln sqrt symbol item sizes buffers patterns detected).1.2
     = detected.
Proof.
  revert buffers.
  induction sizes as [|ws sizes IH]; intros buffers Hnodup Hshort;
    cbn [window_loop]; [auto|].
  apply NoDup_cons in Hnodup. destruct Hnodup as [Hnotin Hnodup].
  assert (Hws : (Z.of_nat (length (default [] (buffers !! ws))) + 1 < ws)%Z)
    by (apply Hshort; left).
  match goal with
  | |- context [trim ?b ws] =>
      destruct (trim_spec b ws) as (_ & _ & Htrim & Hiff);
      assert (Hlen : (Z.of_nat (length b) < ws)%Z)
        by (rewrite length_app; cbn [length]; lia);
      destruct (trim b ws) as [buffer [u|e]]
  end; cbn [fst snd] in Htrim, Hiff.
  - destruct u. specialize (Htrim eq_refl).
    assert (Hbuf : (Z.of_nat (length buffer) =? ws)%Z = false).
    { apply Z.eqb_neq. rewrite Htrim, length_drop. lia. }
    rewrite Hbuf. apply IH; [exact Hnodup|].
    intros w Hw. assert (Hne : ws <> w) by (intros ->; contradiction).
    rewrite lookup_insert_ne by exact Hne. apply Hshort. right. exact Hw.
  - assert (H0 : (0 <= ws)%Z) by lia. apply Hiff in H0. discriminate H0.
Qed.

(** While every window of the tick's symbol is still more than one entry
    short of its size, [add_tick] returns no pattern, does not raise and
    leaves [patterns_detected] as it was. *)
Theorem add_tick_warm_up (self : WindowStore.t) (tick : MarketTick.t) :
  NoDup (window_sizes self) ->
  (forall w, w ∈ window_sizes self ->
     (Z.of_nat (length (buffer_of self (MarketTick.symbol tick) w)) + 1
      < w)%Z) ->
  (add_tick ln sqrt self tick).1 = []
  /\ add_tick_outcome ln sqrt self tick = Py.Ok tt
  /\ patterns_detected (add_tick ln sqrt self tick).2
     = patterns_detected self.
Proof.
  intros Hnodup Hshort.
  destruct (window_loop_warm_up (MarketTick.symbol tick)
              (MarketTick.timestamp_us tick, MarketTick.price tick,
               MarketTick.volatility tick)
              (window_sizes self)
              (default ∅ (price_buffers self !! MarketTick.symbol tick))
              [] (patterns_detected self) Hnodup Hshort) as (H1 & H2 & H3).
  unfold add_tick_outcome, add_tick.
  destruct (window_loop _ _ _ _ _ _ _ _) as [[[buffers patterns] detected] out].
  cbn [fst snd] in H1, H2, H3. subst. cbn. auto.
Qed.

(** When the first configured window is full after the tick and the
    detection on it raises, [add_tick] returns the empty list and the tick
    is recorded in that first buffer only: the buffers of all other sizes
    stay as they were. *)
Theorem add_tick_failure_drops_tick (self : WindowStore.t)
    (tick : MarketTick.t) (ws : Z) (rest : list Z) (e : Py.exn) :
  let item :=
    (MarketTick.timestamp_us tick, MarketTick.price tick,
     MarketTick.volatility tick) in
  let buffer :=
    (trim (buffer_of self (MarketTick.symbol tick) ws ++ [item]) ws).1 in
  window_sizes self = ws :: rest ->
  (0 <= ws)%Z ->
  Z.of_nat (length buffer) = ws ->
  _detect_pattern_in_window ln sqrt (MarketTick.symbol tick) buffer ws
    = Py.Raise e ->
  (add_tick ln sqrt self tick).1 = []
  /\ add_tick_outcome ln sqrt self tick = Py.Raise e
  /\ buffer_of (add_tick ln sqrt self tick).2 (MarketTick.symbol tick) ws
     = buffer
  /\ forall w, w <> ws ->
       buffer_of (add_tick ln sqrt self tick).2 (MarketTick.symbol tick) w
       = buffer_of self (MarketTick.symbol tick) w.
Proof.
  intros item buffer Hsizes Hws Hfull Hraise.
  subst buffer item. unfold buffer_of in *.
  set (old := default ∅ (price_buffers self !! MarketTick.symbol tick)) in *.
  set (item := (MarketTick.timestamp_us tick, MarketTick.price tick,
                MarketTick.volatility tick)) in *.
  assert (Hloop : window_loop ln sqrt (MarketTick.symbol tick) item
                    (window_sizes self) old [] (patterns_detected self)
                  = (<[ws := (trim (default [] (old !! ws) ++ [item]) ws).1]>
                       old,
                     [], patterns_detected self, Py.Raise e)).
  { rewrite Hsizes. cbn [window_loop]. unfold entry in *.
    destruct (trim_spec (default [] (old !! ws) ++ [item]) ws)
      as (_ & _ & _ & Hiff).
    unfold entry in *.
    destruct (trim (default [] (old !! ws) ++ [item]) ws) as [buf [u|e']];
      cbn [fst snd] in *.
    - rewrite Hfull, Z.eqb_refl, Hraise. reflexivity.
    - apply Hiff in Hws. discriminate Hws. }
  unfold add_tick_outcome. rewrite add_tick_buffers.
  unfold add_tick. fold old item. rewrite Hloop.
  cbn [fst snd]. rewrite lookup_insert_eq. cbn [from_option id].
  split; [reflexivity|]. split; [reflexivity|]. split.
  - rewrite lookup_insert_eq. reflexivity.
  - intros w Hne. rewrite lookup_insert_ne by congruence. reflexivity.
Qed.

Lemma simple_returns_cons (prev cur : Q) (rest : list Q) :
  simple_returns (prev :: cur :: rest)
  = Py.bind (Py.div (cur - prev) prev)
      (fun r =>
         Py.bind (simple_returns (cur :: rest))
           (fun rs => Py.Ok (r :: rs))).
Proof. reflexivity. Qed.

Lemma simple_returns_zero_price (prices : list Q) :
  (exists i p,
     prices !! i = Some p /\ (S i < length prices)%nat /\ p == 0) ->
  simple_returns prices = Py.Raise Py.ZeroDivisionError.
Proof.
  induction prices as [|prev rest IH]; intros (i & p & Hi & Hlen & Hp).
  - cbn in Hlen. lia.
  - destruct rest as [|cur rest'].
    + cbn in Hlen. lia.
    + rewrite simple_returns_cons. unfold Py.div.
      destruct (Py.eqb prev 0) eqn:E; [reflexivity|].
      cbn [Py.bind].
      destruct i as [|i].
      * cbn in Hi. injection Hi as ->. apply eqb_neq in E. contradiction.
      * rewrite IH; [reflexivity|].
        exists i, p. cbn in Hi, Hlen. cbn [length].
        split; [exact Hi|]. split; [lia|exact Hp].
Qed.

Lemma fast_box_counting_returns (prices : list Q) :
  exists fd, _fast_box_counting ln prices = Py.Ok fd.
Proof.
  unfold _fast_box_counting.
  destruct (length prices <? 10)%nat eqn:Hlen; [eexists; reflexivity|].
  apply Nat.ltb_ge in Hlen.
  destruct prices as [|x xs]; [cbn in Hlen; lia|].
  cbn [Py.min_list Py.max_list mbind result_bind Py.bind].
  destruct (Py.eqb _ 0); [eexists; reflexivity|].
  destruct (log_points _ _ _ _) as [log_sizes log_counts].
  destruct (fit_range log_sizes log_counts) as (fd & Hfit & _).
  exists fd. exact Hfit.
Qed.

(** A zero price anywhere but in the newest entry of a full window makes
    [_detect_pattern_in_window] raise [ZeroDivisionError]. *)
Theorem zero_price_makes_detection_raise (symbol : string)
    (buffer : list (Z * Q * Q)) (window_size : Z) :
  Z.of_nat (length buffer) = window_size ->
  (exists i item,
     buffer !! i = Some item /\ (S i < length buffer)%nat
     /\ item.1.2 == 0) ->
  _detect_pattern_in_window ln sqrt symbol buffer window_size
  = Py.Raise Py.ZeroDivisionError.
Proof.
  intros Hfull (i & item & Hi & Hlen & Hp).
  unfold _detect_pattern_in_window.
  rewrite Hfull, Z.ltb_irrefl. cbn zeta.
  destruct (fast_box_counting_returns (map (fun it => it.1.2) buffer))
    as [fd Hfd].
  rewrite Hfd. cbn [mbind result_bind Py.bind].
  assert (Hcls : _classify_pattern (map (fun it => it.1.2) buffer)
                   (map (fun it => it.2) buffer) fd
                 = Py.Raise Py.ZeroDivisionError).
  { unfold _classify_pattern.
    destruct buffer as [|b bs]; [cbn in Hlen; lia|].
    cbn [map statistics.mean mbind result_bind Py.bind].
    change (b.1.2 :: map (fun it : Z * Q * Q => it.1.2) bs)
      with (map (fun it : Z * Q * Q => it.1.2) (b :: bs)).
    rewrite simple_returns_zero_price; [reflexivity|].
    exists i, item.1.2. rewrite list_lookup_fmap, Hi, length_map.
    split; [reflexivity|]. split; [exact Hlen|exact Hp]. }
  rewrite Hcls. reflexivity.
Qed.

End AddTickEdges.

(** Warm-up on a new detector: the first tick of a symbol. *)
Lemma add_tick_warm_up_witness :
  let self := WindowStore.__init__ None in
  let tick := example_tick 1000000 "EURUSD" (11 # 10) (1 # 100) in
  NoDup (WindowStore.window_sizes self)
  /\ (forall w, w ∈ WindowStore.window_sizes self ->
        (Z.of_nat (length (buffer_of self (MarketTick.symbol tick) w)) + 1
         < w)%Z)
  /\ (WindowStore.add_tick ln_approx sqrt_approx self tick).1 = [].
Proof.
  intros self tick.
  assert (Hnodup : NoDup (WindowStore.window_sizes self))
    by (apply (bool_decide_unpack _); reflexivity).
  assert (Hshort : forall w, w ∈ WindowStore.window_sizes self ->
            (Z.of_nat (length (buffer_of self (MarketTick.symbol tick) w)) + 1
             < w)%Z).
  { intros w Hw. cbn in Hw.
    repeat (apply elem_of_cons in Hw; destruct Hw as [->|Hw]; [reflexivity|]).
    inversion Hw. }
  split; [exact Hnodup|]. split; [exact Hshort|].
  exact (proj1 (add_tick_warm_up ln_approx sqrt_approx self tick Hnodup
                  Hshort)).
Defined.

(** The sliding window on a full buffer: the 21st tick of a symbol pushes
    the first tick out of the 20-tick window, which then holds ticks 2 to
    21, while the 50-tick window keeps all 21. *)
Lemma add_tick_slides_windows_witness :
  let self := detector_after_20_ticks in
  let tick := twenty_first_tick in
  let item :=
    (MarketTick.timestamp_us tick, MarketTick.price tick,
     MarketTick.volatility tick) in
  let self' := (WindowStore.add_tick ln_approx sqrt_approx self tick).2 in
  NoDup (WindowStore.window_sizes self)
  /\ add_tick_outcome ln_approx sqrt_approx self tick = Py.Ok tt
  /\ length (buffer_of self "EURUSD" 20) = 20%nat
  /\ buffer_of self' "EURUSD" 20
     = tail (buffer_of self "EURUSD" 20) ++ [item]
  /\ map (fun entry : WindowStore.entry => entry.1.1)
         (buffer_of self' "EURUSD" 20)
     = map (fun i => (1000000 * Z.of_nat i)%Z) (seq 2 20)
  /\ buffer_of self' "EURUSD" 50 = buffer_of self "EURUSD" 50 ++ [item].
Proof.
  intros self tick item self'.
  assert (Hsizes : WindowStore.window_sizes self = [20; 50; 100]%Z)
    by reflexivity.
  assert (Hnodup : NoDup (WindowStore.window_sizes self))
    by (rewrite Hsizes; apply (bool_decide_unpack _); reflexivity).
  assert (Hok : add_tick_outcome ln_approx sqrt_approx self tick = Py.Ok tt)
    by reflexivity.
  split; [exact Hnodup|]. split; [exact Hok|].
  destruct (add_tick_slides_windows ln_approx sqrt_approx self tick Hnodup Hok)
    as [Hin _].
  assert (H20 : 20%Z ∈ WindowStore.window_sizes self)
    by (rewrite Hsizes; apply elem_of_cons; left; reflexivity).
  assert (H50 : 50%Z ∈ WindowStore.window_sizes self)
    by (rewrite Hsizes; apply elem_of_cons; right; apply elem_of_cons; left;
        reflexivity).
  pose proof (proj2 (Hin 20%Z H20)) as E20.
  pose proof (proj2 (Hin 50%Z H50)) as E50.
  assert (L20 : length (buffer_of self "EURUSD" 20) = 20%nat) by reflexivity.
  assert (R20 : drop (length (buffer_of self (MarketTick.symbol tick) 20 ++ [item])
                - Z.to_nat 20)
               (buffer_of self (MarketTick.symbol tick) 20 ++ [item]) = tail (buffer_of self "EURUSD" 20) ++ [item]) by reflexivity.
  assert (R50 : drop (length (buffer_of self (MarketTick.symbol tick) 50 ++ [item])
                - Z.to_nat 50)
               (buffer_of self (MarketTick.symbol tick) 50 ++ [item]) = buffer_of self "EURUSD" 50 ++ [item]) by reflexivity.
  assert (T20 : map (fun entry : WindowStore.entry => entry.1.1)
         (tail (buffer_of self "EURUSD" 20) ++ [item])
     = map (fun i => (1000000 * Z.of_nat i)%Z) (seq 2 20)) by reflexivity.
  split; [exact L20|].
  split; [exact (eq_trans E20 R20)|].
  split; [exact (eq_trans (f_equal (map (fun entry : WindowStore.entry => entry.1.1)) (eq_trans E20 R20)) T20)|].
  exact (eq_trans E50 R50).
Defined.

(** A full 20-entry window of zero prices: the detection raises. *)
Lemma zero_price_makes_detection_raise_witness :
  let buffer :=
    map (fun i => ((1000000 * Z.of_nat i)%Z, 0, 1 # 100)) (seq 1 20) in
  Z.of_nat (length buffer) = 20%Z
  /\ (exists i item,
        buffer !! i = Some item /\ (S i < length buffer)%nat
        /\ item.1.2 == 0)
  /\ RealTimeFractalDetector._detect_pattern_in_window ln_approx sqrt_approx
       "EURUSD" buffer 20
     = Py.Raise Py.ZeroDivisionError.
Proof.
  intros buffer.
  assert (H1 : Z.of_nat (length buffer) = 20%Z) by reflexivity.
  assert (H2 : exists i item,
             buffer !! i = Some item /\ (S i < length buffer)%nat
             /\ item.1.2 == 0).
  { exists 0%nat, (1000000%Z, 0, 1 # 100).
    split; [reflexivity|]. split; [cbn; lia | reflexivity]. }
  split; [exact H1|]. split; [exact H2|].
  exact (zero_price_makes_detection_raise ln_approx sqrt_approx "EURUSD"
           buffer 20 H1 H2).
Defined.

(** The 20th zero-priced tick fills the 20-window, whose detection raises:
    nothing is returned and the 50- and 100-buffers still hold 19
    entries. *)
Lemma add_tick_failure_drops_tick_witness :
  let self := detector_after_19_zero_ticks in
  let tick := twentieth_zero_tick in
  let item :=
    (MarketTick.timestamp_us tick, MarketTick.price tick,
     MarketTick.volatility tick) in
  let buffer :=
    (WindowStore.trim (buffer_of self (MarketTick.symbol tick) 20 ++ [item])
       20).1 in
  let self' := (WindowStore.add_tick ln_approx sqrt_approx self tick).2 in
  WindowStore.window_sizes self = [20; 50; 100]%Z
  /\ (0 <= 20)%Z
  /\ Z.of_nat (length buffer) = 20%Z
  /\ RealTimeFractalDetector._detect_pattern_in_window ln_approx sqrt_approx
       (MarketTick.symbol tick) buffer 20
     = Py.Raise Py.ZeroDivisionError
  /\ (WindowStore.add_tick ln_approx sqrt_approx self tick).1 = []
  /\ length (buffer_of self' "EURUSD" 20) = 20%nat
  /\ length (buffer_of self' "EURUSD" 50) = 19%nat
  /\ length (buffer_of self' "EURUSD" 100) = 19%nat.
Proof.
  intros self tick item buffer self'.
  assert (H1 : WindowStore.window_sizes self = [20; 50; 100]%Z)
    by reflexivity.
  assert (H2 : (0 <= 20)%Z) by lia.
  assert (H3 : Z.of_nat (length buffer) = 20%Z) by reflexivity.
  assert (H4 : RealTimeFractalDetector._detect_pattern_in_window ln_approx
                 sqrt_approx (MarketTick.symbol tick) buffer 20
               = Py.Raise Py.ZeroDivisionError) by reflexivity.
  destruct (add_tick_failure_drops_tick ln_approx sqrt_approx self tick 20
              [50; 100]%Z Py.ZeroDivisionError H1 H2 H3 H4)
    as (Hnil & _ & Hfirst & Hothers).
  do 4 (split; [assumption|]). split; [exact Hnil|].
  unfold self'. split.
  - change "EURUSD"%string with (MarketTick.symbol tick).
    rewrite Hfirst. reflexivity.
  - change "EURUSD"%string with (MarketTick.symbol tick).
    rewrite (Hothers 50%Z), (Hothers 100%Z) by discriminate.
    split; reflexivity.
Defined.

(** ** Ledger across sequences of trades *)

Section LedgerSequences.

Import PortfolioManager.

Lemma book_trade_counters (self : PortfolioManager.t)
    (trade : TradeExecution.t) :
  total_trades (book_trade self trade) = (total_trades self + 1)%Z
  /\ (winning_trades self <= winning_trades (book_trade self trade)
      <= winning_trades self + 1)%Z
  /\ current_capital (book_trade self trade)
     == current_capital self + cash_flow trade.
Proof.
  unfold book_trade, cash_flow.
  destruct (TradeExecution.side trade);
    cbn [total_trades winning_trades current_capital].
  - split; [reflexivity|]. split; [lia|ring].
  - split; [reflexivity|]. split; [|ring].
    destruct (Py.ltb 0 _); lia.
Qed.

(** Every update counts as one trade and at most one win, and moves cash
    by exactly its cash flow: after any sequence of trades,
    [total_trades] has grown by the number of trades, [winning_trades] by
    at most as much, and cash by the sum of
    [-(quantity * price + commission)] per BUY and
    [quantity * price - commission] per SELL. *)
Theorem trade_counters_and_cash (self : PortfolioManager.t)
    (trades : list TradeExecution.t) :
  let s := apply_trades self trades in
  total_trades s = (total_trades self + Z.of_nat (length trades))%Z
  /\ (winning_trades self <= winning_trades s
      <= winning_trades self + Z.of_nat (length trades))%Z
  /\ current_capital s
     == current_capital self
        + fold_right (fun trade acc => cash_flow trade + acc) 0 trades
  /\ initial_capital s = initial_capital self.
Proof.
  revert self. induction trades as [|trade trades IH]; intros self.
  - cbn. split; [lia|]. split; [lia|]. split; [ring|reflexivity].
  - cbn zeta.
    change (apply_trades self (trade :: trades))
      with (apply_trades (update_position self trade).1.1 trades).
    specialize (IH (update_position self trade).1.1). cbn zeta in IH.
    destruct IH as (Ht & Hw & Hc & Hi).
    destruct (update_position_fields self trade)
      as (Hc1 & Ht1 & Hw1 & _ & Hi1 & _).
    destruct (book_trade_counters self trade) as (Ht0 & Hw0 & Hc0).
    rewrite Ht, Hc, Hi, Ht1, Hc1, Hi1, Ht0, Hc0.
    rewrite Hw1 in Hw. cbn [length fold_right].
    split; [lia|]. split; [lia|]. split; [ring|].
    unfold book_trade. destruct (TradeExecution.side trade); reflexivity.
Qed.

Lemma position_lookup_after_other_trades (self : PortfolioManager.t)
    (trades : list TradeExecution.t) (symbol : string) :
  Forall (fun trade => TradeExecution.symbol trade <> symbol) trades ->
  positions (apply_trades self trades) !! symbol = positions self !! symbol.
Proof.
  intros Hall. revert self.
  induction Hall as [|trade trades Hne _ IH]; intros self; [reflexivity|].
  change (apply_trades self (trade :: trades))
    with (apply_trades (update_position self trade).1.1 trades).
  rewrite IH. apply update_position_other. exact Hne.
Qed.

(** Trades on other symbols never change a position: not its quantity,
    not its average price, not its stored market value. *)
Theorem position_untouched_by_other_symbols (self : PortfolioManager.t)
    (trades : list TradeExecution.t) (symbol : string) :
  Forall (fun trade => TradeExecution.symbol trade <> symbol) trades ->
  positions (apply_trades self trades) !! symbol = positions self !! symbol.
Proof. apply position_lookup_after_other_trades. Qed.

(** After two EURUSD trades a held AAA position is what it was. *)
Lemma position_untouched_by_other_symbols_witness :
  let self := (update_position (__init__ 1000000) example_buy_AAA).1.1 in
  Forall (fun trade => TradeExecution.symbol trade <> "AAA"%string)
         [example_buy; example_sell]
  /\ positions (apply_trades self [example_buy; example_sell]) !! "AAA"%string
     = positions self !! "AAA"%string.
Proof.
  intros self.
  assert (H : Forall (fun trade => TradeExecution.symbol trade <> "AAA"%string)
                     [example_buy; example_sell])
    by (repeat constructor; discriminate).
  split; [exact H|].
  exact (position_untouched_by_other_symbols self _ "AAA" H).
Defined.

Lemma update_position_raises_iff_peak (self : PortfolioManager.t)
    (trade : TradeExecution.t) :
  forall e, (update_position self trade).2 = Py.Raise e ->
            peak_portfolio_value self == 0.
Proof.
  intros e. unfold update_position. cbn zeta.
  unfold calculate_portfolio_value.
  cbn [peak_portfolio_value max_drawdown].
  set (v := map_fold _ _ _).
  assert (Hpk : peak_portfolio_value (book_trade self trade)
                = peak_portfolio_value self)
    by (unfold book_trade; destruct (TradeExecution.side trade); reflexivity).
  rewrite Hpk.
  destruct (Py.ltb _ v); cbn [snd]; [discriminate|].
  unfold Py.div.
  destruct (Py.eqb (peak_portfolio_value self) 0) eqn:Ez; cbn [snd];
    [intros _; apply eqb_eq; exact Ez | discriminate].
Qed.

(** [update_position] raises exactly when the peak is zero and the
    recomputed value does not exceed it; cash, counters and the traded
    position have been written by then. *)
Theorem update_position_raises_iff (self : PortfolioManager.t)
    (trade : TradeExecution.t) :
  let r := update_position self trade in
  (r.2 = Py.Raise Py.ZeroDivisionError
   <-> peak_portfolio_value self == 0 /\ r.1.2 <= 0)
  /\ (r.2 = Py.Ok tt \/ r.2 = Py.Raise Py.ZeroDivisionError)
  /\ current_capital r.1.1 == current_capital self + cash_flow trade
  /\ total_trades r.1.1 = (total_trades self + 1)%Z.
Proof.
  cbn zeta.
  destruct (update_position_fields self trade) as (Hc1 & Ht1 & _).
  destruct (book_trade_counters self trade) as (Ht0 & _ & Hc0).
  rewrite Hc1, Ht1, Ht0, Hc0.
  split; [|split; [|split; reflexivity]];
    unfold update_position; cbn zeta; unfold calculate_portfolio_value;
    cbn [peak_portfolio_value max_drawdown];
    set (v := map_fold _ _ _);
    assert (Hpk : peak_portfolio_value (book_trade self trade)
                  = peak_portfolio_value self)
      by (unfold book_trade; destruct (TradeExecution.side trade);
          reflexivity);
    rewrite Hpk; set (pk := peak_portfolio_value self);
    destruct (Py.ltb pk v) eqn:E; cbn [fst snd].
  - apply ltb_lt in E. split; [discriminate|]. intros [H0 Hv]. lra.
  - apply ltb_ge in E. unfold Py.div.
    destruct (Py.eqb pk 0) eqn:Ez; cbn [fst snd].
    + apply eqb_eq in Ez. split; [intros _; split; [exact Ez|lra]|reflexivity].
    + apply eqb_neq in Ez. split; [discriminate|]. intros [H0 _].
      contradiction.
  - left. reflexivity.
  - unfold Py.div. destruct (Py.eqb pk 0); cbn [fst snd]; auto.
Qed.

End LedgerSequences.

(** ** Average entry price *)

Section AveragePrice.

Import PortfolioManager.

(** A BUY of [q > 0] on a position holding [quantity >= 0] sets the
    average price to the volume-weighted mean: the new cost basis
    [quantity' * average'] is the old one plus [q * price], and the new
    average lies between the old average and the trade price. *)
Theorem buy_sets_volume_weighted_average (self : PortfolioManager.t)
    (trade : TradeExecution.t) (position : Position.t) :
  positions self !! TradeExecution.symbol trade = Some position ->
  TradeExecution.side trade = BUY ->
  0 <= Position.quantity position ->
  0 < TradeExecution.quantity trade ->
  exists position',
    positions (update_position self trade).1.1 !! TradeExecution.symbol trade
      = Some position'
    /\ Position.quantity position'
       == Position.quantity position + TradeExecution.quantity trade
    /\ Position.quantity position' * Position.average_price position'
       == Position.quantity position * Position.average_price position
          + TradeExecution.quantity trade * TradeExecution.price trade
    /\ Qmin (Position.average_price position) (TradeExecution.price trade)
       <= Position.average_price position'
    /\ Position.average_price position'
       <= Qmax (Position.average_price position) (TradeExecution.price trade)
    /\ Position.realized_pnl position' = Position.realized_pnl position.
Proof.
  intros Hpos Hbuy Hq0 Hq.
  set (q0 := Position.quantity position) in *.
  set (a0 := Position.average_price position).
  set (q := TradeExecution.quantity trade) in *.
  set (p := TradeExecution.price trade).
  assert (Hne : Py.eqb (q0 + q) 0 = false) by (apply eqb_neq; lra).
  assert (Hb : positions (book_trade self trade) !! TradeExecution.symbol trade
               = Some (Position.mk (Position.symbol position) (q0 + q)
                         ((q0 * a0 + q * p) / (q0 + q))
                         (Position.market_value position)
                         (Position.unrealized_pnl position)
                         (Position.realized_pnl position)
                         (TradeExecution.timestamp_us trade))).
  { unfold book_trade. rewrite Hbuy, Hpos. cbn [positions].
    rewrite lookup_insert_eq. fold q0 q a0 p. rewrite Hne. reflexivity. }
  pose proof (update_position_traded self trade _ Hb) as Hl.
  rewrite refresh_traded in Hl.
  eexists. split; [exact Hl|].
  cbn [Position.quantity Position.average_price Position.realized_pnl].
  set (avg := (q0 * a0 + q * p) / (q0 + q)).
  assert (Hbasis : (q0 + q) * avg == q0 * a0 + q * p)
    by (unfold avg; field; lra).
  split; [reflexivity|]. split; [exact Hbasis|].
  destruct (Q.min_spec a0 p) as [[Hlt Hmin]|[Hge Hmin]];
    destruct (Q.max_spec a0 p) as [[Hlt' Hmax]|[Hge' Hmax]];
    rewrite Hmin, Hmax; repeat split; try reflexivity;
    unfold avg; try (apply Qle_shift_div_l; [lra|nra]);
    try (apply Qle_shift_div_r; [lra|nra]).
Qed.

(** A second purchase: 1000 EURUSD at 1.1050 on top of 1000 at 1.1000. *)
Lemma buy_sets_volume_weighted_average_witness :
  let self := (update_position (__init__ 1000000) example_buy).1.1 in
  let trade :=
    TradeExecution.mk "T7" "O7" "EURUSD" BUY 1000 (1105 # 1000) 7 0
      (5525 # 10000) None in
  exists position position',
    positions self !! TradeExecution.symbol trade = Some position
    /\ TradeExecution.side trade = BUY
    /\ 0 <= Position.quantity position
    /\ 0 < TradeExecution.quantity trade
    /\ positions (update_position self trade).1.1
         !! TradeExecution.symbol trade = Some position'
    /\ Position.quantity position' * Position.average_price position'
       == 1000 * (11 # 10) + 1000 * (1105 # 1000).
Proof.
  intros self trade.
  assert (Hpos : exists position,
             positions self !! TradeExecution.symbol trade = Some position
             /\ Position.quantity position == 1000
             /\ Position.average_price position == 11 # 10).
  { eexists. split; [reflexivity|]. split; reflexivity. }
  destruct Hpos as (position & Hpos & Hq0 & Ha0).
  assert (H1 : 0 <= Position.quantity position) by (rewrite Hq0; discriminate).
  assert (H2 : 0 < TradeExecution.quantity trade) by reflexivity.
  destruct (buy_sets_volume_weighted_average self trade position Hpos
              eq_refl H1 H2) as (position' & Hl & _ & Hbasis & _).
  exists position, position'.
  split; [exact Hpos|]. split; [reflexivity|]. split; [exact H1|].
  split; [exact H2|]. split; [exact Hl|].
  rewrite Hbasis, Hq0, Ha0. reflexivity.
Defined.

(** A SELL never changes the average price of the position, and neither
    does a BUY that brings the quantity to exactly zero (the division is
    skipped). *)
Theorem average_price_kept (self : PortfolioManager.t)
    (trade : TradeExecution.t) (position : Position.t) :
  positions self !! TradeExecution.symbol trade = Some position ->
  TradeExecution.side trade = SELL
  \/ Position.quantity position + TradeExecution.quantity trade == 0 ->
  exists position',
    positions (update_position self trade).1.1 !! TradeExecution.symbol trade
      = Some position'
    /\ Position.average_price position' = Position.average_price position.
Proof.
  intros Hpos Hcase.
  assert (Hb : exists booked,
             positions (book_trade self trade) !! TradeExecution.symbol trade
             = Some booked
             /\ Position.average_price booked
                = Position.average_price position).
  { unfold book_trade. rewrite Hpos.
    destruct (TradeExecution.side trade) eqn:Hside; cbn [positions];
      rewrite lookup_insert_eq; eexists; (split; [reflexivity|]);
      cbn [Position.average_price]; [|reflexivity].
    destruct Hcase as [H|H]; [discriminate H|].
    apply eqb_eq in H. rewrite H. reflexivity. }
  destruct Hb as (booked & Hb & Havg).
  pose proof (update_position_traded self trade _ Hb) as Hl.
  rewrite refresh_traded in Hl.
  eexists. split; [exact Hl|]. exact Havg.
Qed.

(** Selling the 1000 EURUSD bought at 1.1000 leaves the average at
    1.1000. *)
Lemma average_price_kept_witness :
  let self := (update_position (__init__ 1000000) example_buy).1.1 in
  exists position position',
    positions self !! TradeExecution.symbol example_sell = Some position
    /\ (TradeExecution.side example_sell = SELL
        \/ Position.quantity position + TradeExecution.quantity example_sell
           == 0)
    /\ positions (update_position self example_sell).1.1
         !! TradeExecution.symbol example_sell = Some position'
    /\ Position.average_price position'
       = Position.average_price position.
Proof.
  intros self.
  assert (Hpos : exists position,
             positions self !! TradeExecution.symbol example_sell
             = Some position)
    by (eexists; reflexivity).
  destruct Hpos as (position & Hpos).
  destruct (average_price_kept self example_sell position Hpos
              (or_introl eq_refl)) as (position' & Hl & Havg).
  exists position, position'.
  split; [exact Hpos|]. split; [left; reflexivity|].
  split; [exact Hl | exact Havg].
Defined.

End AveragePrice.

(** ** Marking the whole portfolio *)

Section MarkToMarket.

Import PortfolioManager.

Lemma sum_market_value_insert (m : gmap string Position.t) (i : string)
    (x : Position.t) :
  m !! i = None ->
  sum_market_value (<[i := x]> m)
  == sum_market_value m + Position.market_value x.
Proof.
  intros Hi. unfold sum_market_value.
  apply (map_fold_insert Qeq
           (fun (_ : string) (pos : Position.t) (acc : Q) =>
              acc + Position.market_value pos) 0 i x m).
  - intros j z a b Hab. rewrite Hab. reflexivity.
  - intros j1 j2 z1 z2 y _ _ _. ring.
  - exact Hi.
Qed.

(** [calculate_portfolio_value], whatever [current_prices] holds, never
    changes cash, the counters, the peak or the maximum drawdown, keeps the
    set of held symbols and every position's quantity, average price and
    realized PnL; a position whose symbol has a price is re-marked at it
    and one without a price is left exactly as it was.  When
    [current_prices] has a price for every held symbol, the returned total
    is cash plus the sum of the stored market values, the figure
    [check_risk_limits] then works with. *)
Theorem calculate_portfolio_value_marks_all (self : PortfolioManager.t)
    (current_prices : gmap string Q) :
  let r := calculate_portfolio_value self current_prices in
  current_capital r.2 = current_capital self
  /\ total_trades r.2 = total_trades self
  /\ winning_trades r.2 = winning_trades self
  /\ total_pnl r.2 = total_pnl self
  /\ peak_portfolio_value r.2 = peak_portfolio_value self
  /\ max_drawdown r.2 = max_drawdown self
  /\ (forall symbol,
        match positions self !! symbol, positions r.2 !! symbol with
        | Some position, Some position' =>
            Position.quantity position' = Position.quantity position
            /\ Position.average_price position'
               = Position.average_price position
            /\ Position.realized_pnl position'
               = Position.realized_pnl position
            /\ match current_prices !! symbol with
               | Some price =>
                   Position.market_value position'
                   = Position.quantity position * price
                   /\ Position.unrealized_pnl position'
                      = Position.quantity position * price
                        - Position.quantity position
                          * Position.average_price position
               | None => position' = position
               end
        | None, None => True
        | _, _ => False
        end)
  /\ ((forall symbol position,
         positions self !! symbol = Some position ->
         is_Some (current_prices !! symbol)) ->
      r.1 == cash_plus_marked_positions r.2).
Proof.
  intros r. subst r. unfold calculate_portfolio_value.
  cbn [fst snd]. unfold cash_plus_marked_positions.
  cbn [current_capital positions total_trades winning_trades total_pnl
       peak_portfolio_value max_drawdown].
  do 6 (split; [reflexivity|]). split.
  - intros symbol. rewrite map_lookup_imap.
    destruct (positions self !! symbol) as [position|] eqn:E; [|exact I].
    cbn. unfold refresh.
    destruct (current_prices !! symbol) as [price|];
      cbn [Position.quantity Position.average_price Position.realized_pnl
           Position.market_value Position.unrealized_pnl]; auto.
  - apply (map_fold_weak_ind
             (fun (v : Q) (m : gmap string Position.t) =>
                (forall symbol position,
                   m !! symbol = Some position ->
                   is_Some (current_prices !! symbol)) ->
                v == current_capital self
                     + sum_market_value
                         (map_imap (fun symbol position =>
                                      Some (refresh current_prices symbol
                                              position)) m))).
    + intros _. rewrite map_imap_empty. unfold sum_market_value.
      rewrite map_fold_empty. ring.
    + intros i x m v Hi IH Hcov.
      assert (Hcov' : forall symbol position,
                m !! symbol = Some position ->
                is_Some (current_prices !! symbol)).
      { intros s p Hs. apply (Hcov s p).
        rewrite lookup_insert_ne; [exact Hs|]. intros ->. congruence. }
      specialize (IH Hcov').
      destruct (Hcov i x (lookup_insert_eq _ _ _)) as [price Hprice].
      rewrite Hprice.
      rewrite (map_imap_insert_Some _ i x m
                 (refresh current_prices i x)) by reflexivity.
      rewrite sum_market_value_insert
        by (rewrite map_lookup_imap, Hi; reflexivity).
      rewrite IH. unfold refresh. rewrite Hprice.
      cbn [Position.market_value]. ring.
Qed.

(** Marking the two held symbols AAA and BBB: at 2.00 and 0.50 the total
    is cash plus both marks; with a price for AAA alone, BBB stays as it
    was. *)
Lemma calculate_portfolio_value_marks_all_witness :
  let self :=
    apply_trades (__init__ 1000000) [example_buy_AAA; example_buy_BBB] in
  let current_prices : gmap string Q :=
    <["AAA"%string := 2]> (<["BBB"%string := 1 # 2]> ∅) in
  (forall symbol position,
     positions self !! symbol = Some position ->
     is_Some (current_prices !! symbol))
  /\ (calculate_portfolio_value self current_prices).1
     == cash_plus_marked_positions
          (calculate_portfolio_value self current_prices).2
  /\ (calculate_portfolio_value self current_prices).1 == 1019960
  /\ positions (calculate_portfolio_value self {["AAA"%string := 2]}).2
       !! "BBB"%string
     = positions self !! "BBB"%string.
Proof.
  intros self current_prices.
  assert (Hcov : forall symbol position,
            positions self !! symbol = Some position ->
            is_Some (current_prices !! symbol)).
  { intros symbol position Hs.
    destruct (decide (symbol = "AAA"%string)) as [->|Ha];
      [eexists; reflexivity|].
    destruct (decide (symbol = "BBB"%string)) as [->|Hb];
      [eexists; reflexivity|].
    exfalso.
    assert (Hpos : positions self !! symbol = None).
    { unfold self.
      rewrite (position_lookup_after_other_trades (__init__ 1000000)
                 [example_buy_AAA; example_buy_BBB] symbol).
      - reflexivity.
      - repeat constructor; cbn; congruence. }
    congruence. }
  split; [exact Hcov|].
  split.
  - pose proof (calculate_portfolio_value_marks_all self current_prices)
      as Hmarks.
    cbn zeta in Hmarks.
    destruct Hmarks as (_ & _ & _ & _ & _ & _ & _ & Hall).
    exact (Hall Hcov).
  - split; reflexivity.
Defined.

End MarkToMarket.

(** ** Execution price *)

Section ExecutionPrice.

Import Execution.

Lemma round_half_even_mono (x y : Q) :
  x <= y -> (round_half_even x <= round_half_even y)%Z.
Proof.
  intros Hxy. unfold round_half_even.
  pose proof (Qfloor_resp_le x y Hxy) as Hfg.
  pose proof (Qfloor_le x) as Hx1. pose proof (Qlt_floor x) as Hx2.
  pose proof (Qfloor_le y) as Hy1. pose proof (Qlt_floor y) as Hy2.
  set (f := Qfloor x) in *. set (g := Qfloor y) in *.
  destruct (Z_lt_le_dec f g) as [Hlt|Hge].
  - destruct (Py.ltb (x - inject_Z f) (1 # 2));
      destruct (Py.ltb (1 # 2) (x - inject_Z f));
      destruct (Z.even f);
      destruct (Py.ltb (y - inject_Z g) (1 # 2));
      destruct (Py.ltb (1 # 2) (y - inject_Z g));
      destruct (Z.even g); lia.
  - assert (Hfg' : f = g) by lia. rewrite <- Hfg' in *. clear Hfg' Hge Hfg.
    destruct (Py.ltb (x - inject_Z f) (1 # 2)) eqn:E1;
      [apply ltb_lt in E1 | apply ltb_ge in E1];
      destruct (Py.ltb (1 # 2) (x - inject_Z f)) eqn:E2;
      try (apply ltb_lt in E2); try (apply ltb_ge in E2);
      destruct (Py.ltb (y - inject_Z f) (1 # 2)) eqn:E3;
      try (apply ltb_lt in E3); try (apply ltb_ge in E3);
      destruct (Py.ltb (1 # 2) (y - inject_Z f)) eqn:E4;
      try (apply ltb_lt in E4); try (apply ltb_ge in E4);
      destruct (Z.even f); first [lia | exfalso; lra].
Qed.


Lemma round_half_even_near (x : Q) :
  inject_Z (round_half_even x) - (1 # 2) <= x
  /\ x <= inject_Z (round_half_even x) + (1 # 2).
Proof.
  unfold round_half_even.
  pose proof (Qfloor_le x) as Hx1. pose proof (Qlt_floor x) as Hx2.
  set (f := Qfloor x) in *.
  rewrite inject_Z_plus in Hx2. change (inject_Z 1) with 1 in Hx2.
  destruct (Py.ltb (x - inject_Z f) (1 # 2)) eqn:E1;
    [apply ltb_lt in E1 | apply ltb_ge in E1];
    destruct (Py.ltb (1 # 2) (x - inject_Z f)) eqn:E2;
    try (apply ltb_lt in E2); try (apply ltb_ge in E2);
    destruct (Z.even f); rewrite ?inject_Z_plus;
    change (inject_Z 1) with 1; split; lra.
Qed.

Lemma round4_mono (x y : Q) : x <= y -> round4 x <= round4 y.
Proof.
  intros Hxy. unfold round4.
  assert (H : (round_half_even (x * 10000) <= round_half_even (y * 10000))%Z)
    by (apply round_half_even_mono; lra).
  unfold Qle. cbn. lia.
Qed.

(** [round(x, 4)] is a multiple of 0.0001 within 0.00005 of [x]. *)
Lemma round4_near (x : Q) :
  round4 x - (1 # 20000) <= x /\ x <= round4 x + (1 # 20000).
Proof.
  unfold round4.
  destruct (round_half_even_near (x * 10000)) as [H1 H2].
  set (z := round_half_even (x * 10000)) in *.
  assert (Hz : z # 10000 == inject_Z z * (1 # 10000)).
  { unfold Qeq, Qmult, inject_Z. cbn. lia. }
  rewrite Hz. split; lra.
Qed.

End ExecutionPrice.

(** ** Executing one order *)

Section ExecuteOrder.

Import Execution.

(** For a non-negative market price the execution price is a multiple
    of 0.0001.  A MARKET BUY fills within 0.00005 of
    [current_price * (1 + |gauss|)] and never below the rounded market
    price; a MARKET SELL within 0.00005 of
    [current_price * (1 - |gauss|)] and never above the rounded market
    price.  A LIMIT BUY fills at the rounded limit or the rounded market
    price, whichever is lower; a LIMIT SELL at whichever is higher.  Every
    other order fills at the rounded market price. *)
Theorem execution_price_side (order : Order.t) (current_price gauss : Q) :
  0 <= current_price ->
  let price := _calculate_execution_price order current_price gauss in
  (exists z : Z, price = z # 10000)
  /\ match Order.order_type order, Order.side order, Order.price order with
     | MARKET, BUY, _ =>
         round4 current_price <= price
         /\ price - (1 # 20000) <= current_price * (1 + Qabs gauss)
         /\ current_price * (1 + Qabs gauss) <= price + (1 # 20000)
     | MARKET, SELL, _ =>
         price <= round4 current_price
         /\ price - (1 # 20000) <= current_price * (1 - Qabs gauss)
         /\ current_price * (1 - Qabs gauss) <= price + (1 # 20000)
     | LIMIT, BUY, Some limit =>
         price <= round4 limit /\ price <= round4 current_price
         /\ (price = round4 limit \/ price = round4 current_price)
     | LIMIT, SELL, Some limit =>
         round4 limit <= price /\ round4 current_price <= price
         /\ (price = round4 limit \/ price = round4 current_price)
     | _, _, _ => price = round4 current_price
     end.
Proof.
  intros Hp price. subst price. unfold _calculate_execution_price.
  cbn zeta. split; [unfold round4; eexists; reflexivity|].
  pose proof (Qabs_nonneg gauss) as Hg.
  destruct (Order.order_type order); try reflexivity.
  - destruct (Order.side order).
    + split; [apply round4_mono; nra|].
      destruct (round4_near (current_price * (1 + Qabs gauss))); split; lra.
    + split; [apply round4_mono; nra|].
      destruct (round4_near (current_price * (1 + - Qabs gauss))) as [H1 H2].
      assert (E : current_price * (1 - Qabs gauss)
                  == current_price * (1 + - Qabs gauss)) by ring.
      rewrite E. split; lra.
  - destruct (Order.price order) as [limit|];
      [|destruct (Order.side order); reflexivity].
    destruct (Order.side order).
    + destruct (min_cases limit current_price) as [[H ->]|[H ->]];
        (split; [apply round4_mono; lra|]);
        (split; [apply round4_mono; lra|]); auto.
    + destruct (max_cases limit current_price) as [[H ->]|[H ->]];
        (split; [apply round4_mono; lra|]);
        (split; [apply round4_mono; lra|]); auto.
Qed.

(** A MARKET BUY at mid 1.1000 with a slippage draw of -0.00012 fills at
    1.1001: above the mid, and within 0.00005 of 1.1000 * 1.00012. *)
Lemma execution_price_side_witness :
  let price :=
    _calculate_execution_price example_market_buy (11 # 10)
      (- (12 # 100000)) in
  0 <= 11 # 10
  /\ round4 (11 # 10) <= price
  /\ price - (1 # 20000) <= (11 # 10) * (1 + Qabs (- (12 # 100000)))
  /\ (11 # 10) * (1 + Qabs (- (12 # 100000))) <= price + (1 # 20000)
  /\ price == 11001 # 10000.
Proof.
  intros price.
  assert (H : 0 <= 11 # 10) by discriminate.
  split; [exact H|].
  destruct (proj2 (execution_price_side example_market_buy (11 # 10)
                     (- (12 # 100000)) H)) as (H1 & H2 & H3).
  split; [exact H1|]. split; [exact H2|]. split; [exact H3 | reflexivity].
Defined.

(** Whatever the order, [_execute_order] ends with the order FILLED or
    REJECTED, never changes its identity, side, type, quantity or limit
    price, leaves the queue and the market data alone, and keeps at most
    10000 latency samples.  A REJECTED order has no fill recorded on it by
    the call, and the portfolio is untouched unless the rejection comes
    from an update that raised on a zero peak. *)
Theorem execute_order_bookkeeping (self : Execution.t)
    (start_time_us execution_time_us : Z) (gauss : Q) (order : Order.t) :
  let r := _execute_order self start_time_us execution_time_us gauss order in
  (Order.execution_status r.1 = FILLED
   \/ Order.execution_status r.1 = REJECTED
      /\ Order.filled_quantity r.1 = Order.filled_quantity order
      /\ Order.average_fill_price r.1 = Order.average_fill_price order
      /\ Order.commission r.1 = Order.commission order
      /\ execution_latencies r.2 = execution_latencies self
      /\ trades_executed r.2 = trades_executed self
      /\ (portfolio_manager r.2 = portfolio_manager self
          \/ PortfolioManager.peak_portfolio_value (portfolio_manager self)
             == 0))
  /\ Order.order_id r.1 = Order.order_id order
  /\ Order.symbol r.1 = Order.symbol order
  /\ Order.side r.1 = Order.side order
  /\ Order.order_type r.1 = Order.order_type order
  /\ Order.quantity r.1 = Order.quantity order
  /\ Order.price r.1 = Order.price order
  /\ OrderExecutionEngine.execution_queue (engine r.2)
     = OrderExecutionEngine.execution_queue (engine self)
  /\ OrderExecutionEngine.market_data (engine r.2)
     = OrderExecutionEngine.market_data (engine self)
  /\ (Z.of_nat (length (execution_latencies r.2))
      <= Z.max (Z.of_nat (length (execution_latencies self))) 10000)%Z.
Proof.
  cbn zeta. unfold _execute_order.
  destruct (OrderExecutionEngine.market_data (engine self)
            !! Order.symbol order) as [current_price|].
  2: { cbn. split; [right; repeat split; auto|]. repeat split; lia. }
  destruct (PortfolioManager.check_risk_limits _ _ _) as [[|] msg];
    cbn [negb].
  2: { cbn. split; [right; repeat split; auto|]. repeat split; lia. }
  match goal with
  | |- context [PortfolioManager.update_position ?pm ?t] =>
      pose proof (update_position_raises_iff_peak pm t) as Hraise;
      destruct (PortfolioManager.update_position pm t) as [[pm' v] [u|e]]
  end; cbn [fst snd] in *.
  - split; [left; reflexivity|].
    cbn [set_filled Order.order_id Order.symbol Order.side Order.order_type
         Order.quantity Order.price engine execution_latencies].
    repeat split.
    unfold append_latency.
    destruct (10000 <? Z.of_nat (length (execution_latencies self ++ _)))%Z
      eqn:E.
    + rewrite length_tl, length_app. cbn [length]. lia.
    + apply Z.ltb_ge in E. lia.
  - cbn. split.
    + right. repeat split; auto. right. apply (Hraise e). reflexivity.
    + repeat split; lia.
Qed.

End ExecuteOrder.

Section FilledOrders.

Import Execution.

Lemma append_latency_last (latencies : list Z) (x : Z) :
  last (append_latency latencies x) = Some x.
Proof.
  unfold append_latency.
  destruct (10000 <? Z.of_nat (length (latencies ++ [x])))%Z eqn:E;
    [|apply last_snoc].
  destruct latencies as [|a rest].
  - cbn in E. discriminate.
  - cbn [app tail]. apply last_snoc.
Qed.

(** An order that comes back FILLED had market data and passed the risk
    gate; it is filled in full at the execution price, its commission is
    quantity * price * 0.0005, the portfolio's cash has moved by exactly
    that trade (out for a BUY, in for a SELL, commission included), one
    trade is counted, the latency is the newest sample and no error is
    counted. *)
Theorem filled_order_accounting (self : Execution.t)
    (start_time_us execution_time_us : Z) (gauss : Q) (order : Order.t) :
  let r := _execute_order self start_time_us execution_time_us gauss order in
  Order.execution_status r.1 = FILLED ->
  exists current_price,
    OrderExecutionEngine.market_data (engine self) !! Order.symbol order
      = Some current_price
    /\ (PortfolioManager.check_risk_limits (portfolio_manager self) order
          current_price).1 = true
    /\ Order.filled_quantity r.1 = Order.quantity order
    /\ Order.average_fill_price r.1
       = _calculate_execution_price order current_price gauss
    /\ Order.commission r.1
       = Order.quantity order * Order.average_fill_price r.1 * (5 # 10000)
    /\ PortfolioManager.current_capital (portfolio_manager r.2)
       == PortfolioManager.current_capital (portfolio_manager self)
          + match Order.side order with
            | BUY =>
                - (Order.quantity order * Order.average_fill_price r.1
                   + Order.commission r.1)
            | SELL =>
                Order.quantity order * Order.average_fill_price r.1
                - Order.commission r.1
            end
    /\ PortfolioManager.total_trades (portfolio_manager r.2)
       = (PortfolioManager.total_trades (portfolio_manager self) + 1)%Z
    /\ trades_executed r.2 = (trades_executed self + 1)%Z
    /\ last (execution_latencies r.2)
       = Some (execution_time_us - start_time_us)%Z
    /\ OrderExecutionEngine.execution_errors (engine r.2)
       = OrderExecutionEngine.execution_errors (engine self).
Proof.
  cbn zeta. unfold _execute_order.
  destruct (OrderExecutionEngine.market_data (engine self)
            !! Order.symbol order) as [current_price|]; [|discriminate].
  destruct (PortfolioManager.check_risk_limits _ _ _) as [[|] msg] eqn:Hrisk;
    cbn [negb]; [|discriminate].
  match goal with
  | |- context [PortfolioManager.update_position ?pm ?t] =>
      pose proof (update_position_fields pm t) as Hfields;
      pose proof (book_trade_counters pm t) as Hbook;
      destruct (PortfolioManager.update_position pm t) as [[pm' v] [u|e]]
  end; cbn [fst snd] in *; [|discriminate].
  intros _. exists current_price.
  cbn [set_filled Order.filled_quantity Order.average_fill_price
       Order.commission portfolio_manager trades_executed
       execution_latencies engine].
  split; [reflexivity|]. split; [rewrite Hrisk; reflexivity|].
  do 3 (split; [reflexivity|]).
  destruct Hfields as (Hc & Ht & _). destruct Hbook as (Ht0 & _ & Hc0).
  split.
  { rewrite Hc, Hc0. unfold cash_flow, commission_rate.
    cbn [TradeExecution.side TradeExecution.quantity TradeExecution.price
         TradeExecution.commission].
    destruct (Order.side order); reflexivity. }
  split; [rewrite Ht, Ht0; reflexivity|].
  split; [reflexivity|].
  split; [apply append_latency_last | reflexivity].
Qed.

(** The market BUY of 1000 EURUSD at mid 1.1000 with a slippage draw of
    0.00012: filled at 1.1001, commission 0.55005. *)
Lemma filled_order_accounting_witness :
  let r :=
    _execute_order example_execution 100 130 (12 # 100000)
      example_market_buy in
  Order.execution_status r.1 = FILLED
  /\ Order.average_fill_price r.1 == 11001 # 10000
  /\ PortfolioManager.current_capital (portfolio_manager r.2)
     == 1000000 - (1000 * (11001 # 10000) + (55005 # 100000)).
Proof.
  intros r.
  assert (H : Order.execution_status r.1 = FILLED) by reflexivity.
  destruct (filled_order_accounting example_execution 100 130 (12 # 100000)
              example_market_buy H)
    as (current_price & _ & _ & _ & _ & _ & Hcash & _).
  fold r in Hcash.
  split; [exact H|]. split; [reflexivity|].
  rewrite Hcash. reflexivity.
Defined.

End FilledOrders.

(** ** Submitting at a priority not yet queued *)

Section DistinctPriorities.

Lemma siftdown_distinct_priority (fuel : nat) (heap : list heapq.item)
    (pos : nat) (newitem : heapq.item) :
  heap !! pos = Some newitem ->
  (forall i x, i <> pos -> heap !! i = Some x -> x.1 <> newitem.1) ->
  (heapq.siftdown fuel heap 0 pos).2 = Py.Ok tt.
Proof.
  revert heap pos.
  induction fuel as [|fuel IH]; intros heap pos Hpos Hothers;
    cbn [heapq.siftdown]; [reflexivity|].
  destruct (0 <? pos)%nat eqn:E; [|reflexivity].
  apply Nat.ltb_lt in E. rewrite Hpos.
  assert (Hlt : ((pos - 1) / 2 < pos)%nat).
  { apply Nat.Div0.div_lt_upper_bound. lia. }
  assert (Hlen : (pos < length heap)%nat)
    by (apply lookup_lt_is_Some; eexists; exact Hpos).
  destruct (lookup_lt_is_Some_2 heap ((pos - 1) / 2)%nat) as [parent Hparent];
    [lia|].
  rewrite Hparent.
  assert (Hne : parent.1 <> newitem.1)
    by (apply (Hothers ((pos - 1) / 2)%nat); [lia | exact Hparent]).
  unfold heapq.lt.
  assert (Heq : (newitem.1 =? parent.1)%Z = false)
    by (apply Z.eqb_neq; congruence).
  rewrite Heq. cbn [negb].
  destruct (newitem.1 <? parent.1)%Z; [|reflexivity].
  apply IH.
  - rewrite list_lookup_insert_ne by lia.
    apply list_lookup_insert_eq. lia.
  - intros i x Hi Hx.
    destruct (decide (i = pos)) as [->|Hip].
    + rewrite list_lookup_insert_eq in Hx
        by (rewrite length_insert; exact Hlen).
      injection Hx as <-. exact Hne.
    + rewrite list_lookup_insert_ne in Hx by congruence.
      rewrite list_lookup_insert_ne in Hx by congruence.
      apply (Hothers i x); [exact Hip | exact Hx].
Qed.

(** Submitting an order at a priority that no queued order has never
    raises: the error counter stays and the queue grows by the order.  (With
    the two priorities in use this covers the empty queue, a HIGH order
    joining MEDIUM ones and a MEDIUM order joining HIGH ones.) *)
Theorem submit_at_new_priority_succeeds (engine : OrderExecutionEngine.t)
    (now : Z) (order : Order.t) (priority : Z) :
  Forall (fun queued : heapq.item => queued.1 <> priority)
         (OrderExecutionEngine.execution_queue engine) ->
  let engine' := OrderExecutionEngine.submit_order engine now order priority in
  OrderExecutionEngine.execution_errors engine'
    = OrderExecutionEngine.execution_errors engine
  /\ length (OrderExecutionEngine.execution_queue engine')
     = S (length (OrderExecutionEngine.execution_queue engine))
  /\ (priority, Order.set_timestamp_us now order)
       ∈ OrderExecutionEngine.execution_queue engine'.
Proof.
  intros Hqueue. cbn zeta. unfold OrderExecutionEngine.submit_order.
  set (x := (priority, Order.set_timestamp_us now order)).
  set (queue := OrderExecutionEngine.execution_queue engine) in *.
  unfold heapq.heappush.
  assert (Hlast : (queue ++ [x]) !! (length (queue ++ [x]) - 1)%nat = Some x).
  { rewrite length_app. cbn [length].
    replace (length queue + 1 - 1)%nat with (length queue) by lia.
    apply list_lookup_middle. reflexivity. }
  pose proof (siftdown_distinct_priority (length (queue ++ [x])) (queue ++ [x])
                (length (queue ++ [x]) - 1) x Hlast) as Hok.
  pose proof (siftdown_keeps_item (length (queue ++ [x])) (queue ++ [x])
                (length (queue ++ [x]) - 1) x Hlast) as [i Hi].
  pose proof (siftdown_length (length (queue ++ [x])) (queue ++ [x]) 0
                (length (queue ++ [x]) - 1)) as Hlen.
  destruct (heapq.siftdown _ _ _ _) as [queue' [u|e]]; cbn [fst snd] in *.
  - split; [reflexivity|]. split.
    + cbn [OrderExecutionEngine.execution_queue].
      rewrite Hlen, length_app. cbn [length]. lia.
    + apply list_elem_of_lookup. exists i. exact Hi.
  - exfalso. enough (Py.Raise e = Py.Ok tt :> Py.result unit) by discriminate.
    apply Hok. intros k y Hk Hy.
    rewrite length_app in Hk. cbn [length] in Hk.
    rewrite lookup_app_l in Hy.
    + apply list_elem_of_lookup_2 in Hy.
      rewrite Forall_forall in Hqueue. exact (Hqueue y Hy).
    + apply lookup_lt_Some in Hy. rewrite length_app in Hy.
      cbn [length] in Hy. unfold heapq.item in *. lia.
Qed.

(** A HIGH order joining a queue that holds one MEDIUM order. *)
Lemma submit_at_new_priority_succeeds_witness :
  let engine := OrderExecutionEngine.mk [(1%Z, order_A)] ∅ 0 in
  let engine' := OrderExecutionEngine.submit_order engine 2 order_B 0 in
  OrderExecutionEngine.execution_errors engine' = 0%Z
  /\ length (OrderExecutionEngine.execution_queue engine') = 2%nat.
Proof.
  intros engine engine'.
  assert (H : Forall (fun queued : heapq.item => queued.1 <> 0%Z)
                     (OrderExecutionEngine.execution_queue engine)).
  { constructor; [discriminate | constructor]. }
  destruct (submit_at_new_priority_succeeds engine 2 order_B 0 H)
    as (Herr & Hlen & _).
  split; [exact Herr | exact Hlen].
Defined.


End DistinctPriorities.
